(** * TradingView-to-MT5 bridge: command pipeline and staged-exit manager

    A shallow embedding of
      - [server/storage.ts]  (class [MemStorage]: the in-memory stores),
      - [server/routes.ts]   (the webhook, the MT5 channel connection handler
                              and the execution-report handler),
      - [mt5-files/TradingViewWebSocket_EA.mq5] ([ExecuteTrade],
                              [ManagePartialExits] and their helpers),
    followed by the properties of the command state machine, of signal
    de-duplication, of the reconnection replay and of the partial-exit
    arithmetic.

    Conventions.  [new Date()] / [Date.now()] is an explicit argument
    [now : Z] (milliseconds); [randomUUID()] is an explicit argument holding
    the identifier that the call returns.  A JavaScript [Map] is an
    association list in insertion order, because [Array.from(m.values())]
    enumerates in that order and the replay loop depends on it. *)

From Stdlib Require Import List String Ascii ZArith QArith Qround Qabs Bool Lia
  Lqa Sorted DecimalString Permutation.
Import ListNotations.

Local Open Scope Z_scope.

(* ------------------------------------------------------------------ *)
(** ** JavaScript [Map<string, V>] in insertion order                  *)
(* ------------------------------------------------------------------ *)

Module JsMap.

Section Defs.
Context {V : Type}.

Definition t : Type := list (string * V).

Definition empty : t := [].

(** [m.get(k)] *)
Fixpoint get (k : string) (m : t) : option V :=
  match m with
  | [] => None
  | (k', v) :: r => if String.eqb k k' then Some v else get k r
  end.

(** [m.set(k, v)]: an existing key keeps its position, a new key is
    appended. *)
Fixpoint set (k : string) (v : V) (m : t) : t :=
  match m with
  | [] => [(k, v)]
  | (k', v') :: r =>
      if String.eqb k k' then (k', v) :: r else (k', v') :: set k v r
  end.

(** [m.delete(k)] *)
Fixpoint delete (k : string) (m : t) : t :=
  match m with
  | [] => []
  | (k', v') :: r =>
      if String.eqb k k' then r else (k', v') :: delete k r
  end.

(** [Array.from(m.values())] *)
Definition values (m : t) : list V := map snd m.

Definition keys (m : t) : list string := map fst m.

End Defs.

Arguments t V : clear implicits.

End JsMap.


(* ------------------------------------------------------------------ *)
(** ** Data model ([shared/schema.ts])                                 *)
(* ------------------------------------------------------------------ *)

(** [signals.type] / [mt5Commands.type]: ['BUY' | 'SELL'] *)
Inductive TradeType : Type := BUY | SELL.

(** [signals.status]: ['pending' | 'executed' | 'failed'] *)
Inductive SignalStatus : Type := sig_pending | sig_executed | sig_failed.

(** [mt5Commands.status]: ['pending' | 'sent' | 'acknowledged' | 'failed'] *)
Inductive CommandStatus : Type :=
  cmd_pending | cmd_sent | cmd_acknowledged | cmd_failed.

(** [mt5Commands.action]: ['TRADE' | 'CLOSE' | 'PING'] *)
Inductive Action : Type := TRADE | CLOSE | PING.

(** [trades.status]: ['open' | 'closed' | 'failed'] *)
Inductive TradeStatus : Type := trade_open | trade_closed | trade_failed.

Definition TradeType_eqb (a b : TradeType) : bool :=
  match a, b with BUY, BUY | SELL, SELL => true | _, _ => false end.

Definition SignalStatus_eqb (a b : SignalStatus) : bool :=
  match a, b with
  | sig_pending, sig_pending | sig_executed, sig_executed
  | sig_failed, sig_failed => true
  | _, _ => false
  end.

Definition CommandStatus_eqb (a b : CommandStatus) : bool :=
  match a, b with
  | cmd_pending, cmd_pending | cmd_sent, cmd_sent
  | cmd_acknowledged, cmd_acknowledged | cmd_failed, cmd_failed => true
  | _, _ => false
  end.

Definition Action_eqb (a b : Action) : bool :=
  match a, b with
  | TRADE, TRADE | CLOSE, CLOSE | PING, PING => true
  | _, _ => false
  end.

Record Signal : Type := mkSignal {
  sig_id : string;
  sig_type : TradeType;
  sig_symbol : string;
  sig_price : option string;
  sig_timestamp : Z;
  sig_source : string;
  sig_status : SignalStatus;
  sig_errorMessage : option string;
  sig_indicatorType : option string;
  sig_entryPrice : option string;
  sig_stopLoss : option string;
  sig_takeProfit : option string
}.

(** [InsertSignal]: a signal without [id] and [timestamp]; [status] and
    [source] are optional. *)
Record InsertSignal : Type := mkInsertSignal {
  isig_type : TradeType;
  isig_symbol : string;
  isig_price : option string;
  isig_source : option string;
  isig_status : option SignalStatus;
  isig_errorMessage : option string;
  isig_indicatorType : option string;
  isig_entryPrice : option string;
  isig_stopLoss : option string;
  isig_takeProfit : option string
}.

Record Trade : Type := mkTrade {
  trade_id : string;
  trade_signalId : option string;
  trade_symbol : string;
  trade_type : TradeType;
  trade_volume : string;
  trade_openPrice : option string;
  trade_stopLoss : option string;
  trade_takeProfit : option string;
  trade_status : TradeStatus;
  trade_mt5OrderId : option string;
  trade_mt5PositionId : option string;
  trade_openTime : Z
}.

Record Mt5Command : Type := mkCommand {
  cmd_id : string;
  cmd_action : Action;
  cmd_symbol : option string;
  cmd_type : option TradeType;
  cmd_volume : option string;
  cmd_stopLoss : option string;
  cmd_takeProfit : option string;
  cmd_positionId : option string;
  cmd_signalId : option string;
  cmd_status : CommandStatus;
  cmd_createdAt : Z;
  cmd_sentAt : option Z;
  cmd_acknowledgedAt : option Z;
  cmd_errorMessage : option string
}.

(** [InsertMt5Command]; its [status] field is accepted and then overwritten
    by [enqueueCommand], so it is not represented. *)
Record InsertMt5Command : Type := mkInsertCommand {
  icmd_action : Action;
  icmd_symbol : option string;
  icmd_type : option TradeType;
  icmd_volume : option string;
  icmd_stopLoss : option string;
  icmd_takeProfit : option string;
  icmd_positionId : option string;
  icmd_signalId : option string;
  icmd_errorMessage : option string
}.

Record Mt5ExecutionResult : Type := mkResult {
  res_id : string;
  res_commandId : option string;
  res_success : bool;               (* the text ['true' | 'false'] *)
  res_orderId : option string;
  res_positionId : option string;
  res_executedAt : Z;
  res_errorMessage : option string
}.

Record Settings : Type := mkSettings {
  set_id : string;
  set_mt5ApiSecret : option string;
  set_accountBalance : string;
  set_autoTrade : string;           (* ['true' | 'false'] *)
  set_lastMt5Heartbeat : option Z
}.

Record SymbolMapping : Type := mkMapping {
  map_id : string;
  map_tradingViewSymbol : string;
  map_mt5Symbol : string;
  map_createdAt : Z
}.

(** The private fields of [MemStorage]. *)
Record MemStorage : Type := mkStorage {
  signals : JsMap.t Signal;
  trades : JsMap.t Trade;
  settings : option Settings;
  mt5Commands : JsMap.t Mt5Command;
  mt5ExecutionResults : JsMap.t Mt5ExecutionResult;
  symbolMappings : JsMap.t SymbolMapping
}.

(** [new MemStorage()] *)
Definition newStorage : MemStorage :=
  mkStorage JsMap.empty JsMap.empty None JsMap.empty JsMap.empty JsMap.empty.

Definition with_signals (st : MemStorage) (m : JsMap.t Signal) : MemStorage :=
  mkStorage m (trades st) (settings st) (mt5Commands st)
            (mt5ExecutionResults st) (symbolMappings st).

Definition with_trades (st : MemStorage) (m : JsMap.t Trade) : MemStorage :=
  mkStorage (signals st) m (settings st) (mt5Commands st)
            (mt5ExecutionResults st) (symbolMappings st).

Definition with_settings (st : MemStorage) (s : option Settings) : MemStorage :=
  mkStorage (signals st) (trades st) s (mt5Commands st)
            (mt5ExecutionResults st) (symbolMappings st).

Definition with_commands (st : MemStorage) (m : JsMap.t Mt5Command)
  : MemStorage :=
  mkStorage (signals st) (trades st) (settings st) m
            (mt5ExecutionResults st) (symbolMappings st).

Definition with_results (st : MemStorage) (m : JsMap.t Mt5ExecutionResult)
  : MemStorage :=
  mkStorage (signals st) (trades st) (settings st) (mt5Commands st)
            m (symbolMappings st).


(* ------------------------------------------------------------------ *)
(** ** JavaScript helpers                                              *)
(* ------------------------------------------------------------------ *)

(** [Array.prototype.sort(cmp)] is stable; [before a b] stands for
    [cmp(a, b) < 0].  Insertion from the right keeps equal keys in their
    original order. *)
Fixpoint sort_insert {A : Type} (before : A -> A -> bool) (x : A)
  (l : list A) : list A :=
  match l with
  | [] => [x]
  | y :: r => if before y x then y :: sort_insert before x r else x :: y :: r
  end.

Definition js_sort {A : Type} (before : A -> A -> bool) (l : list A)
  : list A :=
  fold_right (sort_insert before) [] l.

(** A JavaScript number that holds a count: an integer, or [NaN], which
    [parseInt] returns for a text that does not start with digits. *)
Inductive JsInteger : Type :=
| NaN
| Int (z : Z).

(** [array.slice(0, limit)]: [NaN] counts as 0, and a negative limit
    leaves out that many elements at the end. *)
Definition slice0 {A : Type} (limit : JsInteger) (l : list A) : list A :=
  match limit with
  | NaN => []
  | Int z =>
      if z <? 0 then firstn (List.length l - Z.to_nat (- z)) l
      else firstn (Z.to_nat z) l
  end.

(** [String.prototype.toUpperCase] on ASCII letters; text is taken to
    consist of ASCII characters. *)
Definition upper_ascii (c : ascii) : ascii :=
  let n := nat_of_ascii c in
  if (Nat.leb 97 n && Nat.leb n 122)%bool then ascii_of_nat (n - 32) else c.

Fixpoint toUpperCase (s : string) : string :=
  match s with
  | EmptyString => EmptyString
  | String c r => String (upper_ascii c) (toUpperCase r)
  end.

(** JavaScript truthiness of a [string | null | undefined] value. *)
Definition truthy (o : option string) : bool :=
  match o with
  | Some s => negb (String.eqb s "")
  | None => false
  end.

(** [a ?? b] and [a || b] on optional strings. *)
Definition orElse {A : Type} (a : option A) (b : A) : A :=
  match a with Some x => x | None => b end.

Definition strOr (a : option string) (b : string) : string :=
  if truthy a then orElse a b else b.

(* ------------------------------------------------------------------ *)
(** ** [MemStorage]: signals, trades, settings ([server/storage.ts])   *)
(* ------------------------------------------------------------------ *)

Definition createSignal (insertSignal : InsertSignal) (id : string) (now : Z)
  (st : MemStorage) : MemStorage * Signal :=
  let signal :=
    {| sig_id := id;
       sig_type := isig_type insertSignal;
       sig_symbol := isig_symbol insertSignal;
       sig_price := isig_price insertSignal;
       sig_timestamp := now;
       sig_source := strOr (isig_source insertSignal) "tradingview";
       sig_status := orElse (isig_status insertSignal) sig_pending;
       sig_errorMessage := isig_errorMessage insertSignal;
       sig_indicatorType := isig_indicatorType insertSignal;
       sig_entryPrice := isig_entryPrice insertSignal;
       sig_stopLoss := isig_stopLoss insertSignal;
       sig_takeProfit := isig_takeProfit insertSignal |} in
  (with_signals st (JsMap.set id signal (signals st)), signal).

(** Comparator [(a, b) => b.timestamp - a.timestamp]: newest first. *)
Definition newer_first (a b : Signal) : bool :=
  sig_timestamp b <? sig_timestamp a.

Definition getSignals (limit : JsInteger) (st : MemStorage) : list Signal :=
  slice0 limit (js_sort newer_first (JsMap.values (signals st))).

Definition getSignalById (id : string) (st : MemStorage) : option Signal :=
  JsMap.get id (signals st).

Definition set_signal_status (s : Signal) (status : SignalStatus)
  (errorMessage : option (option string)) : Signal :=
  {| sig_id := sig_id s;
     sig_type := sig_type s;
     sig_symbol := sig_symbol s;
     sig_price := sig_price s;
     sig_timestamp := sig_timestamp s;
     sig_source := sig_source s;
     sig_status := status;
     sig_errorMessage :=
       match errorMessage with
       | Some e => e
       | None => sig_errorMessage s
       end;
     sig_indicatorType := sig_indicatorType s;
     sig_entryPrice := sig_entryPrice s;
     sig_stopLoss := sig_stopLoss s;
     sig_takeProfit := sig_takeProfit s |}.

(** [updateSignalStatus(id, status, errorMessage?)]: the third argument is
    [None] for [undefined] (left out), [Some None] for [null] and
    [Some (Some s)] for a string. *)
Definition updateSignalStatus (id : string) (status : SignalStatus)
  (errorMessage : option (option string)) (st : MemStorage) : MemStorage :=
  match JsMap.get id (signals st) with
  | Some signal =>
      with_signals st
        (JsMap.set id (set_signal_status signal status errorMessage)
           (signals st))
  | None => st
  end.

Definition getFailedSignals (limit : nat) (st : MemStorage) : list Signal :=
  firstn limit
    (js_sort newer_first
       (filter (fun s => SignalStatus_eqb (sig_status s) sig_failed)
          (JsMap.values (signals st)))).

Definition getPendingSignals (limit : nat) (st : MemStorage) : list Signal :=
  firstn limit
    (js_sort newer_first
       (filter (fun s => SignalStatus_eqb (sig_status s) sig_pending)
          (JsMap.values (signals st)))).

(** [InsertTrade] as the report handler fills it: the close price, profit,
    close time and error text are absent there and stay [null]. *)
Definition createTrade (signalId : option string) (symbol : string)
  (type : TradeType) (openPrice : option string) (volume : string)
  (mt5OrderId mt5PositionId stopLoss takeProfit : option string)
  (status : option TradeStatus) (id : string) (now : Z) (st : MemStorage)
  : MemStorage * Trade :=
  let trade :=
    {| trade_id := id;
       trade_signalId := signalId;
       trade_symbol := symbol;
       trade_type := type;
       trade_volume := volume;
       trade_openPrice := openPrice;
       trade_stopLoss := stopLoss;
       trade_takeProfit := takeProfit;
       trade_status := orElse status trade_open;
       trade_mt5OrderId := mt5OrderId;
       trade_mt5PositionId := mt5PositionId;
       trade_openTime := now |} in
  (with_trades st (JsMap.set id trade (trades st)), trade).

Definition defaultSettings (hb : option Z) : Settings :=
  {| set_id := "default";
     set_mt5ApiSecret := None;
     set_accountBalance := "10000";
     set_autoTrade := "true";
     set_lastMt5Heartbeat := hb |}.

(** [getSettings()] installs the default settings when none exist. *)
Definition getSettings (st : MemStorage) : MemStorage * Settings :=
  match settings st with
  | Some s => (st, s)
  | None =>
      let s := defaultSettings None in (with_settings st (Some s), s)
  end.

Definition updateMt5Heartbeat (now : Z) (st : MemStorage) : MemStorage :=
  match settings st with
  | None => with_settings st (Some (defaultSettings (Some now)))
  | Some s =>
      with_settings st
        (Some {| set_id := set_id s;
                 set_mt5ApiSecret := set_mt5ApiSecret s;
                 set_accountBalance := set_accountBalance s;
                 set_autoTrade := set_autoTrade s;
                 set_lastMt5Heartbeat := Some now |})
  end.

(** [getSymbolMappingByTradingViewSymbol]: case-insensitive [find]. *)
Definition getSymbolMappingByTradingViewSymbol (tradingViewSymbol : string)
  (st : MemStorage) : option SymbolMapping :=
  let upperSymbol := toUpperCase tradingViewSymbol in
  find (fun m => String.eqb (toUpperCase (map_tradingViewSymbol m)) upperSymbol)
       (JsMap.values (symbolMappings st)).

Definition mapSymbol (tradingViewSymbol : string) (st : MemStorage) : string :=
  match getSymbolMappingByTradingViewSymbol tradingViewSymbol st with
  | Some mapping => map_mt5Symbol mapping
  | None => tradingViewSymbol
  end.


(* ------------------------------------------------------------------ *)
(** ** [MemStorage]: the MT5 command queue                             *)
(* ------------------------------------------------------------------ *)

Definition set_command_status (c : Mt5Command) (status : CommandStatus)
  (sentAt acknowledgedAt : option Z) (errorMessage : option string)
  : Mt5Command :=
  {| cmd_id := cmd_id c;
     cmd_action := cmd_action c;
     cmd_symbol := cmd_symbol c;
     cmd_type := cmd_type c;
     cmd_volume := cmd_volume c;
     cmd_stopLoss := cmd_stopLoss c;
     cmd_takeProfit := cmd_takeProfit c;
     cmd_positionId := cmd_positionId c;
     cmd_signalId := cmd_signalId c;
     cmd_status := status;
     cmd_createdAt := cmd_createdAt c;
     cmd_sentAt := sentAt;
     cmd_acknowledgedAt := acknowledgedAt;
     cmd_errorMessage := errorMessage |}.

(** [enqueueCommand]: always builds a fresh ['pending'] command and stores
    it under the new identifier. *)
Definition enqueueCommand (insertCommand : InsertMt5Command) (id : string)
  (now : Z) (st : MemStorage) : MemStorage * Mt5Command :=
  let command :=
    {| cmd_id := id;
       cmd_action := icmd_action insertCommand;
       cmd_symbol := icmd_symbol insertCommand;
       cmd_type := icmd_type insertCommand;
       cmd_volume := icmd_volume insertCommand;
       cmd_stopLoss := icmd_stopLoss insertCommand;
       cmd_takeProfit := icmd_takeProfit insertCommand;
       cmd_positionId := icmd_positionId insertCommand;
       cmd_signalId := icmd_signalId insertCommand;
       cmd_status := cmd_pending;
       cmd_createdAt := now;
       cmd_sentAt := None;
       cmd_acknowledgedAt := None;
       cmd_errorMessage := icmd_errorMessage insertCommand |} in
  (with_commands st (JsMap.set id command (mt5Commands st)), command).

Definition getCommandById (commandId : string) (st : MemStorage)
  : option Mt5Command :=
  JsMap.get commandId (mt5Commands st).

Definition timeout : Z := 60000.

(** The filter of [retryTimedOutCommands]:
    [c.status === 'sent' && c.sentAt] and [elapsed > timeout]. *)
Definition timedOut (now : Z) (c : Mt5Command) : bool :=
  match cmd_status c, cmd_sentAt c with
  | cmd_sent, Some sentTime => timeout <? now - sentTime
  | _, _ => false
  end.

Definition timeoutMessage : string :=
  "Command timeout - no acknowledgement received".

Definition fail_timed_out (m : JsMap.t Mt5Command) (command : Mt5Command)
  : JsMap.t Mt5Command :=
  JsMap.set (cmd_id command)
    (set_command_status command cmd_failed (cmd_sentAt command)
       (cmd_acknowledgedAt command) (Some timeoutMessage))
    m.

Definition retryTimedOutCommands (now : Z) (st : MemStorage) : MemStorage :=
  let allCommands := JsMap.values (mt5Commands st) in
  let timedOutCommands := filter (timedOut now) allCommands in
  with_commands st (fold_left fail_timed_out timedOutCommands (mt5Commands st)).

Definition markCommandAsSent (commandId : string) (now : Z) (st : MemStorage)
  : MemStorage :=
  match JsMap.get commandId (mt5Commands st) with
  | Some command =>
      with_commands st
        (JsMap.set commandId
           (set_command_status command cmd_sent (Some now)
              (cmd_acknowledgedAt command) (cmd_errorMessage command))
           (mt5Commands st))
  | None => st
  end.

Definition markCommandAsAcknowledged (commandId : string) (now : Z)
  (st : MemStorage) : MemStorage :=
  match JsMap.get commandId (mt5Commands st) with
  | Some command =>
      with_commands st
        (JsMap.set commandId
           (set_command_status command cmd_acknowledged (cmd_sentAt command)
              (Some now) (cmd_errorMessage command))
           (mt5Commands st))
  | None => st
  end.

Definition markCommandAsFailed (commandId : string) (errorMessage : string)
  (st : MemStorage) : MemStorage :=
  match JsMap.get commandId (mt5Commands st) with
  | Some command =>
      with_commands st
        (JsMap.set commandId
           (set_command_status command cmd_failed (cmd_sentAt command)
              (cmd_acknowledgedAt command) (Some errorMessage))
           (mt5Commands st))
  | None => st
  end.

(** [getPendingCommands]: both ['pending'] and ['sent'], in map order. *)
Definition nonTerminal (c : Mt5Command) : bool :=
  match cmd_status c with
  | cmd_pending | cmd_sent => true
  | _ => false
  end.

Definition getPendingCommands (st : MemStorage) : list Mt5Command :=
  filter nonTerminal (JsMap.values (mt5Commands st)).

(** Comparator [(a, b) => a.createdAt - b.createdAt]: oldest first. *)
Definition older_first (a b : Mt5Command) : bool :=
  cmd_createdAt a <? cmd_createdAt b.

Definition isPending (c : Mt5Command) : bool :=
  CommandStatus_eqb (cmd_status c) cmd_pending.

Definition getNextPendingCommand (now : Z) (st : MemStorage)
  : MemStorage * option Mt5Command :=
  let st1 := retryTimedOutCommands now st in
  let pendingCommands :=
    js_sort older_first (filter isPending (JsMap.values (mt5Commands st1))) in
  (st1, hd_error pendingCommands).

Definition createExecutionResult (success : bool)
  (commandId orderId positionId errorMessage : option string)
  (id : string) (now : Z) (st : MemStorage)
  : MemStorage * Mt5ExecutionResult :=
  let result :=
    {| res_id := id;
       res_commandId := commandId;
       res_success := success;
       res_orderId := orderId;
       res_positionId := positionId;
       res_executedAt := now;
       res_errorMessage := errorMessage |} in
  (with_results st (JsMap.set id result (mt5ExecutionResults st)), result).

(** The operations of the command store, as a script can apply them. *)
Inductive StoreOp : Type :=
| OpEnqueue (insertCommand : InsertMt5Command) (id : string) (now : Z)
| OpMarkSent (commandId : string) (now : Z)
| OpMarkAcknowledged (commandId : string) (now : Z)
| OpMarkFailed (commandId : string) (errorMessage : string)
| OpRetryTimedOut (now : Z).

Definition apply_op (st : MemStorage) (op : StoreOp) : MemStorage :=
  match op with
  | OpEnqueue ins id now => fst (enqueueCommand ins id now st)
  | OpMarkSent id now => markCommandAsSent id now st
  | OpMarkAcknowledged id now => markCommandAsAcknowledged id now st
  | OpMarkFailed id msg => markCommandAsFailed id msg st
  | OpRetryTimedOut now => retryTimedOutCommands now st
  end.

Definition run_ops (st : MemStorage) (ops : list StoreOp) : MemStorage :=
  fold_left apply_op ops st.

Definition status_of (commandId : string) (st : MemStorage)
  : option CommandStatus :=
  option_map cmd_status (getCommandById commandId st).

(** The statuses a command is observed in: before the script and after
    each of its operations. *)
Fixpoint observed (commandId : string) (st : MemStorage) (ops : list StoreOp)
  : list (option CommandStatus) :=
  status_of commandId st ::
  match ops with
  | [] => []
  | op :: rest => observed commandId (apply_op st op) rest
  end.


(* ------------------------------------------------------------------ *)
(** ** The relay channel ([server/routes.ts])                          *)
(* ------------------------------------------------------------------ *)

(** A WebSocket of [mt5WsClients]; [ws_open] is
    [readyState === WebSocket.OPEN]. *)
Record WsClient : Type := mkClient {
  ws_id : nat;
  ws_open : bool
}.

(** The command object handed to [sendCommandToMT5].  A numeric field holds
    the decimal text that [parseFloat] reads; [undefined] and [null] are
    both [None]. *)
Record WireCommand : Type := mkWire {
  wire_id : string;
  wire_action : Action;
  wire_symbol : option string;
  wire_type : option TradeType;
  wire_volume : option string;
  wire_stopLoss : option string;
  wire_takeProfit : option string;
  wire_positionId : option string
}.

(** [x ? parseFloat(x) : undefined] *)
Definition numberField (x : option string) : option string :=
  if truthy x then x else None.

(** The process state: the store, the set of MT5 sockets, and the log of
    the commands that [sendCommandToMT5] gave to [client.send], oldest
    first. *)
Record Server : Type := mkServer {
  storage : MemStorage;
  mt5WsClients : list WsClient;
  outbox : list (nat * WireCommand)
}.

Definition with_storage (srv : Server) (st : MemStorage) : Server :=
  mkServer st (mt5WsClients srv) (outbox srv).

(** [sendCommandToMT5]: one [send] per open socket; [true] when at least one
    socket took the message. *)
Definition sendCommandToMT5 (command : WireCommand) (srv : Server)
  : Server * bool :=
  let openClients := filter ws_open (mt5WsClients srv) in
  let sends := map (fun client => (ws_id client, command)) openClients in
  (mkServer (storage srv) (mt5WsClients srv) (outbox srv ++ sends),
   negb (Nat.eqb (List.length openClients) 0)).

(** The message built for a stored command; the webhook leaves
    [positionId] out, the replay loop includes it. *)
Definition wireOf (withPosition : bool) (c : Mt5Command) : WireCommand :=
  {| wire_id := cmd_id c;
     wire_action := cmd_action c;
     wire_symbol := cmd_symbol c;
     wire_type := cmd_type c;
     wire_volume := numberField (cmd_volume c);
     wire_stopLoss := numberField (cmd_stopLoss c);
     wire_takeProfit := numberField (cmd_takeProfit c);
     wire_positionId := if withPosition then cmd_positionId c else None |}.

(** *** The webhook *)

(** The fields of the alert after extraction: the symbol (['UNKNOWN'] when
    the payload has none), the raw signal type (['BUY'] when absent) and the
    numeric fields after [safeExtract]. *)
Record WebhookBody : Type := mkBody {
  body_symbol : string;
  body_signalType : string;
  body_price : option string;
  body_indicatorType : option string;
  body_entryPrice : option string;
  body_stopLoss : option string;
  body_takeProfit : option string
}.

Inductive WebhookResponse : Type :=
| MissingSymbol                       (* 400 *)
| InvalidSignalType                   (* 400 *)
| DuplicateIgnored
| PendingConnection (signalId : string) (warning : string)
| InvalidSymbolFormat (signalId : string)
| CommandAlreadyExists (signalId : string)
| AutoTradeDisabled (signalId : string) (warning : string)
| Queued (signalId : string).

Definition normalizeType (signalType : string) : option TradeType :=
  let normalizedType := toUpperCase signalType in
  let normalizedType :=
    if String.eqb normalizedType "LONG" then "BUY"%string
    else normalizedType in
  let normalizedType :=
    if String.eqb normalizedType "SHORT" then "SELL"%string
    else normalizedType in
  if String.eqb normalizedType "BUY" then Some BUY
  else if String.eqb normalizedType "SELL" then Some SELL
  else None.

(** One character of [[A-Za-z0-9._-]]. *)
Definition symbolChar (c : ascii) : bool :=
  let n := nat_of_ascii c in
  ((Nat.leb 65 n && Nat.leb n 90) || (Nat.leb 97 n && Nat.leb n 122)
   || (Nat.leb 48 n && Nat.leb n 57)
   || Nat.eqb n 46 || Nat.eqb n 95 || Nat.eqb n 45)%bool.

(** [/^[A-Za-z0-9._-]{3,30}$/.test(symbol)] *)
Definition isValidSymbol (symbol : string) : bool :=
  (Nat.leb 3 (String.length symbol) && Nat.leb (String.length symbol) 30
   && forallb symbolChar (list_ascii_of_string symbol))%bool.

Definition dedupWindow : Z := 60000.

(** The predicate inside [recentSignals.some(...)]. *)
Definition duplicateOf (validatedSignal : InsertSignal) (now : Z) (s : Signal)
  : bool :=
  let sixtySecondsAgo := now - dedupWindow in
  (String.eqb (sig_symbol s) (isig_symbol validatedSignal)
   && TradeType_eqb (sig_type s) (isig_type validatedSignal)
   && (sixtySecondsAgo <=? sig_timestamp s)
   && negb (SignalStatus_eqb (sig_status s) sig_failed))%bool.

Definition isDuplicate (validatedSignal : InsertSignal) (now : Z)
  (recentSignals : list Signal) : bool :=
  existsb (duplicateOf validatedSignal now) recentSignals.

Definition heartbeatTimeout : Z := 90000.

(** [settings?.lastMt5Heartbeat && (Date.now() - heartbeat < 90000)] *)
Definition isMt5Connected (now : Z) (s : Settings) : bool :=
  match set_lastMt5Heartbeat s with
  | Some hb => now - hb <? heartbeatTimeout
  | None => false
  end.

Definition notConnectedMessage : string :=
  "MT5 not connected - signal will execute when MT5 connects".

Definition autoTradeDisabledMessage : string :=
  "Auto-trade is disabled - enable it in settings to execute trades".

Definition hasSignalId (signalId : string) (cmd : Mt5Command) : bool :=
  match cmd_signalId cmd with
  | Some s => String.eqb s signalId
  | None => false
  end.

(** The TRADE command that the webhook builds for a signal. *)
Definition tradeCommandFor (signal : Signal) (slValue tpValue : option string)
  : InsertMt5Command :=
  {| icmd_action := TRADE;
     icmd_symbol := Some (sig_symbol signal);
     icmd_type := Some (sig_type signal);
     icmd_volume := Some "0.01"%string;
     icmd_stopLoss := slValue;
     icmd_takeProfit := tpValue;
     icmd_positionId := None;
     icmd_signalId := Some (sig_id signal);
     icmd_errorMessage := None |}.

(** The webhook's guard around [enqueueCommand]: when [getPendingCommands]
    already holds a command of this signal nothing is created (the webhook
    then answers without that command), otherwise the TRADE command is
    enqueued. *)
Definition enqueueIfAbsent (signal : Signal) (slValue tpValue : option string)
  (commandId : string) (now : Z) (st : MemStorage)
  : MemStorage * option Mt5Command :=
  let pendingCommands := getPendingCommands st in
  match find (hasSignalId (sig_id signal)) pendingCommands with
  | Some existingCommand => (st, None)
  | None =>
      let (st', tradeCommand) :=
        enqueueCommand (tradeCommandFor signal slValue tpValue)
          commandId now st in
      (st', Some tradeCommand)
  end.

(** [app.post("/api/webhook")] from the validation of the extracted data on.
    [signalId] and [commandId] are the identifiers that [createSignal] and
    [enqueueCommand] draw; the clock readings of one run are taken as the
    single instant [now]. *)
Definition webhook (body : WebhookBody) (signalId commandId : string)
  (now : Z) (srv : Server) : Server * WebhookResponse :=
  if String.eqb (body_symbol body) "UNKNOWN" then (srv, MissingSymbol)
  else
    match normalizeType (body_signalType body) with
    | None => (srv, InvalidSignalType)
    | Some normalizedType =>
        let st := storage srv in
        let mt5Symbol := mapSymbol (body_symbol body) st in
        let validatedSignal :=
          {| isig_type := normalizedType;
             isig_symbol := mt5Symbol;
             isig_price := body_price body;
             isig_source := Some "tradingview"%string;
             isig_status := Some sig_pending;
             isig_errorMessage := None;
             isig_indicatorType := body_indicatorType body;
             isig_entryPrice := body_entryPrice body;
             isig_stopLoss := body_stopLoss body;
             isig_takeProfit := body_takeProfit body |} in
        let recentSignals := getSignals (Int 100) st in
        if isDuplicate validatedSignal now recentSignals
        then (srv, DuplicateIgnored)
        else
          let (st1, signal) := createSignal validatedSignal signalId now st in
          let (st2, settings) := getSettings st1 in
          if String.eqb (set_autoTrade settings) "true" then
            if negb (isMt5Connected now settings) then
              (with_storage srv
                 (updateSignalStatus (sig_id signal) sig_pending
                    (Some (Some notConnectedMessage)) st2),
               PendingConnection (sig_id signal) notConnectedMessage)
            else if negb (isValidSymbol (sig_symbol signal)) then
              (with_storage srv
                 (updateSignalStatus (sig_id signal) sig_failed
                    (Some (Some "Invalid symbol format"%string)) st2),
               InvalidSymbolFormat (sig_id signal))
            else
              let useIndicatorLevels :=
                (truthy (sig_stopLoss signal)
                 && truthy (sig_takeProfit signal))%bool in
              let slValue :=
                if useIndicatorLevels then sig_stopLoss signal else None in
              let tpValue :=
                if useIndicatorLevels then sig_takeProfit signal else None in
              let st3 := updateSignalStatus (sig_id signal) sig_pending None st2 in
              match enqueueIfAbsent signal slValue tpValue commandId now st3 with
              | (st3', None) =>
                  (with_storage srv st3', CommandAlreadyExists (sig_id signal))
              | (st4, Some tradeCommand) =>
                  let (srv5, tradeSent) :=
                    sendCommandToMT5 (wireOf false tradeCommand)
                      (with_storage srv st4) in
                  if tradeSent then
                    (with_storage srv5
                       (markCommandAsSent (cmd_id tradeCommand) now
                          (storage srv5)),
                     Queued (sig_id signal))
                  else (srv5, Queued (sig_id signal))
              end
          else
            (with_storage srv
               (updateSignalStatus (sig_id signal) sig_pending
                  (Some (Some autoTradeDisabledMessage)) st2),
             AutoTradeDisabled (sig_id signal) autoTradeDisabledMessage)
    end.

(** *** The MT5 channel: connection *)

Definition reconnectionMessage : string := "Executing after MT5 reconnection".

(** One iteration of the replay loop over [commandsToResend]. *)
Definition resendCommand (now : Z) (srv : Server) (command : Mt5Command)
  : Server :=
  let (srv1, _) := sendCommandToMT5 (wireOf true command) srv in
  let st2 := markCommandAsSent (cmd_id command) now (storage srv1) in
  let st3 :=
    match cmd_signalId command with
    | Some signalId =>
        if truthy (Some signalId) then
          updateSignalStatus signalId sig_pending
            (Some (Some reconnectionMessage)) st2
        else st2
    | None => st2
    end in
  with_storage srv1 st3.

(** The replay pass: [getPendingCommands], the filter on ['pending'], and
    the loop.  It returns the commands it iterated over as well. *)
Definition commandsToResend (st : MemStorage) : list Mt5Command :=
  filter isPending (getPendingCommands st).

Definition replayPending (now : Z) (srv : Server) : Server :=
  fold_left (resendCommand now) (commandsToResend (storage srv)) srv.

(** One iteration of the loop over [signalsWithoutCommands]; [id] is the
    identifier that [enqueueCommand] draws in this iteration. *)
Definition retrySignal (now : Z) (srv : Server) (signal_id : Signal * string)
  : Server :=
  let (signal, id) := signal_id in
  let (st1, tradeCommand) :=
    enqueueCommand
      (tradeCommandFor signal (numberField (sig_stopLoss signal))
         (numberField (sig_takeProfit signal)))
      id now (storage srv) in
  let (srv2, sent) :=
    sendCommandToMT5 (wireOf false tradeCommand) (with_storage srv st1) in
  if sent then
    with_storage srv2
      (updateSignalStatus (sig_id signal) sig_pending
         (Some (Some reconnectionMessage))
         (markCommandAsSent (cmd_id tradeCommand) now (storage srv2)))
  else srv2.

Definition signalsWithoutCommands (allPendingCommands : list Mt5Command)
  (st : MemStorage) : list Signal :=
  filter (fun signal =>
            negb (existsb (hasSignalId (sig_id signal)) allPendingCommands))
         (getPendingSignals 100 st).

(** The start of [mt5Wss.on('connection')]: the socket joins
    [mt5WsClients] and the heartbeat is updated. *)
Definition acceptSocket (ws : WsClient) (now : Z) (srv : Server) : Server :=
  mkServer (updateMt5Heartbeat now (storage srv))
           (mt5WsClients srv ++ [ws]) (outbox srv).

(** The pending signals that the handler retries: those of
    [getPendingSignals(100)], read after the replay pass, that no command of
    [allPendingCommands], read before it, refers to. *)
Definition signalsToRetry (ws : WsClient) (now : Z) (srv : Server)
  : list Signal :=
  let srv0 := acceptSocket ws now srv in
  let allPendingCommands := getPendingCommands (storage srv0) in
  signalsWithoutCommands allPendingCommands (storage (replayPending now srv0)).

(** [mt5Wss.on('connection')] up to the registration of the socket's event
    handlers.  [uuid i] is the identifier drawn in iteration [i] of the
    second loop. *)
Definition onConnection (ws : WsClient) (uuid : nat -> string) (now : Z)
  (srv : Server) : Server :=
  let srv0 := acceptSocket ws now srv in
  let srv1 := replayPending now srv0 in
  let retry := signalsToRetry ws now srv in
  let (st2, settings) := getSettings (storage srv1) in
  let srv2 := with_storage srv1 st2 in
  let autoTradeEnabled := String.eqb (set_autoTrade settings) "true" in
  if (autoTradeEnabled && negb (Nat.eqb (List.length retry) 0))%bool then
    fold_left (retrySignal now)
      (combine retry (map uuid (seq 0 (List.length retry)))) srv2
  else srv2.

(** *** The MT5 channel: execution reports *)

(** The parsed message of the agent.  [rep_success] is the truthiness of
    [report.success]. *)
Record Report : Type := mkReport {
  rep_type : option string;
  rep_commandId : option string;
  rep_success : bool;
  rep_orderId : option string;
  rep_positionId : option string;
  rep_error : option string
}.

(** What the handler writes back on the socket. *)
Inductive Reply : Type :=
| NoReply
| CommandNotFound          (* [{ success: true, warning: 'Command not found' }] *)
| Ack.                     (* [{ success: true }] *)

Definition executionFailedMessage : string := "Trade execution failed in MT5".

(** [ws.on('message')] of the MT5 socket.  [resultId] and [tradeId] are the
    identifiers drawn by [createExecutionResult] and [createTrade]. *)
Definition onReport (report : Report) (resultId tradeId : string) (now : Z)
  (st : MemStorage) : MemStorage * Reply :=
  let st0 := updateMt5Heartbeat now st in
  if match rep_type report with
     | Some t => String.eqb t "HEARTBEAT"
     | None => false
     end
  then (st0, NoReply)
  else if negb (truthy (rep_commandId report)) then (st0, NoReply)
  else
    let commandId := orElse (rep_commandId report) ""%string in
    match getCommandById commandId st0 with
    | None => (st0, CommandNotFound)
    | Some command =>
        let orderId := numberField (rep_orderId report) in
        let positionId := numberField (rep_positionId report) in
        let errorMessage := numberField (rep_error report) in
        let (st1, _) :=
          createExecutionResult (rep_success report) (Some commandId)
            orderId positionId errorMessage resultId now st0 in
        let st2 := markCommandAsAcknowledged commandId now st1 in
        let st3 :=
          if truthy (cmd_signalId command) then
            let signalId := orElse (cmd_signalId command) ""%string in
            if (rep_success report && truthy (rep_orderId report))%bool then
              let st' := updateSignalStatus signalId sig_executed (Some None) st2 in
              match getSignalById signalId st', cmd_action command with
              | Some signal, TRADE =>
                  fst (createTrade (Some signalId) (sig_symbol signal)
                         (sig_type signal)
                         (Some (strOr (sig_price signal) "0"))
                         (strOr (cmd_volume command) "0")
                         orderId
                         (if truthy (rep_positionId report)
                          then rep_positionId report else orderId)
                         (cmd_stopLoss command) (cmd_takeProfit command)
                         (Some trade_open) tradeId now st')
              | _, _ => st'
              end
            else
              updateSignalStatus signalId sig_failed
                (Some (Some (strOr (rep_error report) executionFailedMessage)))
                st2
          else st2 in
        (st3, Ack)
    end.


(* ------------------------------------------------------------------ *)
(** ** Invariants of the stores and the specified state machine        *)
(* ------------------------------------------------------------------ *)

(** Keys are unique and every command is stored under its own [id]; this
    is what [enqueueCommand] and the [mark...] operations maintain. *)
Definition wf_commands (m : JsMap.t Mt5Command) : Prop :=
  NoDup (JsMap.keys m) /\ Forall (fun kv => cmd_id (snd kv) = fst kv) m.

(** The transitions of the documented state machine:
    [pending -> sent -> {acknowledged | failed}] and [pending -> failed]. *)
Definition spec_transition (a b : CommandStatus) : bool :=
  match a, b with
  | cmd_pending, cmd_sent
  | cmd_sent, cmd_acknowledged
  | cmd_sent, cmd_failed
  | cmd_pending, cmd_failed => true
  | _, _ => false
  end.

(** A sequence of observations is a path of the documented machine when
    every change of status is one of its transitions. *)
Fixpoint spec_path (l : list (option CommandStatus)) : bool :=
  match l with
  | Some a :: ((Some b :: _) as rest) =>
      ((CommandStatus_eqb a b || spec_transition a b) && spec_path rest)%bool
  | _ :: rest => spec_path rest
  | [] => true
  end.

(** The status a command has after one store operation, in terms of the
    command before it. *)
Definition status_after (op : StoreOp) (k : string) (c : Mt5Command)
  : CommandStatus :=
  match op with
  | OpEnqueue _ id _ => if String.eqb id k then cmd_pending else cmd_status c
  | OpMarkSent id _ => if String.eqb id k then cmd_sent else cmd_status c
  | OpMarkAcknowledged id _ =>
      if String.eqb id k then cmd_acknowledged else cmd_status c
  | OpMarkFailed id _ => if String.eqb id k then cmd_failed else cmd_status c
  | OpRetryTimedOut now => if timedOut now c then cmd_failed else cmd_status c
  end.

(** A pointwise update of the values of a map. *)
Definition map_values {V : Type} (f : V -> V) (m : JsMap.t V) : JsMap.t V :=
  map (fun kv => (fst kv, f (snd kv))) m.

(** What the sweep does to one command. *)
Definition sweep1 (now : Z) (c : Mt5Command) : Mt5Command :=
  if timedOut now c
  then set_command_status c cmd_failed (cmd_sentAt c)
         (cmd_acknowledgedAt c) (Some timeoutMessage)
  else c.

(** The non-terminal commands that reference a signal. *)
Definition nonTerminalFor (signalId : string) (st : MemStorage)
  : list Mt5Command :=
  filter (fun c => (nonTerminal c && hasSignalId signalId c)%bool)
         (JsMap.values (mt5Commands st)).

Definition atMostOneNonTerminal (st : MemStorage) : Prop :=
  forall signalId, (List.length (nonTerminalFor signalId st) <= 1)%nat.

(** One guarded enqueue attempt of the webhook. *)
Record Attempt : Type := mkAttempt {
  att_signal : Signal;
  att_stopLoss : option string;
  att_takeProfit : option string;
  att_commandId : string;
  att_now : Z
}.

Definition attempt (st : MemStorage) (a : Attempt) : MemStorage :=
  fst (enqueueIfAbsent (att_signal a) (att_stopLoss a) (att_takeProfit a)
         (att_commandId a) (att_now a) st).

(** The [send]s of one replayed command: one per open socket. *)
Definition sendsOf (clients : list WsClient) (withPosition : bool)
  (c : Mt5Command) : list (nat * WireCommand) :=
  map (fun client => (ws_id client, wireOf withPosition c))
      (filter ws_open clients).

(** The queue lists its commands by creation time: what [enqueueCommand]
    maintains as long as the clock does not run backwards, since a new
    command is appended with [createdAt = now]. *)
Definition createdAscending (m : JsMap.t Mt5Command) : Prop :=
  StronglySorted Z.le (map cmd_createdAt (JsMap.values m)).

(** Whether the report handler stores a trade for this report: a success
    with an order identifier, for a TRADE command whose signal exists. *)
Definition opensTrade (report : Report) (command : Mt5Command)
  (st : MemStorage) : bool :=
  (truthy (cmd_signalId command)
   && rep_success report && truthy (rep_orderId report)
   && Action_eqb (cmd_action command) TRADE
   && match getSignalById (orElse (cmd_signalId command) ""%string) st with
      | Some _ => true
      | None => false
      end)%bool.

Definition openTradesFor (signalId : string) (st : MemStorage) : list Trade :=
  filter (fun t =>
            match trade_signalId t, trade_status t with
            | Some s, trade_open => String.eqb s signalId
            | _, _ => false
            end)
         (JsMap.values (trades st)).

(** The condition of the de-duplication rule on an earlier signal [s1] and
    a new signal of the given symbol and direction arriving at [now]. *)
Definition duplicateRule (symbol : string) (type : TradeType) (now : Z)
  (s1 : Signal) : Prop :=
  sig_symbol s1 = symbol
  /\ sig_type s1 = type
  /\ now - sig_timestamp s1 <= 60000
  /\ sig_status s1 <> sig_failed.



(* ------------------------------------------------------------------ *)
(** ** Sample data                                                     *)
(* ------------------------------------------------------------------ *)

Definition sampleInsert (signalId : option string) : InsertMt5Command :=
  {| icmd_action := TRADE;
     icmd_symbol := Some "EURUSD"%string;
     icmd_type := Some BUY;
     icmd_volume := Some "0.01"%string;
     icmd_stopLoss := Some "1.08500"%string;
     icmd_takeProfit := Some "1.08800"%string;
     icmd_positionId := None;
     icmd_signalId := signalId;
     icmd_errorMessage := None |}.

(** A command is enqueued and sent at time 0, swept as timed out at 60001,
    and the agent's late report is handled at 60002. *)
Definition lateReportScript : list StoreOp :=
  [ OpEnqueue (sampleInsert (Some "s1"%string)) "c1" 0;
    OpMarkSent "c1" 0;
    OpRetryTimedOut 60001;
    OpMarkAcknowledged "c1" 60002 ].

(** A store holding one command, sent at time 0. *)
Definition sentStore : MemStorage :=
  run_ops newStorage
    [ OpEnqueue (sampleInsert (Some "s1"%string)) "c1" 0; OpMarkSent "c1" 0 ].

Definition sentCommand : Mt5Command :=
  set_command_status
    (snd (enqueueCommand (sampleInsert (Some "s1"%string)) "c1" 0 newStorage))
    cmd_sent (Some 0) None None.

Definition sampleSignal : Signal :=
  {| sig_id := "s1";
     sig_type := BUY;
     sig_symbol := "EURUSD";
     sig_price := None;
     sig_timestamp := 0;
     sig_source := "tradingview";
     sig_status := sig_pending;
     sig_errorMessage := None;
     sig_indicatorType := None;
     sig_entryPrice := None;
     sig_stopLoss := Some "1.08500"%string;
     sig_takeProfit := Some "1.08800"%string |}.

(** A store with one ['sent'] command followed by two ['pending'] ones. *)
Definition replayStore : MemStorage :=
  run_ops newStorage
    [ OpEnqueue (sampleInsert (Some "s1"%string)) "c1" 10;
      OpMarkSent "c1" 10;
      OpEnqueue (sampleInsert (Some "s2"%string)) "c2" 20;
      OpEnqueue (sampleInsert (Some "s3"%string)) "c3" 30 ].

Definition replayServer : Server :=
  mkServer replayStore [mkClient 7 true] [].

(** A store with signal [s1] and its TRADE command [c1], sent at time 10. *)
Definition tradingStore : MemStorage :=
  markCommandAsSent "c1" 10
    (fst (enqueueCommand (sampleInsert (Some "s1"%string)) "c1" 10
       (with_signals newStorage (JsMap.set "s1" sampleSignal JsMap.empty)))).

Definition successReport : Report :=
  {| rep_type := None;
     rep_commandId := Some "c1"%string;
     rep_success := true;
     rep_orderId := Some "1001"%string;
     rep_positionId := Some "1001"%string;
     rep_error := None |}.

Definition failureReport : Report :=
  {| rep_type := None;
     rep_commandId := Some "c1"%string;
     rep_success := false;
     rep_orderId := None;
     rep_positionId := None;
     rep_error := Some "Trade failed: retcode=10019"%string |}.

(** The store after the first success report, handled at time 100. *)
Definition acknowledgedStore : MemStorage :=
  fst (onReport successReport "r1" "t1" 100 tradingStore).

Definition acknowledgedCommand : Mt5Command :=
  orElse (getCommandById "c1" acknowledgedStore) sentCommand.

Definition sentCommandAt10 : Mt5Command :=
  orElse (getCommandById "c1" tradingStore) sentCommand.

(** Identifiers for generated sample data: a prefix and [i] letters. *)
Definition nthId (prefix : string) (i : nat) : string :=
  (prefix ++ string_of_list_ascii (repeat "x"%char i))%string.

(** A process whose heartbeat was recorded at time 0; no socket is open. *)
Definition heartbeatServer : Server :=
  mkServer (with_settings newStorage (Some (defaultSettings (Some 0)))) [] [].

Definition eurusdBody : WebhookBody :=
  {| body_symbol := "EURUSD";
     body_signalType := "BUY";
     body_price := None;
     body_indicatorType := None;
     body_entryPrice := None;
     body_stopLoss := Some "1.08500"%string;
     body_takeProfit := Some "1.08800"%string |}.

(** An alert whose symbol fails [isValidSymbol]: its signal is stored and
    marked ['failed'] at once. *)
Definition malformedBody : WebhookBody :=
  {| body_symbol := "??";
     body_signalType := "SELL";
     body_price := None;
     body_indicatorType := None;
     body_entryPrice := None;
     body_stopLoss := None;
     body_takeProfit := None |}.

(** The process after a BUY EURUSD alert at time 0. *)
Definition afterFirstAlert : Server :=
  fst (webhook eurusdBody "s0" "c0" 0 heartbeatServer).

(** ... and after 100 further alerts at times 1 to 100. *)
Definition floodedServer : Server :=
  fold_left
    (fun srv i =>
       fst (webhook malformedBody (nthId "f" i) (nthId "g" i) (Z.of_nat i) srv))
    (seq 1 100) afterFirstAlert.

(** A process without settings, sockets or history: the agent has never
    connected. *)
Definition freshServer : Server := mkServer newStorage [] [].

(** ... after the BUY EURUSD alert with stop 1.08500 and target 1.08800. *)
Definition afterOfflineAlert : Server :=
  fst (webhook eurusdBody "s1" "c1" 1000 freshServer).

Definition agentSocket : WsClient := mkClient 1 true.

Definition sampleUuid (i : nat) : string := nthId "k" i.



(* ================================================================== *)
(** * The execution agent ([mt5-files/TradingViewWebSocket_EA.mq5])     *)
(* ================================================================== *)

(** An MQL5 [double] is a rational number (every finite double is one);
    the result of an arithmetic operation on doubles is the double nearest
    to the exact result, and a decimal literal stands for the double nearest
    to it.  Infinities and NaN are not represented.  Division by zero is a
    critical error that stops an MQL5 program, so a division returns [None]
    for it. *)

Local Open Scope Q_scope.

Definition Qlt_bool (a b : Q) : bool := negb (Qle_bool b a).

(** The quotient [n / d] rounded to the nearest integer, halves to the even
    neighbour. *)
Definition roundHalfEven (n d : Z) : Z :=
  let q := (n / d)%Z in
  let r := (n mod d)%Z in
  match (2 * r ?= d)%Z with
  | Lt => q
  | Gt => (q + 1)%Z
  | Eq => if Z.even q then q else (q + 1)%Z
  end.

(** The double nearest to a rational (IEEE 754 binary64, round to nearest,
    ties to even): 53 significant bits at an exponent [e] not below that of
    the subnormal numbers. *)
Definition roundToDouble (x : Q) : Q :=
  let n := Z.abs (Qnum x) in
  let d := Zpos (Qden x) in
  if (n =? 0)%Z then 0
  else
    let scaled e := ((n * 2 ^ Z.max 0 (- e))%Z, (d * 2 ^ Z.max 0 e)%Z) in
    let e0 := (Z.log2 n - Z.log2 d - 52)%Z in
    let e1 :=
      if (fst (scaled e0) / snd (scaled e0) <? 2 ^ 52)%Z then (e0 - 1)%Z
      else e0 in
    let e := Z.max e1 (-1074) in
    let m := roundHalfEven (fst (scaled e)) (snd (scaled e)) in
    let v :=
      Qred (inject_Z (m * 2 ^ Z.max 0 e) / inject_Z (2 ^ Z.max 0 (- e))) in
    if (Qnum x <? 0)%Z then - v else v.

Arguments roundToDouble : simpl never.

(** [a + b], [a - b], [a * b] and [a / b] on doubles. *)
Definition dadd (a b : Q) : Q := roundToDouble (a + b).
Definition dsub (a b : Q) : Q := roundToDouble (a - b).
Definition dmul (a b : Q) : Q := roundToDouble (a * b).
Definition ddiv (a b : Q) : Q := roundToDouble (a / b).

Definition divide (a b : Q) : option Q :=
  if Qeq_bool b 0 then None else Some (ddiv a b).

(** [MathRound]: nearest integer, halves away from zero. *)
Definition MathRound (x : Q) : Q :=
  if Qle_bool 0 x then inject_Z (Qfloor (x + (1 # 2)))
  else inject_Z (- Qfloor (- x + (1 # 2))).

Definition MathAbs (x : Q) : Q := Qabs x.

(** [NormalizeDouble(value, digits)]: the value scaled by [10^digits],
    rounded to an integer and scaled back. *)
Definition NormalizeDouble (value : Q) (digits : Z) : Q :=
  let scale := inject_Z (10 ^ digits) in
  ddiv (MathRound (dmul value scale)) scale.

(** [StringFind(s, sub)]: position of the first occurrence, or -1. *)
Definition StringFind (s sub : string) : Z :=
  match String.index 0 sub s with
  | Some n => Z.of_nat n
  | None => (-1)%Z
  end.

(** [StringSubstr(s, start)]: the rest of [s] from [start] on. *)
Definition StringSubstr (s : string) (start : Z) : string :=
  let n := Z.to_nat start in
  String.substring n (String.length s - n) s.

(** [SymbolInfoDouble] / [SymbolInfoInteger] of one symbol.  The three
    selection flags are [SYMBOL_SELECT] on entry of [EnsureSymbolReady], the
    result of [SymbolSelect(symbol, true)], and [SYMBOL_SELECT] when the
    polling loop ends. *)
Record SymbolInfo : Type := mkSymbolInfo {
  sym_bid : Q;
  sym_ask : Q;
  sym_point : Q;
  sym_tickSize : Q;
  sym_tickValue : Q;
  sym_digits : Z;
  sym_volumeMin : Q;
  sym_volumeMax : Q;
  sym_volumeStep : Q;
  sym_selected : bool;
  sym_selectResult : bool;
  sym_selectedAfterWait : bool
}.

Inductive PositionType : Type := POSITION_TYPE_BUY | POSITION_TYPE_SELL.

Record Position : Type := mkPosition {
  pos_ticket : Z;
  pos_symbol : string;
  pos_type : PositionType;
  pos_priceOpen : Q;
  pos_volume : Q;
  pos_sl : Q;
  pos_tp : Q;
  pos_comment : string
}.

(** What the program reads from the terminal. *)
Record Terminal : Type := mkTerminal {
  positions : list Position;
  symbolInfo : string -> SymbolInfo;
  accountBalance : Q
}.

(** [request.action]; [ACTION_NONE] is the value of a zero-initialised
    request. *)
Inductive TradeAction : Type :=
  ACTION_NONE | TRADE_ACTION_DEAL | TRADE_ACTION_SLTP.

Inductive OrderType : Type := ORDER_TYPE_BUY | ORDER_TYPE_SELL.

Record MqlTradeRequest : Type := mkRequest {
  req_action : TradeAction;
  req_position : Z;
  req_symbol : string;
  req_volume : Q;
  req_type : OrderType;
  req_price : Q;
  req_sl : Q;
  req_tp : Q;
  req_deviation : Z;
  req_magic : Z;
  req_comment : string;
  req_typeFilling : Z
}.

(** [MqlTradeRequest request = {};] *)
Definition emptyRequest : MqlTradeRequest :=
  mkRequest ACTION_NONE 0 "" 0 ORDER_TYPE_BUY 0 0 0 0 0 "" 0.

(** The outcome of [OrderSend]: its return value, the fields of
    [MqlTradeResult] that the program reads, and [GetLastError()]. *)
Record OrderReply : Type := mkReply {
  reply_ok : bool;
  reply_retcode : Z;
  reply_order : Z;
  reply_deal : Z;
  reply_lastError : Z
}.

Definition TRADE_RETCODE_DONE : Z := 10009.

(** The [input] parameters of the agent. *)
Record Inputs : Type := mkInputs {
  MaxSlippagePercent : Q;
  Hedging : bool;
  Pyramiding : Z;
  UseRiskBasedLotSize : bool;
  RiskPercentPerTrade : Q;
  FixedLotSize : Q;
  UseFixedPartialExit : bool;
  PartialExitPercent : Q;
  PartialExitPips : Q
}.

(** The values the source declares. *)
Definition defaultInputs : Inputs :=
  {| MaxSlippagePercent := roundToDouble (1 # 2);
     Hedging := true;
     Pyramiding := 1;
     UseRiskBasedLotSize := true;
     RiskPercentPerTrade := 1;
     FixedLotSize := roundToDouble (1 # 100);
     UseFixedPartialExit := false;
     PartialExitPercent := 75;
     PartialExitPips := 50 |}.

(** A report handed to [SendReport]. *)
Record ExecutionReport : Type := mkExecReport {
  er_commandId : string;
  er_success : bool;
  er_orderId : string;
  er_positionId : string;
  er_error : string
}.

(** The agent: the terminal, its global variables, and the logs of the
    requests given to [OrderSend] and of the reports given to [SendReport],
    oldest first. *)
Record Agent : Type := mkAgent {
  terminal : Terminal;
  brokerFillingMode : Z;
  partialExitedPositions : list Z;
  breakEvenPositions : list Z;
  requests : list MqlTradeRequest;
  reports : list ExecutionReport
}.

(** How a run ends: normally, or stopped by a zero divide. *)
Inductive Exec : Type :=
| Finished (a : Agent)
| Crashed (a : Agent).

Definition agentOf (e : Exec) : Agent :=
  match e with Finished a | Crashed a => a end.

(** The fields of a TRADE command after [GetJsonValue] and
    [StringToDouble]. *)
Record TradeJson : Type := mkTradeJson {
  tj_symbol : string;
  tj_type : string;
  tj_volume : Q;
  tj_stopLoss : Q;
  tj_takeProfit : Q
}.

Section AgentProgram.

(** The agent's inputs, the terminal's string conversions and the broker
    behind [OrderSend] are parameters of the program. *)
Variable inp : Inputs.
Variable DoubleToString : Q -> Z -> string.
Variable StringToDouble : string -> Q.
Variable IntegerToString : Z -> string.
Variable OrderSend : Terminal -> MqlTradeRequest -> Terminal * OrderReply.

(** [OrderSend(request, result)] with the request logged. *)
Definition orderSend (request : MqlTradeRequest) (a : Agent)
  : Agent * OrderReply :=
  let (t, reply) := OrderSend (terminal a) request in
  (mkAgent t (brokerFillingMode a) (partialExitedPositions a)
           (breakEvenPositions a) (requests a ++ [request]) (reports a),
   reply).

Definition SendReport (commandId : string) (success : bool)
  (orderId positionId error : string) (a : Agent) : Agent :=
  mkAgent (terminal a) (brokerFillingMode a) (partialExitedPositions a)
          (breakEvenPositions a) (requests a)
          (reports a ++ [mkExecReport commandId success orderId positionId error]).

(** [NormalizePrice]: round to the tick size (the point when the tick size
    is 0), then to the symbol's digits. *)
Definition NormalizePrice (info : SymbolInfo) (price : Q) : option Q :=
  let tickSize :=
    if Qeq_bool (sym_tickSize info) 0 then sym_point info
    else sym_tickSize info in
  match divide price tickSize with
  | Some q =>
      Some (NormalizeDouble (dmul (MathRound q) tickSize) (sym_digits info))
  | None => None
  end.

(** [NormalizeVolume]: round to the lot step (0.01 when the step is 0) and
    clamp to the lot limits. *)
Definition NormalizeVolume (info : SymbolInfo) (volume : Q) : Q :=
  let volumeStep :=
    if Qeq_bool (sym_volumeStep info) 0 then roundToDouble (1 # 100)
    else sym_volumeStep info in
  let volume := dmul (MathRound (ddiv volume volumeStep)) volumeStep in
  let volume :=
    if Qlt_bool volume (sym_volumeMin info) then sym_volumeMin info
    else volume in
  if Qlt_bool (sym_volumeMax info) volume then sym_volumeMax info else volume.

Definition EnsureSymbolReady (info : SymbolInfo) : bool :=
  if negb (sym_selected info) then
    if negb (sym_selectResult info) then false
    else sym_selectedAfterWait info
  else true.

Definition contains (s sub : string) : bool := (0 <=? StringFind s sub)%Z.

Definition GetPipValue (symbol : string) : Q :=
  if (contains symbol "BTC" || contains symbol "ETH"
      || contains symbol "XRP" || contains symbol "LTC")%bool then 1
  else if (contains symbol "XAU" || contains symbol "GOLD")%bool
  then roundToDouble (1 # 10)
  else if (contains symbol "XAG" || contains symbol "SILVER")%bool
  then roundToDouble (1 # 100)
  else if contains symbol "JPY" then roundToDouble (1 # 100)
  else roundToDouble (1 # 10000).

(** [PositionGetTicket(i)]: 0 when there is no such position. *)
Definition PositionGetTicket (i : nat) (t : Terminal) : Z :=
  match nth_error (positions t) i with
  | Some p => pos_ticket p
  | None => 0%Z
  end.

(** [PositionSelectByTicket(ticket)]: the selected position, if any. *)
Definition PositionSelectByTicket (ticket : Z) (t : Terminal)
  : option Position :=
  find (fun p => Z.eqb (pos_ticket p) ticket) (positions t).

Definition PositionsTotal (t : Terminal) : nat := List.length (positions t).

Definition CountPositionsForSymbol (symbol : string) (t : Terminal) : Z :=
  fold_left
    (fun count i =>
       let ticket := PositionGetTicket i t in
       if (0 <? ticket)%Z then
         match PositionSelectByTicket ticket t with
         | Some p =>
             if String.eqb (pos_symbol p) symbol then (count + 1)%Z else count
         | None => count
         end
       else count)
    (seq 0 (PositionsTotal t)) 0%Z.

(** The closing request that [CloseOppositePositions] builds. *)
Definition closeRequest (p : Position) (info : SymbolInfo) (filling : Z)
  : MqlTradeRequest :=
  let type :=
    match pos_type p with
    | POSITION_TYPE_BUY => ORDER_TYPE_SELL
    | POSITION_TYPE_SELL => ORDER_TYPE_BUY
    end in
  {| req_action := TRADE_ACTION_DEAL;
     req_position := pos_ticket p;
     req_symbol := pos_symbol p;
     req_volume := pos_volume p;
     req_type := type;
     req_price := match type with
                  | ORDER_TYPE_SELL => sym_bid info
                  | ORDER_TYPE_BUY => sym_ask info
                  end;
     req_sl := 0;
     req_tp := 0;
     req_deviation := 10;
     req_magic := 123456;
     req_comment := "";
     req_typeFilling := filling |}.

(** One iteration of the loop of [CloseOppositePositions], for index [i]. *)
Definition closeOpposite (symbol tradeType : string) (a : Agent) (i : nat)
  : Agent :=
  let ticket := PositionGetTicket i (terminal a) in
  if (0 <? ticket)%Z then
    match PositionSelectByTicket ticket (terminal a) with
    | Some p =>
        if String.eqb (pos_symbol p) symbol then
          let isOpposite :=
            match pos_type p with
            | POSITION_TYPE_SELL => String.eqb tradeType "BUY"
            | POSITION_TYPE_BUY => String.eqb tradeType "SELL"
            end in
          if isOpposite then
            fst (orderSend
                   (closeRequest p (symbolInfo (terminal a) (pos_symbol p))
                      (brokerFillingMode a))
                   a)
          else a
        else a
    | None => a
    end
  else a.

(** [CloseOppositePositions]: indices from [PositionsTotal() - 1] down
    to 0. *)
Definition CloseOppositePositions (symbol tradeType : string) (a : Agent)
  : Agent :=
  fold_left (closeOpposite symbol tradeType)
            (rev (seq 0 (PositionsTotal (terminal a)))) a.

(** The cast [(ulong)x] of a non-negative [double]: its integer part. *)
Definition toULong (x : Q) : Z := Qfloor x.

(** The comment that carries the intended first target. *)
Definition tpComment (takeProfit : Q) : string :=
  if Qlt_bool 0 takeProfit
  then ("|TP1:" ++ DoubleToString takeProfit 5)%string
  else ""%string.

(** The request with which [ExecuteTrade] opens the position. *)
Definition openRequest (symbol type : string) (volume currentPrice stopLoss
  takeProfit : Q) (deviation filling : Z) : MqlTradeRequest :=
  {| req_action := TRADE_ACTION_DEAL;
     req_position := 0;
     req_symbol := symbol;
     req_volume := volume;
     req_type := if String.eqb type "BUY" then ORDER_TYPE_BUY
                 else ORDER_TYPE_SELL;
     req_price := currentPrice;
     req_sl := stopLoss;
     req_tp := 0;
     req_deviation := deviation;
     req_magic := 123456;
     req_comment := ("TradingView" ++ tpComment takeProfit)%string;
     req_typeFilling := filling |}.

(** The lot size: risk based when enabled and a stop is set, else fixed. *)
Definition lotSize (info : SymbolInfo) (balance currentPrice stopLoss
  pipValue : Q) : option Q :=
  if (UseRiskBasedLotSize inp && Qlt_bool 0 stopLoss)%bool then
    let slDistance := MathAbs (dsub currentPrice stopLoss) in
    match divide slDistance pipValue with
    | None => None
    | Some slPips =>
        let riskAmount := dmul balance (ddiv (RiskPercentPerTrade inp) 100) in
        match divide (sym_tickValue info) (sym_tickSize info) with
        | None => None
        | Some perTick =>
            let pipValuePerLot := dmul perTick pipValue in
            match divide riskAmount (dmul slPips pipValuePerLot) with
            | None => None
            | Some volume => Some (NormalizeVolume info volume)
            end
        end
    end
  else Some (FixedLotSize inp).

(** The price checks of [ExecuteTrade]; the text of the failure, if any. *)
Definition validateLevels (type : string) (currentPrice stopLoss takeProfit : Q)
  : option string :=
  if String.eqb type "BUY" then
    if (Qlt_bool 0 stopLoss && Qle_bool currentPrice stopLoss)%bool
    then Some "Invalid SL for BUY"%string
    else if (Qlt_bool 0 takeProfit && Qle_bool takeProfit currentPrice)%bool
    then Some "Invalid TP for BUY"%string
    else None
  else
    if (Qlt_bool 0 stopLoss && Qle_bool stopLoss currentPrice)%bool
    then Some "Invalid SL for SELL"%string
    else if (Qlt_bool 0 takeProfit && Qle_bool currentPrice takeProfit)%bool
    then Some "Invalid TP for SELL"%string
    else None.

Definition normalizeIfSet (info : SymbolInfo) (level : Q) : option Q :=
  if Qlt_bool 0 level then NormalizePrice info level else Some level.

(** [ExecuteTrade(commandId, commandJson)] on the extracted fields. *)
Definition ExecuteTrade (commandId : string) (cmd : TradeJson) (a : Agent)
  : Exec :=
  let symbol := tj_symbol cmd in
  let type := tj_type cmd in
  let fail error a := Finished (SendReport commandId false "" "" error a) in
  if (String.eqb symbol "" || String.eqb type "")%bool then
    fail "Missing symbol or type"%string a
  else if negb (EnsureSymbolReady (symbolInfo (terminal a) symbol)) then
    fail ("Symbol not available: " ++ symbol)%string a
  else
    let a := if Hedging inp then CloseOppositePositions symbol type a else a in
    let currentPositions := CountPositionsForSymbol symbol (terminal a) in
    if (Pyramiding inp <=? currentPositions)%Z then
      fail ("Max positions reached for " ++ symbol ++ " (limit: "
            ++ IntegerToString (Pyramiding inp) ++ ")")%string a
    else
      let info := symbolInfo (terminal a) symbol in
      let currentPrice :=
        if String.eqb type "BUY" then sym_ask info else sym_bid info in
      let pipValue := GetPipValue symbol in
      match normalizeIfSet info (tj_stopLoss cmd) with
      | None => Crashed a
      | Some stopLoss =>
      match normalizeIfSet info (tj_takeProfit cmd) with
      | None => Crashed a
      | Some takeProfit =>
      match lotSize info (accountBalance (terminal a)) currentPrice stopLoss
              pipValue with
      | None => Crashed a
      | Some volume =>
          let volume := NormalizeVolume info volume in
          if Qle_bool volume 0 then
            fail "Invalid calculated volume"%string a
          else
            match validateLevels type currentPrice stopLoss takeProfit with
            | Some error => fail error a
            | None =>
                match divide
                        (ddiv (dmul currentPrice (MaxSlippagePercent inp)) 100)
                        (sym_point info) with
                | None => Crashed a
                | Some slippagePoints =>
                    let request :=
                      openRequest symbol type volume currentPrice stopLoss
                        takeProfit (toULong slippagePoints)
                        (brokerFillingMode a) in
                    let (a, reply) := orderSend request a in
                    if negb (reply_ok reply) then
                      fail ("OrderSend failed: "
                            ++ IntegerToString (reply_lastError reply))%string a
                    else if negb (Z.eqb (reply_retcode reply) TRADE_RETCODE_DONE)
                    then
                      fail ("Trade failed: retcode="
                            ++ IntegerToString (reply_retcode reply))%string a
                    else
                      Finished
                        (SendReport commandId true
                           (IntegerToString (reply_order reply))
                           (IntegerToString (reply_order reply)) "" a)
                end
            end
      end end end.

(** [GetTP1FromComment]: the number after ["|TP1:"], 0 without marker. *)
Definition GetTP1FromComment (comment : string) : Q :=
  let startPos := StringFind comment "|TP1:" in
  if (startPos <? 0)%Z then 0
  else StringToDouble (StringSubstr comment (startPos + 5)%Z).

Definition IsPositionTracked (ticket : Z) (trackingArray : list Z) : bool :=
  existsb (Z.eqb ticket) trackingArray.

Definition AddPositionToTracking (ticket : Z) (trackingArray : list Z)
  : list Z :=
  trackingArray ++ [ticket].

Definition markPartialExited (ticket : Z) (a : Agent) : Agent :=
  mkAgent (terminal a) (brokerFillingMode a)
          (AddPositionToTracking ticket (partialExitedPositions a))
          (breakEvenPositions a) (requests a) (reports a).

Definition markBreakEven (ticket : Z) (a : Agent) : Agent :=
  mkAgent (terminal a) (brokerFillingMode a) (partialExitedPositions a)
          (AddPositionToTracking ticket (breakEvenPositions a))
          (requests a) (reports a).

(** Signed distance in the direction of the position. *)
Definition directed (type : PositionType) (from to : Q) : Q :=
  match type with
  | POSITION_TYPE_BUY => dsub to from
  | POSITION_TYPE_SELL => dsub from to
  end.

(** The price at [distance] from the open price, in the direction of the
    position. *)
Definition beyondOpen (type : PositionType) (openPrice distance : Q) : Q :=
  match type with
  | POSITION_TYPE_BUY => dadd openPrice distance
  | POSITION_TYPE_SELL => dsub openPrice distance
  end.

(** The request that closes part of a position. *)
Definition partialCloseRequest (p : Position) (exitVolume currentPrice : Q)
  (filling : Z) : MqlTradeRequest :=
  {| req_action := TRADE_ACTION_DEAL;
     req_position := pos_ticket p;
     req_symbol := pos_symbol p;
     req_volume := exitVolume;
     req_type := match pos_type p with
                 | POSITION_TYPE_BUY => ORDER_TYPE_SELL
                 | POSITION_TYPE_SELL => ORDER_TYPE_BUY
                 end;
     req_price := currentPrice;
     req_sl := 0;
     req_tp := 0;
     req_deviation := 10;
     req_magic := 123456;
     req_comment := "Partial Exit";
     req_typeFilling := filling |}.

(** The request that sets the second target and the break-even stop. *)
Definition modifyRequest (p : Position) (newSL newTP : Q) : MqlTradeRequest :=
  {| req_action := TRADE_ACTION_SLTP;
     req_position := pos_ticket p;
     req_symbol := pos_symbol p;
     req_volume := 0;
     req_type := ORDER_TYPE_BUY;
     req_price := 0;
     req_sl := newSL;
     req_tp := newTP;
     req_deviation := 0;
     req_magic := 0;
     req_comment := "";
     req_typeFilling := 0 |}.

(** The second target: twice the first distance from the open price. *)
Definition secondTarget (p : Position) (info : SymbolInfo) (tp1Price : Q)
  : option Q :=
  if Qlt_bool 0 tp1Price then
    let tpDistance := directed (pos_type p) (pos_priceOpen p) tp1Price in
    NormalizePrice info (beyondOpen (pos_type p) (pos_priceOpen p)
                           (dmul 2 tpDistance))
  else if UseFixedPartialExit inp then
    let tp2Distance :=
      dmul (dmul (PartialExitPips inp) 2) (GetPipValue (pos_symbol p)) in
    NormalizePrice info (beyondOpen (pos_type p) (pos_priceOpen p) tp2Distance)
  else Some 0.

(** After a successful partial close: mark the position, and if it can
    still be selected set the second target and the break-even stop with
    one request. *)
Definition afterPartialClose (p : Position) (tp1Price : Q) (a : Agent)
  : Exec :=
  let ticket := pos_ticket p in
  let a := markPartialExited ticket a in
  match PositionSelectByTicket ticket (terminal a) with
  | None => Finished a
  | Some _ =>
      let info := symbolInfo (terminal a) (pos_symbol p) in
      match secondTarget p info tp1Price with
      | None => Crashed a
      | Some newTP =>
          match NormalizePrice info (pos_priceOpen p) with
          | None => Crashed a
          | Some newSL =>
              let (a, reply) := orderSend (modifyRequest p newSL newTP) a in
              if (reply_ok reply
                  && Z.eqb (reply_retcode reply) TRADE_RETCODE_DONE)%bool
              then Finished (markBreakEven ticket a)
              else Finished a
          end
      end
  end.

(** The first-stage trigger in pips and the first target price: the fixed
    setting, or the distance to the target stored in the comment; [None]
    when there is no target to act on. *)
Definition exitTrigger (p : Position) (pipValue : Q) : option (Q * Q) :=
  if UseFixedPartialExit inp then Some (PartialExitPips inp, 0)
  else
    let tp1Price := GetTP1FromComment (pos_comment p) in
    if Qlt_bool 0 tp1Price then
      let tpDistance := directed (pos_type p) (pos_priceOpen p) tp1Price in
      Some (ddiv tpDistance pipValue, tp1Price)
    else None.

(** The body of the loop of [ManagePartialExits] for index [i]. *)
Definition managePosition (a : Agent) (i : nat) : Exec :=
  let ticket := PositionGetTicket i (terminal a) in
  if negb (0 <? ticket)%Z then Finished a
  else
    match PositionSelectByTicket ticket (terminal a) with
    | None => Finished a
    | Some p =>
        if IsPositionTracked ticket (partialExitedPositions a) then Finished a
        else
          let info := symbolInfo (terminal a) (pos_symbol p) in
          let currentPrice :=
            match pos_type p with
            | POSITION_TYPE_BUY => sym_bid info
            | POSITION_TYPE_SELL => sym_ask info
            end in
          let pipValue := GetPipValue (pos_symbol p) in
          let priceDiff := directed (pos_type p) (pos_priceOpen p) currentPrice in
          let profitPips := ddiv priceDiff pipValue in
          match exitTrigger p pipValue with
          | None => Finished a
          | Some (exitTriggerPips, tp1Price) =>
              if (Qlt_bool 0 exitTriggerPips
                  && Qle_bool exitTriggerPips profitPips)%bool then
                let exitVolume :=
                  NormalizeVolume info
                    (ddiv (dmul (pos_volume p) (PartialExitPercent inp)) 100) in
                if (Qlt_bool 0 exitVolume
                    && Qlt_bool exitVolume (pos_volume p))%bool then
                  let (a1, reply) :=
                    orderSend
                      (partialCloseRequest p exitVolume currentPrice
                         (brokerFillingMode a))
                      a in
                  if (reply_ok reply
                      && Z.eqb (reply_retcode reply) TRADE_RETCODE_DONE)%bool
                  then afterPartialClose p tp1Price a1
                  else Finished a1
                else Finished a
              else Finished a
          end
    end.

(** [ManagePartialExits]: all indices below [PositionsTotal()], read once;
    a zero divide stops the pass. *)
Definition ManagePartialExits (a : Agent) : Exec :=
  fold_left
    (fun e i => match e with
                | Finished a => managePosition a i
                | Crashed a => Crashed a
                end)
    (seq 0 (PositionsTotal (terminal a))) (Finished a).

End AgentProgram.

(* ------------------------------------------------------------------ *)
(** ** Vocabulary for the agent's properties                          *)
(* ------------------------------------------------------------------ *)

(** A request of the hedging loop: it closes an existing ticket and carries
    no target. *)
Definition closesTicket (r : MqlTradeRequest) : Prop :=
  req_tp r = 0 /\ req_position r <> 0%Z /\ req_comment r = ""%string.

(** The opening part of the requests of [ExecuteTrade]: nothing, or the one
    request that opens the position, whose comment holds the normalised
    target of the command. *)
Definition opensWithComment (DoubleToString : Q -> Z -> string)
  (cmd : TradeJson) (opening : list MqlTradeRequest) : Prop :=
  opening = [] \/
  exists volume currentPrice stopLoss takeProfit deviation filling info,
    opening = [openRequest DoubleToString (tj_symbol cmd) (tj_type cmd)
                 volume currentPrice stopLoss takeProfit deviation filling]
    /\ normalizeIfSet info (tj_takeProfit cmd) = Some takeProfit
    /\ req_comment (openRequest DoubleToString (tj_symbol cmd) (tj_type cmd)
                      volume currentPrice stopLoss takeProfit deviation filling)
       = ("TradingView" ++ tpComment DoubleToString takeProfit)%string.

(** [n] is a whole number nearest to [x]. *)
Definition nearestInteger (n : Z) (x : Q) : Prop :=
  inject_Z n - x <= 1 # 2 /\ x - inject_Z n <= 1 # 2.

(** The lot step and the tick size that the program uses. *)
Definition stepOf (info : SymbolInfo) : Q :=
  if Qeq_bool (sym_volumeStep info) 0 then roundToDouble (1 # 100)
  else sym_volumeStep info.


(** [v] is [volume] rounded to the lot step and clamped: the smallest lot,
    the largest lot, or the product of the lot step and a whole number
    nearest to the quotient of the volume and the step. *)
Definition roundedToStep (info : SymbolInfo) (volume v : Q) : Prop :=
  v = sym_volumeMin info \/ v = sym_volumeMax info
  \/ exists n : Z,
       nearestInteger n (ddiv volume (stepOf info))
       /\ v = dmul (inject_Z n) (stepOf info).


(* ------------------------------------------------------------------ *)
(** ** A terminal to run the agent against                             *)
(* ------------------------------------------------------------------ *)

(** Decimal text to a rational: digits, then optionally a point and more
    digits; [parseDouble], the nearest double, stands in for
    [StringToDouble] on the texts used below. *)
Definition digitOf (c : ascii) : option Z :=
  let n := nat_of_ascii c in
  if (Nat.leb 48 n && Nat.leb n 57)%bool then Some (Z.of_nat (n - 48))
  else None.

Fixpoint parseFraction (s : string) (acc scale : Z) : Z * Z :=
  match s with
  | EmptyString => (acc, scale)
  | String c r =>
      match digitOf c with
      | Some d => parseFraction r (acc * 10 + d)%Z (scale * 10)%Z
      | None => (acc, scale)
      end
  end.

Fixpoint parseDecimal' (s : string) (acc : Z) : Q :=
  match s with
  | EmptyString => inject_Z acc
  | String c r =>
      match digitOf c with
      | Some d => parseDecimal' r (acc * 10 + d)%Z
      | None =>
          if Ascii.eqb c "."%char then
            let (n, scale) := parseFraction r acc 1%Z in
            Qmake n (Z.to_pos scale)
          else inject_Z acc
      end
  end.

Definition parseDecimal (s : string) : Q := parseDecimal' s 0%Z.

Definition parseDouble (s : string) : Q := roundToDouble (parseDecimal s).

(** A broker that fills every request: a deal on a ticket reduces that
    position (and removes it when nothing is left), a deal without ticket
    opens a position under the next free ticket, a modification sets stop
    and target. *)
Definition fillRequest (t : Terminal) (request : MqlTradeRequest)
  : Terminal * OrderReply :=
  let done := mkReply true TRADE_RETCODE_DONE 0 0 0 in
  match req_action request with
  | TRADE_ACTION_DEAL =>
      if Z.eqb (req_position request) 0 then
        let ticket := (1000 + Z.of_nat (List.length (positions t)))%Z in
        (mkTerminal
           (positions t ++
              [mkPosition ticket (req_symbol request)
                 match req_type request with
                 | ORDER_TYPE_BUY => POSITION_TYPE_BUY
                 | ORDER_TYPE_SELL => POSITION_TYPE_SELL
                 end
                 (req_price request) (req_volume request)
                 (req_sl request) (req_tp request) (req_comment request)])
           (symbolInfo t) (accountBalance t),
         mkReply true TRADE_RETCODE_DONE ticket ticket 0)
      else
        (mkTerminal
           (flat_map
              (fun p =>
                 if Z.eqb (pos_ticket p) (req_position request) then
                   if Qle_bool (pos_volume p) (req_volume request) then []
                   else [mkPosition (pos_ticket p) (pos_symbol p) (pos_type p)
                           (pos_priceOpen p)
                           (dsub (pos_volume p) (req_volume request))
                           (pos_sl p) (pos_tp p) (pos_comment p)]
                 else [p])
              (positions t))
           (symbolInfo t) (accountBalance t),
         done)
  | TRADE_ACTION_SLTP =>
      (mkTerminal
         (map (fun p =>
                 if Z.eqb (pos_ticket p) (req_position request) then
                   mkPosition (pos_ticket p) (pos_symbol p) (pos_type p)
                     (pos_priceOpen p) (pos_volume p)
                     (req_sl request) (req_tp request) (pos_comment p)
                 else p)
              (positions t))
         (symbolInfo t) (accountBalance t),
       done)
  | ACTION_NONE => (t, mkReply false 0 0 0 4756)
  end.

(** A five-digit symbol quoted at [bid]/[ask], lots from 0.01 in steps of
    0.01. *)
Definition fxInfo (bid ask : Q) : SymbolInfo :=
  {| sym_bid := bid;
     sym_ask := ask;
     sym_point := roundToDouble (1 # 100000);
     sym_tickSize := roundToDouble (1 # 100000);
     sym_tickValue := 1;
     sym_digits := 5;
     sym_volumeMin := roundToDouble (1 # 100);
     sym_volumeMax := 100;
     sym_volumeStep := roundToDouble (1 # 100);
     sym_selected := true;
     sym_selectResult := true;
     sym_selectedAfterWait := true |}.

(** A long EURUSD position of the given volume opened at 1.10000 with the
    first target 1.10500 in its comment, while the bid is 1.10500. *)
Definition longPosition (volume : Q) : Position :=
  mkPosition 7001 "EURUSD" POSITION_TYPE_BUY (roundToDouble (11 # 10)) volume
             0 0 "TradingView|TP1:1.10500".

Definition quotes : string -> SymbolInfo :=
  fun _ => fxInfo (roundToDouble (1105 # 1000)) (roundToDouble (11051 # 10000)).

Definition agentWith (p : Position) : Agent :=
  mkAgent (mkTerminal [p] quotes 10000) 0 [] [] [] [].

(** The declared inputs with the fixed first-stage trigger of 50 pips. *)
Definition fixedExitInputs : Inputs :=
  {| MaxSlippagePercent := MaxSlippagePercent defaultInputs;
     Hedging := Hedging defaultInputs;
     Pyramiding := Pyramiding defaultInputs;
     UseRiskBasedLotSize := UseRiskBasedLotSize defaultInputs;
     RiskPercentPerTrade := RiskPercentPerTrade defaultInputs;
     FixedLotSize := FixedLotSize defaultInputs;
     UseFixedPartialExit := true;
     PartialExitPercent := PartialExitPercent defaultInputs;
     PartialExitPips := PartialExitPips defaultInputs |}.

(** Decimal text of a non-negative rational with [digits] decimals; stands
    in for [DoubleToString] and [IntegerToString]. *)
Definition formatInteger (z : Z) : string :=
  NilZero.string_of_int (Z.to_int z).

Definition formatDecimal (x : Q) (digits : Z) : string :=
  let unit := (10 ^ digits)%Z in
  let scaled := Qfloor (x * inject_Z unit + (1 # 2)) in
  (formatInteger (scaled / unit) ++ "."
   ++ String.substring 1 (Z.to_nat digits)
        (formatInteger (unit + scaled mod unit)))%string.


(** An agent on an empty terminal and a BUY command with stop 1.10000 and
    target 1.11000. *)
Definition idleAgent : Agent :=
  mkAgent (mkTerminal [] quotes 10000) 0 [] [] [] [].

Definition buyCommand : TradeJson :=
  mkTradeJson "EURUSD" "BUY" (roundToDouble (1 # 100))
    (roundToDouble (11 # 10)) (roundToDouble (111 # 100)).

Local Close Scope Q_scope.



(* ================================================================== *)
(** * The rest of the store, the routes and the agent                   *)
(* ================================================================== *)

(* ------------------------------------------------------------------ *)
(** ** [MemStorage]: settings, trades, failed items                    *)
(* ------------------------------------------------------------------ *)

(** [InsertSettings] after [insertSettingsSchema.parse]. *)
Record InsertSettings : Type := mkInsertSettings {
  iset_mt5ApiSecret : option string;
  iset_accountBalance : option string;
  iset_autoTrade : option string
}.

(** [upsertSettings]: [id] is the identifier that [randomUUID()] returns;
    it is used only when no settings exist (or their id is empty). *)
Definition upsertSettings (insertSettings : InsertSettings) (id : string)
  (st : MemStorage) : MemStorage * Settings :=
  let s :=
    {| set_id := strOr (option_map set_id (settings st)) id;
       set_mt5ApiSecret := iset_mt5ApiSecret insertSettings;
       set_accountBalance := strOr (iset_accountBalance insertSettings) "10000";
       set_autoTrade := strOr (iset_autoTrade insertSettings) "true";
       set_lastMt5Heartbeat :=
         match settings st with
         | Some old => set_lastMt5Heartbeat old
         | None => None
         end |} in
  (with_settings st (Some s), s).

(** Comparator [(a, b) => b.openTime - a.openTime]. *)
Definition newest_trade_first (a b : Trade) : bool :=
  trade_openTime b <? trade_openTime a.

Definition getTrades (limit : JsInteger) (st : MemStorage) : list Trade :=
  slice0 limit (js_sort newest_trade_first (JsMap.values (trades st))).

(** [req.query.limit ? parseInt(req.query.limit) : 50] of
    [GET /api/signals] and [GET /api/trades]; [parsed] is what [parseInt]
    returns for a non-empty parameter. *)
Definition queryLimit (parsed : option JsInteger) : JsInteger :=
  match parsed with
  | Some limit => limit
  | None => Int 50
  end.

(** [errorMessage !== null && errorMessage !== ''] *)
Definition hasErrorText (e : option string) : bool := truthy e.

(** Comparator [(a, b) => b.createdAt - a.createdAt]. *)
Definition newest_command_first (a b : Mt5Command) : bool :=
  cmd_createdAt b <? cmd_createdAt a.

Definition isFailedCommand (c : Mt5Command) : bool :=
  (CommandStatus_eqb (cmd_status c) cmd_failed
   || hasErrorText (cmd_errorMessage c))%bool.

Definition getFailedCommands (limit : nat) (st : MemStorage)
  : list Mt5Command :=
  firstn limit
    (js_sort newest_command_first
       (filter isFailedCommand (JsMap.values (mt5Commands st)))).


(* ------------------------------------------------------------------ *)
(** ** [MemStorage]: symbol mappings                                   *)
(* ------------------------------------------------------------------ *)

(** [InsertSymbolMapping] *)
Record InsertSymbolMapping : Type := mkInsertMapping {
  imap_tradingViewSymbol : string;
  imap_mt5Symbol : string
}.

(** [createSymbolMapping]: [None] stands for the thrown
    "Mapping for ... already exists"; the check compares the TradingView
    symbols exactly. *)
Definition createSymbolMapping (insertMapping : InsertSymbolMapping)
  (id : string) (now : Z) (st : MemStorage)
  : option (MemStorage * SymbolMapping) :=
  match find (fun m => String.eqb (map_tradingViewSymbol m)
                         (imap_tradingViewSymbol insertMapping))
             (JsMap.values (symbolMappings st)) with
  | Some existing => None
  | None =>
      let mapping :=
        {| map_id := id;
           map_tradingViewSymbol := imap_tradingViewSymbol insertMapping;
           map_mt5Symbol := imap_mt5Symbol insertMapping;
           map_createdAt := now |} in
      Some (mkStorage (signals st) (trades st) (settings st) (mt5Commands st)
              (mt5ExecutionResults st)
              (JsMap.set id mapping (symbolMappings st)),
            mapping)
  end.

Definition deleteSymbolMapping (id : string) (st : MemStorage) : MemStorage :=
  mkStorage (signals st) (trades st) (settings st) (mt5Commands st)
    (mt5ExecutionResults st) (JsMap.delete id (symbolMappings st)).

(** Text of ASCII characters only: on such text [toUpperCase] above is
    [String.prototype.toUpperCase] and [String.eqb] is [===]. *)
Definition isAscii (s : string) : bool :=
  forallb (fun c => Nat.ltb (nat_of_ascii c) 128) (list_ascii_of_string s).

Definition asciiMappings (st : MemStorage) : Prop :=
  Forall (fun m => isAscii (map_tradingViewSymbol m) = true
                   /\ isAscii (map_mt5Symbol m) = true)
         (JsMap.values (symbolMappings st)).

Section LocaleOrder.

(** [String.prototype.localeCompare] is the platform's collation. *)
Variable localeCompare : string -> string -> Z.

(** [getSymbolMappings]: sorted by TradingView symbol. *)
Definition getSymbolMappings (st : MemStorage) : list SymbolMapping :=
  js_sort (fun a b =>
             localeCompare (map_tradingViewSymbol a)
               (map_tradingViewSymbol b) <? 0)
          (JsMap.values (symbolMappings st)).

(** The test of one mapping in the loop of [areSymbolsEquivalent]. *)
Definition linksSymbols (symbol1 symbol2 : string) (mapping : SymbolMapping)
  : bool :=
  let tvSymbol := map_tradingViewSymbol mapping in
  let mt5Symbol := map_mt5Symbol mapping in
  let isSymbol1TV := String.eqb (toUpperCase tvSymbol) (toUpperCase symbol1) in
  let isSymbol1MT5 := String.eqb (toUpperCase mt5Symbol) (toUpperCase symbol1) in
  let isSymbol2TV := String.eqb (toUpperCase tvSymbol) (toUpperCase symbol2) in
  let isSymbol2MT5 := String.eqb (toUpperCase mt5Symbol) (toUpperCase symbol2) in
  ((isSymbol1TV && isSymbol2MT5) || (isSymbol1MT5 && isSymbol2TV))%bool.

Definition areSymbolsEquivalent (symbol1 symbol2 : string) (st : MemStorage)
  : bool :=
  if String.eqb (toUpperCase symbol1) (toUpperCase symbol2) then true
  else existsb (linksSymbols symbol1 symbol2) (getSymbolMappings st).

End LocaleOrder.

(** A store with the mapping [EURUSD -> EURUSDm]. *)
Definition mappedStore : MemStorage :=
  mkStorage JsMap.empty JsMap.empty None JsMap.empty JsMap.empty
    (JsMap.set "m1" (mkMapping "m1" "EURUSD" "EURUSDm" 0) JsMap.empty).

(* ------------------------------------------------------------------ *)
(** ** [MemStorage]: dashboard statistics                              *)
(* ------------------------------------------------------------------ *)

(** [Math.round]: nearest integer, halves upwards. *)
Definition MathRoundJs (x : Q) : Z := Qfloor (x + (1 # 2))%Q.

(** [DashboardStats] *)
Record DashboardStats : Type := mkStats {
  totalSignals : nat;
  pendingSignals : nat;
  executedTrades : nat;
  successRate : Z;
  isConnected : bool
}.

Section Doubles.

(** [(executedSignals / totalSignals) * 100] as the platform computes it in
    double precision; the result, a double, is a rational number. *)
Variable ratioTimes100 : nat -> nat -> Q.

(** [getStats] *)
Definition getStats (now : Z) (st : MemStorage) : DashboardStats :=
  let allSignals := JsMap.values (signals st) in
  let allTrades := JsMap.values (trades st) in
  let totalSignals := List.length allSignals in
  let pendingSignals :=
    List.length
      (filter (fun s => SignalStatus_eqb (sig_status s) sig_pending)
         allSignals) in
  let executedTrades :=
    List.length
      (filter (fun t => match trade_status t with
                        | trade_open | trade_closed => true
                        | trade_failed => false
                        end) allTrades) in
  let executedSignals :=
    List.length
      (filter (fun s => SignalStatus_eqb (sig_status s) sig_executed)
         allSignals) in
  let successRate :=
    if Nat.ltb 0 totalSignals
    then ratioTimes100 executedSignals totalSignals
    else 0%Q in
  let isConnected :=
    match settings st with
    | Some s =>
        match set_lastMt5Heartbeat s with
        | Some lastHeartbeat => now - lastHeartbeat <? 60000
        | None => false
        end
    | None => false
    end in
  mkStats totalSignals pendingSignals executedTrades
          (MathRoundJs successRate) isConnected.

End Doubles.

(** The quotient without rounding error. *)
Definition exactRatioTimes100 (e t : nat) : Q :=
  (inject_Z (Z.of_nat e) / inject_Z (Z.of_nat t) * 100)%Q.

(* ------------------------------------------------------------------ *)
(** ** The routes: the upgrade handler ([server/routes.ts])            *)
(* ------------------------------------------------------------------ *)

(** What the handler reads from an upgrade request: the path, the
    [secret] query parameter ([null] when absent) and the
    [x-mt5-api-secret] header ([undefined] when absent). *)
Record UpgradeRequest : Type := mkUpgrade {
  up_pathname : string;
  up_secretParam : option string;
  up_secretHeader : option string
}.

Inductive UpgradeAnswer : Type :=
| FrontendSocket                (* [wss.handleUpgrade] *)
| AgentSocket                   (* [mt5Wss.handleUpgrade] *)
| Unauthorized                  (* 401 *)
| NotFound.                     (* 404 *)

Definition option_string_eqb (a b : option string) : bool :=
  match a, b with
  | Some x, Some y => String.eqb x y
  | None, None => true
  | _, _ => false
  end.

(** [httpServer.on('upgrade')].  An accepted agent socket is handed to the
    connection handler of [mt5Wss]. *)
Definition onUpgrade (request : UpgradeRequest) (ws : WsClient)
  (uuid : nat -> string) (now : Z) (srv : Server) : Server * UpgradeAnswer :=
  let pathname := up_pathname request in
  if String.eqb pathname "/ws" then (srv, FrontendSocket)
  else if String.eqb pathname "/mt5-ws" then
    let apiSecret :=
      if truthy (up_secretParam request) then up_secretParam request
      else up_secretHeader request in
    let (st1, settings) := getSettings (storage srv) in
    if (truthy (set_mt5ApiSecret settings)
        && negb (option_string_eqb apiSecret (set_mt5ApiSecret settings)))%bool
    then (with_storage srv st1, Unauthorized)
    else (onConnection ws uuid now (with_storage srv st1), AgentSocket)
  else (srv, NotFound).

(** [afterOfflineAlert] with auto-trade then switched off in the settings. *)
Definition pausedServer : Server :=
  with_storage afterOfflineAlert
    (fst (upsertSettings (mkInsertSettings None None (Some "false"%string))
            "u" (storage afterOfflineAlert))).

(* ------------------------------------------------------------------ *)
(** ** The routes as a transition system                               *)
(* ------------------------------------------------------------------ *)

(** What reaches the handlers of [registerRoutes] and changes the process
    state.  The identifiers and clock readings that a handler draws are
    part of the event.  The [GET] routes other than [/api/settings] only
    read.  The store's methods do no input or output, so the [await]s of a
    handler resume before the next event is taken up: a handler is one
    step. *)
Inductive Event : Type :=
| Alert (body : WebhookBody) (signalId commandId : string) (now : Z)
    (* [POST /api/webhook] *)
| Upgrade (request : UpgradeRequest) (ws : WsClient) (uuid : nat -> string)
    (now : Z)
    (* [httpServer.on('upgrade')] *)
| AgentMessage (report : Report) (resultId tradeId : string) (now : Z)
    (* [ws.on('message')] of an agent socket *)
| AgentNoise (heartbeat : option Z)
    (* [ws.on('message')] with a text that is no report: one that
       [JSON.parse] rejects ([None]), or the JSON [null], on which reading
       [report.type] fails after the heartbeat update at the given time *)
| AgentPing (now : Z)
    (* [ws.on('ping')] and [ws.on('pong')] *)
| AgentGone (ws : WsClient)
    (* [ws.on('close')] and [ws.on('error')] *)
| ReadSettings
    (* [GET /api/settings] *)
| SaveSettings (insertSettings : InsertSettings) (id : string)
    (* [POST /api/settings] *)
| AddMapping (insertMapping : InsertSymbolMapping) (id : string) (now : Z)
    (* [POST /api/symbol-mappings] *)
| RemoveMapping (id : string).
    (* [DELETE /api/symbol-mappings/:id] *)

(** [mt5WsClients.delete(ws)]; a socket is identified by [ws_id]. *)
Definition deleteClient (ws : WsClient) (clients : list WsClient)
  : list WsClient :=
  filter (fun client => negb (Nat.eqb (ws_id client) (ws_id ws))) clients.

(** The state after the handler of an event; what the handler writes to
    the agent is [textsOf] below. *)
Definition handle (srv : Server) (e : Event) : Server :=
  match e with
  | Alert body signalId commandId now =>
      fst (webhook body signalId commandId now srv)
  | Upgrade request ws uuid now => fst (onUpgrade request ws uuid now srv)
  | AgentMessage report resultId tradeId now =>
      with_storage srv (fst (onReport report resultId tradeId now (storage srv)))
  | AgentNoise (Some now) =>
      with_storage srv (updateMt5Heartbeat now (storage srv))
  | AgentNoise None => srv
  | AgentPing now => with_storage srv (updateMt5Heartbeat now (storage srv))
  | AgentGone ws =>
      mkServer (storage srv) (deleteClient ws (mt5WsClients srv)) (outbox srv)
  | ReadSettings => with_storage srv (fst (getSettings (storage srv)))
  | SaveSettings insertSettings id =>
      with_storage srv (fst (upsertSettings insertSettings id (storage srv)))
  | AddMapping insertMapping id now =>
      match createSymbolMapping insertMapping id now (storage srv) with
      | Some (st, _) => with_storage srv st
      | None => srv
      end
  | RemoveMapping id => with_storage srv (deleteSymbolMapping id (storage srv))
  end.

(** The process after a sequence of events, starting with empty stores and
    no socket. *)
Definition run (events : list Event) : Server :=
  fold_left handle events freshServer.

(** A text that the routes write to an agent socket (the ping and pong
    frames of the protocol carry none). *)
Inductive AgentText : Type :=
| CommandText (ws : nat) (command : WireCommand)
    (* [client.send] in [sendCommandToMT5] *)
| ReplyText (reply : Reply)
    (* [ws.send] at the end of the message handler *)
| ProcessingFailed.
    (* [{ success: false, error: 'Failed to process report' }] *)

(** What the handler of an event writes: the commands it gives to
    [sendCommandToMT5], which the handler appends to [outbox], and then, in
    the message handler, its answer to the agent. *)
Definition textsOf (srv : Server) (e : Event) : list AgentText :=
  map (fun m => CommandText (fst m) (snd m))
      (skipn (List.length (outbox srv)) (outbox (handle srv e)))
  ++ match e with
     | AgentMessage report resultId tradeId now =>
         match snd (onReport report resultId tradeId now (storage srv)) with
         | NoReply => []
         | reply => [ReplyText reply]
         end
     | AgentNoise _ => [ProcessingFailed]
     | _ => []
     end.

(** Everything written to agent sockets while the events are handled. *)
Fixpoint transcript (srv : Server) (events : list Event) : list AgentText :=
  match events with
  | [] => []
  | e :: rest => textsOf srv e ++ transcript (handle srv e) rest
  end.

Definition commandsOf (texts : list AgentText) : list (nat * WireCommand) :=
  flat_map (fun t => match t with
                     | CommandText ws command => [(ws, command)]
                     | _ => []
                     end) texts.

(** The clock readings of the handlers, in the order of the events. *)
Definition clockReadings (events : list Event) : list Z :=
  flat_map (fun e => match e with
                     | Alert _ _ _ now | Upgrade _ _ _ now
                     | AgentMessage _ _ _ now | AgentPing now
                     | AgentNoise (Some now) | AddMapping _ _ now => [now]
                     | _ => []
                     end) events.

(** The clock does not run backwards. *)
Definition clockMonotone (events : list Event) : Prop :=
  StronglySorted Z.le (clockReadings events).

(** [randomUUID()] returns an identifier that is not in use: the command
    identifiers that the handler of an event draws are new to the queue
    and differ from each other. *)
Definition freshCommandIds (srv : Server) (e : Event) : Prop :=
  match e with
  | Alert _ _ commandId _ => getCommandById commandId (storage srv) = None
  | Upgrade _ _ uuid _ =>
      (forall i, getCommandById (uuid i) (storage srv) = None)
      /\ (forall i j, uuid i = uuid j -> i = j)
  | _ => True
  end.

Fixpoint freshRun (srv : Server) (events : list Event) : Prop :=
  match events with
  | [] => True
  | e :: rest => freshCommandIds srv e /\ freshRun (handle srv e) rest
  end.

(** The agent connects at time 100 and loses its socket; two alerts arrive
    at times 200 and 210, within the heartbeat window, and their commands
    stay ['pending']. *)
Definition gbpusdBody : WebhookBody :=
  {| body_symbol := "GBPUSD";
     body_signalType := "short";
     body_price := None;
     body_indicatorType := None;
     body_entryPrice := None;
     body_stopLoss := None;
     body_takeProfit := None |}.

Definition offlineAlerts : list Event :=
  [ Upgrade (mkUpgrade "/mt5-ws" None None) (mkClient 0 true) sampleUuid 100;
    AgentGone (mkClient 0 true);
    Alert eurusdBody "s1" "c1" 200;
    Alert gbpusdBody "s2" "c2" 210 ].

(** The queue lists its commands by creation time, and none was created
    after [t]. *)
Definition createdUpTo (t : Z) (st : MemStorage) : Prop :=
  createdAscending (mt5Commands st)
  /\ Forall (fun created => created <= t)
       (map cmd_createdAt (JsMap.values (mt5Commands st))).

(** A command as the routes create it: a TRADE of 0.01 lots without
    position, without error text, and not ['failed']. *)
Definition tradeOnly (c : Mt5Command) : Prop :=
  cmd_action c = TRADE
  /\ cmd_volume c = Some "0.01"%string
  /\ cmd_positionId c = None
  /\ cmd_errorMessage c = None
  /\ cmd_status c <> cmd_failed
  /\ cmd_signalId c <> None
  /\ cmd_symbol c <> None
  /\ cmd_type c <> None.

Definition tradeMessage (w : WireCommand) : Prop :=
  wire_action w = TRADE
  /\ wire_volume w = Some "0.01"%string
  /\ wire_positionId w = None
  /\ wire_symbol w <> None
  /\ wire_type w <> None.

(** The queue is well formed and holds only such commands; the channel has
    carried only their messages. *)
Definition queueInv (st : MemStorage) : Prop :=
  wf_commands (mt5Commands st)
  /\ Forall tradeOnly (JsMap.values (mt5Commands st)).

Definition channelInv (srv : Server) : Prop :=
  Forall (fun m => tradeMessage (snd m)) (outbox srv).

(** A text of the channel: a TRADE message as above, or an answer of the
    message handler. *)
Definition channelText (t : AgentText) : Prop :=
  match t with
  | CommandText _ command => tradeMessage command
  | ReplyText reply => reply = Ack \/ reply = CommandNotFound
  | ProcessingFailed => True
  end.

(** Signals are stored under their own identifier. *)
Definition wf_signals (m : JsMap.t Signal) : Prop :=
  NoDup (JsMap.keys m) /\ Forall (fun kv => sig_id (snd kv) = fst kv) m.

(* ------------------------------------------------------------------ *)
(** ** The agent: commands ([TradingViewWebSocket_EA.mq5])             *)
(* ------------------------------------------------------------------ *)

Local Open Scope Q_scope.

Section AgentCommands.

(** As in [AgentProgram]; in addition [StringToInteger], and the
    extraction of a field from the command text, [GetJsonValue], which the
    dispatch below only passes on. *)
Variable inp : Inputs.
Variable DoubleToString : Q -> Z -> string.
Variable StringToDouble : string -> Q.
Variable IntegerToString : Z -> string.
Variable StringToInteger : string -> Z.
Variable GetJsonValue : string -> string -> string.
Variable OrderSend : Terminal -> MqlTradeRequest -> Terminal * OrderReply.

(** The cast of a [long] to [ulong]. *)
Definition toTicket (x : Z) : Z := (x mod 2 ^ 64)%Z.

(** [ClosePosition(commandId, commandJson)] *)
Definition ClosePosition (commandId commandJson : string) (a : Agent)
  : Agent :=
  let positionId := GetJsonValue commandJson "positionId" in
  let ticket := toTicket (StringToInteger positionId) in
  match PositionSelectByTicket ticket (terminal a) with
  | None =>
      SendReport commandId false "" ""
        ("Position not found: " ++ positionId)%string a
  | Some p =>
      let type :=
        match pos_type p with
        | POSITION_TYPE_BUY => ORDER_TYPE_SELL
        | POSITION_TYPE_SELL => ORDER_TYPE_BUY
        end in
      let info := symbolInfo (terminal a) (pos_symbol p) in
      let request :=
        {| req_action := TRADE_ACTION_DEAL;
           req_position := ticket;
           req_symbol := pos_symbol p;
           req_volume := pos_volume p;
           req_type := type;
           req_price := match type with
                        | ORDER_TYPE_SELL => sym_bid info
                        | ORDER_TYPE_BUY => sym_ask info
                        end;
           req_sl := 0;
           req_tp := 0;
           req_deviation := 10;
           req_magic := 123456;
           req_comment := "";
           req_typeFilling := brokerFillingMode a |} in
      let (a, reply) := orderSend OrderSend request a in
      if negb (reply_ok reply) then
        SendReport commandId false "" ""
          ("Close failed: " ++ IntegerToString (reply_lastError reply))%string a
      else SendReport commandId true "" "" "" a
  end.

(** The fields that [ExecuteTrade] extracts from the command text. *)
Definition tradeFields (commandJson : string) : TradeJson :=
  {| tj_symbol := GetJsonValue commandJson "symbol";
     tj_type := GetJsonValue commandJson "type";
     tj_volume := StringToDouble (GetJsonValue commandJson "volume");
     tj_stopLoss := StringToDouble (GetJsonValue commandJson "stopLoss");
     tj_takeProfit := StringToDouble (GetJsonValue commandJson "takeProfit") |}.

(** [ProcessCommand(commandJson)] *)
Definition ProcessCommand (commandJson : string) (a : Agent) : Exec :=
  let commandId := GetJsonValue commandJson "id" in
  let action := GetJsonValue commandJson "action" in
  if String.eqb commandId "" then Finished a
  else if String.eqb action "PING" then
    Finished (SendReport commandId true "" "" "" a)
  else if String.eqb action "TRADE" then
    ExecuteTrade inp DoubleToString IntegerToString OrderSend commandId
      (tradeFields commandJson) a
  else if String.eqb action "CLOSE" then
    Finished (ClosePosition commandId commandJson a)
  else
    Finished (SendReport commandId false "" ""
                ("Unknown action: " ++ action)%string a).

End AgentCommands.

Local Close Scope Q_scope.

(** The declared inputs with hedging switched off. *)
Definition noHedgingInputs : Inputs :=
  {| MaxSlippagePercent := MaxSlippagePercent defaultInputs;
     Hedging := false;
     Pyramiding := Pyramiding defaultInputs;
     UseRiskBasedLotSize := UseRiskBasedLotSize defaultInputs;
     RiskPercentPerTrade := RiskPercentPerTrade defaultInputs;
     FixedLotSize := FixedLotSize defaultInputs;
     UseFixedPartialExit := UseFixedPartialExit defaultInputs;
     PartialExitPercent := PartialExitPercent defaultInputs;
     PartialExitPips := PartialExitPips defaultInputs |}.

(** A request of [ManagePartialExits]: a "Partial Exit" deal of positive
    volume on a ticket, or a modification of the stop and target of a
    ticket. *)
Definition stagedRequest (r : MqlTradeRequest) : Prop :=
  (req_action r = TRADE_ACTION_DEAL
   /\ req_comment r = "Partial Exit"%string
   /\ (0 < req_position r)%Z
   /\ (0 < req_volume r)%Q)
  \/ (req_action r = TRADE_ACTION_SLTP /\ (0 < req_position r)%Z).

(* ------------------------------------------------------------------ *)
(** ** The agent: WebSocket frames                                     *)
(* ------------------------------------------------------------------ *)

(** Bytes ([uchar]) are integers from 0 to 255; an array is a list. *)

(** What [DecodeWebSocketFrame] does with the bytes of one read: it
    returns the text of a payload, or [""] after having done nothing,
    having set [isConnected = false], or having called [SendPong()]; an
    index beyond the array stops the program. *)
Inductive Decoded : Type :=
| NoText
| ServerClosed
| PingAnswered
| Text (payload : list Z)      (* [CharArrayToString(payload, 0, -1, CP_UTF8)] *)
| ArrayOutOfRange.

(** [offset + payloadLength > length], [ArrayCopy] *)
Definition extractPayload (buffer : list Z) (length payloadLength offset : Z)
  : Decoded :=
  if length <? offset + payloadLength then NoText
  else Text (firstn (Z.to_nat payloadLength) (skipn (Z.to_nat offset) buffer)).

(** [DecodeWebSocketFrame(buffer, length)] *)
Definition DecodeWebSocketFrame (buffer : list Z) (length : Z) : Decoded :=
  if length <? 2 then NoText
  else
    match nth_error buffer 0 with
    | None => ArrayOutOfRange
    | Some b0 =>
        let opcode := Z.land b0 15 in
        if opcode =? 8 then ServerClosed
        else if opcode =? 9 then PingAnswered
        else if negb (opcode =? 1) then NoText
        else
          match nth_error buffer 1 with
          | None => ArrayOutOfRange
          | Some b1 =>
              let payloadLength := Z.land b1 127 in
              if payloadLength =? 126 then
                match nth_error buffer 2, nth_error buffer 3 with
                | Some b2, Some b3 =>
                    extractPayload buffer length (Z.lor (Z.shiftl b2 8) b3) 4
                | _, _ => ArrayOutOfRange
                end
              else if payloadLength =? 127 then
                extractPayload buffer length payloadLength 10
              else extractPayload buffer length payloadLength 2
          end
    end.

(** The frame that [SendWebSocketMessage] builds for the bytes of a
    message (without the terminating zero); [mask] holds the four values
    [MathRand() % 256]. *)
Definition messageFrame (messageBytes mask : list Z) : list Z :=
  let messageLen := Z.of_nat (List.length messageBytes) in
  let header :=
    if messageLen <=? 125 then [129; Z.lor 128 (messageLen mod 256)]
    else [129; Z.lor 128 126;
          Z.land (Z.shiftr messageLen 8) 255; Z.land messageLen 255] in
  header
  ++ map (fun i => nth i mask 0) (seq 0 4)
  ++ map (fun i => Z.lxor (nth i messageBytes 0) (nth (i mod 4) mask 0))
       (seq 0 (List.length messageBytes)).

(** [SendWebSocketMessage]: the frame handed to the socket, if any. *)
Definition SendWebSocketMessage (wsHandle : Z) (isConnected : bool)
  (messageBytes mask : list Z) : option (list Z) :=
  if ((wsHandle <? 0) || negb isConnected)%bool then None
  else Some (messageFrame messageBytes mask).

(** A success report that names no order, as the agent sends it for a
    PING or a CLOSE. *)
Definition bareSuccessReport : Report :=
  {| rep_type := None;
     rep_commandId := Some "c1"%string;
     rep_success := true;
     rep_orderId := None;
     rep_positionId := None;
     rep_error := None |}.



(* ================================================================== *)
(** * Properties                                                        *)
(* ================================================================== *)

(** ** Facts about [JsMap] *)

Module JsMapFacts.
Import JsMap.

Section Facts.
Context {V : Type}.
Implicit Types (m : JsMap.t V) (v : V) (k : string).

Lemma get_set_same k v m : get k (set k v m) = Some v.
Proof.
  induction m as [|[k' v'] r IH]; simpl.
  - now rewrite String.eqb_refl.
  - destruct (String.eqb k k') eqn:E; simpl; rewrite E; auto.
Qed.

Lemma get_set_other k k' v m : k <> k' -> get k' (set k v m) = get k' m.
Proof.
  intros Hne. induction m as [|[k0 v0] r IH]; simpl.
  - destruct (String.eqb k' k) eqn:E; auto.
    apply String.eqb_eq in E. congruence.
  - destruct (String.eqb k k0) eqn:E; simpl.
    + apply String.eqb_eq in E. subst k0.
      destruct (String.eqb k' k) eqn:E'; auto.
      apply String.eqb_eq in E'. congruence.
    + destruct (String.eqb k' k0); auto.
Qed.

Lemma get_set k k' v m :
  get k' (set k v m) = if String.eqb k k' then Some v else get k' m.
Proof.
  destruct (String.eqb k k') eqn:E.
  - apply String.eqb_eq in E. subst. apply get_set_same.
  - apply String.eqb_neq in E. now apply get_set_other.
Qed.

Lemma keys_set_present k v m :
  get k m <> None -> keys (set k v m) = keys m.
Proof.
  induction m as [|[k' v'] r IH]; simpl; intros H.
  - congruence.
  - destruct (String.eqb k k') eqn:E; simpl; auto.
    f_equal. now apply IH.
Qed.

Lemma keys_set_absent k v m :
  get k m = None -> set k v m = m ++ [(k, v)].
Proof.
  induction m as [|[k' v'] r IH]; simpl; intros H; auto.
  destruct (String.eqb k k') eqn:E; [discriminate|].
  f_equal. now apply IH.
Qed.

Lemma get_In k v m : get k m = Some v -> In (k, v) m.
Proof.
  induction m as [|[k' v'] r IH]; simpl; [discriminate|].
  destruct (String.eqb k k') eqn:E; intros H.
  - apply String.eqb_eq in E. inversion H. subst. now left.
  - right. now apply IH.
Qed.

Lemma get_None_keys k m : get k m = None <-> ~ In k (keys m).
Proof.
  induction m as [|[k' v'] r IH]; simpl.
  - tauto.
  - destruct (String.eqb k k') eqn:E.
    + apply String.eqb_eq in E. subst. split; [discriminate|tauto].
    + apply String.eqb_neq in E. rewrite IH. split.
      * intros H [H1|H1]; [congruence|tauto].
      * tauto.
Qed.

Lemma In_get k v m : NoDup (keys m) -> In (k, v) m -> get k m = Some v.
Proof.
  induction m as [|[k' v'] r IH]; simpl; [tauto|].
  intros Hnd [H|H].
  - inversion H. subst. now rewrite String.eqb_refl.
  - inversion Hnd as [|? ? Hnin Hnd']. subst.
    destruct (String.eqb k k') eqn:E.
    + apply String.eqb_eq in E. subst. exfalso. apply Hnin.
      change (In (fst (k', v)) (map fst r)). now apply in_map.
    + now apply IH.
Qed.

Lemma keys_set_NoDup k v m : NoDup (keys m) -> NoDup (keys (set k v m)).
Proof.
  intros Hnd. destruct (get k m) eqn:G.
  - rewrite keys_set_present; [auto|congruence].
  - rewrite keys_set_absent by auto. unfold keys. rewrite map_app. simpl.
    apply NoDup_app_remove_l with (l := []). simpl.
    apply get_None_keys in G.
    clear - Hnd G. induction m as [|[k' v'] r IH]; simpl in *.
    + constructor; [tauto|constructor].
    + inversion Hnd; subst. constructor.
      * rewrite in_app_iff. simpl. intros [H|[H|[]]]; [tauto|].
        subst. tauto.
      * apply IH; tauto.
Qed.

End Facts.

End JsMapFacts.

(** ** Decidable equality of the enumerations *)

Lemma TradeType_eqb_eq a b : TradeType_eqb a b = true <-> a = b.
Proof. destruct a, b; simpl; split; congruence. Qed.

Lemma SignalStatus_eqb_eq a b : SignalStatus_eqb a b = true <-> a = b.
Proof. destruct a, b; simpl; split; congruence. Qed.

Lemma CommandStatus_eqb_eq a b : CommandStatus_eqb a b = true <-> a = b.
Proof. destruct a, b; simpl; split; congruence. Qed.


(** ** The command store *)

Lemma Forall_set {V : Type} (P : string * V -> Prop) k v (m : JsMap.t V) :
  Forall P m -> (forall k', P (k', v)) -> Forall P (JsMap.set k v m).
Proof.
  intros H Hv. induction m as [|[k' v'] r IH]; simpl.
  - constructor; auto.
  - inversion H; subst. destruct (String.eqb k k'); constructor; auto.
Qed.

Lemma wf_get_id m k c :
  wf_commands m -> JsMap.get k m = Some c -> cmd_id c = k.
Proof.
  intros [_ Hid] G. apply JsMapFacts.get_In in G.
  rewrite Forall_forall in Hid. exact (Hid _ G).
Qed.

Lemma wf_set m k c :
  wf_commands m -> cmd_id c = k -> wf_commands (JsMap.set k c m).
Proof.
  intros [Hnd Hid] E. split.
  - now apply JsMapFacts.keys_set_NoDup.
  - clear Hnd. induction m as [|[k' v'] r IH]; simpl.
    + constructor; auto.
    + inversion Hid; subst.
      destruct (String.eqb (cmd_id c) k') eqn:E.
      * apply String.eqb_eq in E. constructor; auto.
      * constructor; auto.
Qed.

Lemma wf_values_get m c :
  wf_commands m -> In c (JsMap.values m) -> JsMap.get (cmd_id c) m = Some c.
Proof.
  intros [Hnd Hid] Hin. unfold JsMap.values in Hin.
  apply in_map_iff in Hin. destruct Hin as [[k v] [E Hin]]. simpl in E. subst v.
  rewrite Forall_forall in Hid. pose proof (Hid _ Hin) as Hk. simpl in Hk.
  rewrite Hk. apply JsMapFacts.In_get; auto.
Qed.

(** The sweep, seen from one key: the last command of the list stored under
    that key decides. *)
Lemma fold_fail_get L : forall m k,
  JsMap.get k (fold_left fail_timed_out L m) =
  match find (fun c => String.eqb (cmd_id c) k) (rev L) with
  | Some c =>
      Some (set_command_status c cmd_failed (cmd_sentAt c)
              (cmd_acknowledgedAt c) (Some timeoutMessage))
  | None => JsMap.get k m
  end.
Proof.
  induction L as [|a L IH] using rev_ind; intros m k; simpl; auto.
  rewrite fold_left_app, rev_app_distr. simpl.
  unfold fail_timed_out at 1. rewrite JsMapFacts.get_set.
  destruct (String.eqb (cmd_id a) k); auto.
Qed.

Lemma fold_fail_keys L : forall m,
  (forall c, In c L -> JsMap.get (cmd_id c) m <> None) ->
  JsMap.keys (fold_left fail_timed_out L m) = JsMap.keys m.
Proof.
  induction L as [|a L IH]; intros m H; simpl; auto.
  rewrite IH.
  - unfold fail_timed_out. apply JsMapFacts.keys_set_present.
    apply H. now left.
  - intros c Hc. unfold fail_timed_out. rewrite JsMapFacts.get_set.
    destruct (String.eqb (cmd_id a) (cmd_id c)); [discriminate|].
    apply H. now right.
Qed.

Lemma retry_get now st k c :
  wf_commands (mt5Commands st) ->
  getCommandById k st = Some c ->
  getCommandById k (retryTimedOutCommands now st) =
  Some (if timedOut now c
        then set_command_status c cmd_failed (cmd_sentAt c)
               (cmd_acknowledgedAt c) (Some timeoutMessage)
        else c).
Proof.
  intros Hwf G. unfold getCommandById, retryTimedOutCommands in *. simpl.
  rewrite fold_fail_get.
  destruct (find _ _) as [c0|] eqn:F.
  - apply find_some in F. destruct F as [Hin E].
    apply String.eqb_eq in E. apply in_rev in Hin.
    apply filter_In in Hin. destruct Hin as [Hin Ht].
    apply (wf_values_get _ _ Hwf) in Hin. rewrite E in Hin.
    assert (c0 = c) by congruence. subst c0. now rewrite Ht.
  - destruct (timedOut now c) eqn:Ht; auto.
    exfalso.
    assert (Hin : In c (rev (filter (timedOut now)
                               (JsMap.values (mt5Commands st))))).
    { rewrite <- in_rev. apply filter_In. split; auto.
      apply JsMapFacts.get_In in G. unfold JsMap.values.
      change c with (snd (k, c)). now apply in_map. }
    pose proof (find_none _ _ F _ Hin) as Hn. simpl in Hn.
    rewrite (wf_get_id _ _ _ Hwf G), String.eqb_refl in Hn. discriminate.
Qed.

Lemma retry_keys now st :
  wf_commands (mt5Commands st) ->
  JsMap.keys (mt5Commands (retryTimedOutCommands now st)) =
  JsMap.keys (mt5Commands st).
Proof.
  intros Hwf. unfold retryTimedOutCommands. simpl.
  apply fold_fail_keys. intros c Hc. apply filter_In in Hc.
  destruct Hc as [Hc _]. rewrite (wf_values_get _ _ Hwf Hc). discriminate.
Qed.

(** Two maps with the same keys, in the same order, and the same value under
    every key are equal. *)
Lemma jsmap_ext {V : Type} (m1 : JsMap.t V) : forall m2 : JsMap.t V,
  JsMap.keys m1 = JsMap.keys m2 ->
  NoDup (JsMap.keys m1) ->
  (forall k, In k (JsMap.keys m1) -> JsMap.get k m1 = JsMap.get k m2) ->
  m1 = m2.
Proof.
  induction m1 as [|[k1 v1] r1 IH]; intros [|[k2 v2] r2] Hk Hnd Hg;
    simpl in *; try discriminate; auto.
  inversion Hk; subst k2. inversion Hnd as [|? ? Hnin Hnd']; subst.
  pose proof (Hg k1 (or_introl eq_refl)) as Hhead.
  rewrite String.eqb_refl in Hhead. inversion Hhead; subst v2.
  f_equal. apply IH; auto.
  intros k Hin. specialize (Hg k (or_intror Hin)).
  destruct (String.eqb k k1) eqn:E; auto.
  apply String.eqb_eq in E. subst. contradiction.
Qed.

Lemma get_map_values {V : Type} (f : V -> V) (m : JsMap.t V) k :
  JsMap.get k (map_values f m) = option_map f (JsMap.get k m).
Proof.
  induction m as [|[k' v'] r IH]; simpl; auto.
  destruct (String.eqb k k'); auto.
Qed.

Lemma keys_map_values {V : Type} (f : V -> V) (m : JsMap.t V) :
  JsMap.keys (map_values f m) = JsMap.keys m.
Proof.
  unfold JsMap.keys, map_values. rewrite map_map. simpl. reflexivity.
Qed.

Lemma values_map_values {V : Type} (f : V -> V) (m : JsMap.t V) :
  JsMap.values (map_values f m) = map f (JsMap.values m).
Proof.
  unfold JsMap.values, map_values. now rewrite !map_map.
Qed.

Lemma keys_get_some {V : Type} (m : JsMap.t V) k :
  In k (JsMap.keys m) -> exists v, JsMap.get k m = Some v.
Proof.
  intros H. destruct (JsMap.get k m) eqn:G; eauto.
  apply JsMapFacts.get_None_keys in G. contradiction.
Qed.

(** On a well-formed store the sweep is a pointwise update. *)
Lemma retry_pointwise now st :
  wf_commands (mt5Commands st) ->
  mt5Commands (retryTimedOutCommands now st) =
  map_values (sweep1 now) (mt5Commands st).
Proof.
  intros Hwf. apply jsmap_ext.
  - rewrite keys_map_values. now apply retry_keys.
  - rewrite retry_keys by auto. apply Hwf.
  - intros k Hin. rewrite retry_keys in Hin by auto.
    destruct (keys_get_some _ _ Hin) as [c G].
    rewrite get_map_values, G. simpl.
    exact (retry_get now st k c Hwf G).
Qed.

Lemma sweep1_pending now c : isPending (sweep1 now c) = isPending c.
Proof.
  unfold sweep1, timedOut, isPending.
  destruct (cmd_status c) eqn:E; simpl; try now rewrite E.
  destruct (cmd_sentAt c); [|now rewrite E].
  destruct (timeout <? now - z); simpl; now rewrite ?E.
Qed.

Lemma sweep1_pending_eq now c : isPending c = true -> sweep1 now c = c.
Proof.
  unfold sweep1, timedOut, isPending.
  destruct (cmd_status c); simpl; auto; discriminate.
Qed.

Lemma retry_pending_unchanged now st :
  wf_commands (mt5Commands st) ->
  filter isPending (JsMap.values (mt5Commands (retryTimedOutCommands now st))) =
  filter isPending (JsMap.values (mt5Commands st)).
Proof.
  intros Hwf. rewrite retry_pointwise by auto. rewrite values_map_values.
  induction (JsMap.values (mt5Commands st)) as [|c l IH]; simpl; auto.
  rewrite sweep1_pending. destruct (isPending c) eqn:E; auto.
  now rewrite sweep1_pending_eq, IH.
Qed.

(** C8.  The timeout sweep [retryTimedOutCommands]: a command that has been
    ['sent'] for strictly more than 60000 ms becomes ['failed'] with the
    non-empty reason text; a command sent at most 60000 ms ago (59999 ms in
    particular) is left as it is; the sweep creates no command: the keys of
    the queue and its ['pending'] commands are the same before and after. *)
Theorem C8_timeout_sweep now st k c t :
  wf_commands (mt5Commands st) ->
  getCommandById k st = Some c ->
  cmd_status c = cmd_sent ->
  cmd_sentAt c = Some t ->
  let st' := retryTimedOutCommands now st in
  (now - t > 60000 ->
     exists c', getCommandById k st' = Some c'
             /\ cmd_status c' = cmd_failed
             /\ cmd_errorMessage c' = Some timeoutMessage
             /\ timeoutMessage <> ""%string)
  /\ (now - t <= 60000 -> getCommandById k st' = Some c)
  /\ (now - t = 59999 -> getCommandById k st' = Some c)
  /\ JsMap.keys (mt5Commands st') = JsMap.keys (mt5Commands st)
  /\ filter isPending (JsMap.values (mt5Commands st')) =
     filter isPending (JsMap.values (mt5Commands st)).
Proof.
  intros Hwf G Hs Ht st'. subst st'.
  pose proof (retry_get now st k c Hwf G) as R.
  unfold timedOut in R. rewrite Hs, Ht in R. unfold timeout in R.
  repeat split.
  - intros Hgt. destruct (60000 <? now - t) eqn:E; [|lia].
    eexists. split; [exact R|]. simpl. repeat split; auto. discriminate.
  - intros Hle. destruct (60000 <? now - t) eqn:E; [lia|]. exact R.
  - intros Heq. destruct (60000 <? now - t) eqn:E; [lia|]. exact R.
  - now apply retry_keys.
  - now apply retry_pending_unchanged.
Qed.

Lemma C8_timeout_sweep_witness :
  (60001 - 0 > 60000 ->
     exists c', getCommandById "c1" (retryTimedOutCommands 60001 sentStore)
                = Some c'
             /\ cmd_status c' = cmd_failed
             /\ cmd_errorMessage c' = Some timeoutMessage
             /\ timeoutMessage <> ""%string)
  /\ (60001 - 0 <= 60000 ->
      getCommandById "c1" (retryTimedOutCommands 60001 sentStore)
      = Some sentCommand)
  /\ (60001 - 0 = 59999 ->
      getCommandById "c1" (retryTimedOutCommands 60001 sentStore)
      = Some sentCommand)
  /\ JsMap.keys (mt5Commands (retryTimedOutCommands 60001 sentStore)) =
     JsMap.keys (mt5Commands sentStore)
  /\ filter isPending
       (JsMap.values (mt5Commands (retryTimedOutCommands 60001 sentStore))) =
     filter isPending (JsMap.values (mt5Commands sentStore)).
Proof.
  apply (C8_timeout_sweep 60001 sentStore "c1" sentCommand 0).
  - split; simpl.
    + constructor; [simpl; tauto | constructor].
    + constructor; [reflexivity | constructor].
  - reflexivity.
  - reflexivity.
  - reflexivity.
Defined.

(** Every store operation keeps the queue well formed. *)
Lemma apply_op_wf st op :
  wf_commands (mt5Commands st) -> wf_commands (mt5Commands (apply_op st op)).
Proof.
  intros Hwf. destruct op as [ins id now|id now|id now|id msg|now]; simpl.
  - now apply wf_set.
  - unfold markCommandAsSent.
    destruct (JsMap.get id (mt5Commands st)) eqn:G; auto. simpl.
    apply wf_set; auto. simpl. eapply wf_get_id; eauto.
  - unfold markCommandAsAcknowledged.
    destruct (JsMap.get id (mt5Commands st)) eqn:G; auto. simpl.
    apply wf_set; auto. simpl. eapply wf_get_id; eauto.
  - unfold markCommandAsFailed.
    destruct (JsMap.get id (mt5Commands st)) eqn:G; auto. simpl.
    apply wf_set; auto. simpl. eapply wf_get_id; eauto.
  - change (wf_commands (mt5Commands (retryTimedOutCommands now st))).
    rewrite retry_pointwise by auto. destruct Hwf as [Hnd Hid]. split.
    + now rewrite keys_map_values.
    + unfold map_values. rewrite Forall_forall in *.
      intros kv Hin. apply in_map_iff in Hin.
      destruct Hin as [[k v] [E Hin]]. subst kv. simpl.
      specialize (Hid _ Hin). simpl in Hid.
      unfold sweep1. destruct (timedOut now v); simpl; auto.
Qed.

Lemma run_ops_wf ops : forall st,
  wf_commands (mt5Commands st) -> wf_commands (mt5Commands (run_ops st ops)).
Proof.
  induction ops as [|op ops IH]; intros st Hwf; simpl; auto.
  apply IH. now apply apply_op_wf.
Qed.

Lemma newStorage_wf : wf_commands (mt5Commands newStorage).
Proof. split; simpl; constructor. Qed.

(** C1 (as the code has it).  No store operation looks at the status a
    command is in.  [enqueueCommand] stores a ['pending'] command under the
    identifier it is given, whether or not that identifier was in use, and
    returns it; [markCommandAsSent], [markCommandAsAcknowledged] and
    [markCommandAsFailed] give the addressed command the status ['sent'],
    ['acknowledged'] and ['failed'] from any status; the sweep turns a
    timed-out ['sent'] command into ['failed']; every other stored command
    keeps its status, and no operation other than [enqueueCommand] under
    that identifier stores a command where there was none. *)
Theorem C1_status_after_operation st op k :
  wf_commands (mt5Commands st) ->
  (forall insertCommand id now,
      op = OpEnqueue insertCommand id now ->
      let command := snd (enqueueCommand insertCommand id now st) in
      getCommandById id (apply_op st op) = Some command
      /\ cmd_id command = id
      /\ cmd_status command = cmd_pending
      /\ cmd_createdAt command = now
      /\ cmd_sentAt command = None
      /\ cmd_acknowledgedAt command = None
      /\ cmd_action command = icmd_action insertCommand
      /\ cmd_signalId command = icmd_signalId insertCommand)
  /\ (forall c, getCommandById k st = Some c ->
        exists c', getCommandById k (apply_op st op) = Some c'
                /\ cmd_status c' = status_after op k c)
  /\ (getCommandById k st = None ->
      match op with
      | OpEnqueue _ id _ => id <> k
      | _ => True
      end ->
      getCommandById k (apply_op st op) = None).
Proof.
  intros Hwf. unfold getCommandById in *. split; [|split].
  - intros ins id now ->. cbn. rewrite JsMapFacts.get_set_same.
    repeat split.
  - intros c G.
    destruct op as [ins id now|id now|id now|id msg|now]; simpl.
    + rewrite JsMapFacts.get_set. destruct (String.eqb id k); eauto.
    + unfold markCommandAsSent.
      destruct (JsMap.get id (mt5Commands st)) as [c0|] eqn:G0; simpl.
      * rewrite JsMapFacts.get_set. destruct (String.eqb id k); eauto.
      * destruct (String.eqb id k) eqn:E; eauto.
        apply String.eqb_eq in E. congruence.
    + unfold markCommandAsAcknowledged.
      destruct (JsMap.get id (mt5Commands st)) as [c0|] eqn:G0; simpl.
      * rewrite JsMapFacts.get_set. destruct (String.eqb id k); eauto.
      * destruct (String.eqb id k) eqn:E; eauto.
        apply String.eqb_eq in E. congruence.
    + unfold markCommandAsFailed.
      destruct (JsMap.get id (mt5Commands st)) as [c0|] eqn:G0; simpl.
      * rewrite JsMapFacts.get_set. destruct (String.eqb id k); eauto.
      * destruct (String.eqb id k) eqn:E; eauto.
        apply String.eqb_eq in E. congruence.
    + pose proof (retry_get now st k c Hwf G) as R.
      unfold getCommandById in R.
      eexists; split; [exact R|]. destruct (timedOut now c); auto.
  - intros G Hop.
    assert (Hmark : forall id c',
               JsMap.get id (mt5Commands st) = Some c' ->
               forall v, JsMap.get k (JsMap.set id v (mt5Commands st)) = None).
    { intros id c' G0 v. rewrite JsMapFacts.get_set.
      destruct (String.eqb id k) eqn:E; auto.
      apply String.eqb_eq in E. congruence. }
    destruct op as [ins id now|id now|id now|id msg|now]; simpl.
    + rewrite JsMapFacts.get_set. apply String.eqb_neq in Hop.
      now rewrite Hop.
    + unfold markCommandAsSent.
      destruct (JsMap.get id (mt5Commands st)) as [c0|] eqn:G0; simpl; eauto.
    + unfold markCommandAsAcknowledged.
      destruct (JsMap.get id (mt5Commands st)) as [c0|] eqn:G0; simpl; eauto.
    + unfold markCommandAsFailed.
      destruct (JsMap.get id (mt5Commands st)) as [c0|] eqn:G0; simpl; eauto.
    + change (JsMap.get k (mt5Commands (retryTimedOutCommands now st)) = None).
      rewrite retry_pointwise by auto.
      rewrite get_map_values, G. reflexivity.
Qed.

Lemma C1_status_after_operation_witness :
  (exists c', getCommandById "c1" (apply_op sentStore (OpMarkFailed "c1" "x"))
              = Some c'
           /\ cmd_status c' = cmd_failed)
  /\ (exists c', getCommandById "c2"
                   (apply_op sentStore
                      (OpEnqueue (sampleInsert (Some "s2"%string)) "c2" 5))
                 = Some c'
              /\ cmd_status c' = cmd_pending).
Proof.
  assert (Hwf : wf_commands (mt5Commands sentStore)).
  { split; simpl.
    - constructor; [simpl; tauto | constructor].
    - constructor; [reflexivity | constructor]. }
  split.
  - exact (proj1 (proj2 (C1_status_after_operation sentStore
                           (OpMarkFailed "c1" "x") "c1" Hwf))
             sentCommand eq_refl).
  - destruct (proj1 (C1_status_after_operation sentStore
                       (OpEnqueue (sampleInsert (Some "s2"%string)) "c2" 5)
                       "c2" Hwf)
                _ _ _ eq_refl) as (H1 & _ & H2 & _).
    eexists. split; [exact H1|exact H2].
Defined.

(** C1, the claim as stated, fails: a command that the sweep has put in
    ['failed'] is ['acknowledged'] when the late report is handled, so the
    observed statuses are not a path of the documented machine and the
    command is seen in both terminal statuses. *)
Lemma C1_terminal_status_overwritten :
  observed "c1" newStorage lateReportScript =
    [None; Some cmd_pending; Some cmd_sent; Some cmd_failed;
     Some cmd_acknowledged]
  /\ spec_path (observed "c1" newStorage lateReportScript) = false.
Proof. split; reflexivity. Qed.

(** ** The enqueue guard *)

Lemma count_set_le {V : Type} (P : V -> bool) k v (m : JsMap.t V) :
  (List.length (filter P (JsMap.values (JsMap.set k v m))) <=
   List.length (filter P (JsMap.values m)) + (if P v then 1 else 0))%nat.
Proof.
  unfold JsMap.values.
  induction m as [|[k' v'] r IH]; simpl.
  - destruct (P v); simpl; lia.
  - destruct (String.eqb k k'); simpl.
    + destruct (P v), (P v'); simpl; lia.
    + destruct (P v'); simpl; lia.
Qed.

Lemma find_none_filter {A : Type} (f g : A -> bool) (l : list A) :
  find f (filter g l) = None ->
  filter (fun x => (g x && f x)%bool) l = [].
Proof.
  induction l as [|x l IH]; simpl; auto.
  destruct (g x); simpl; auto.
  destruct (f x); [discriminate|auto].
Qed.

Lemma attempt_keeps_invariant st a :
  atMostOneNonTerminal st -> atMostOneNonTerminal (attempt st a).
Proof.
  intros H sid. unfold attempt, enqueueIfAbsent, getPendingCommands.
  destruct (find _ _) eqn:F; simpl; [apply H|].
  apply find_none_filter in F.
  unfold nonTerminalFor. simpl.
  eapply Nat.le_trans; [apply count_set_le|]. simpl.
  destruct (String.eqb (sig_id (att_signal a)) sid) eqn:E.
  - apply String.eqb_eq in E. subst sid. rewrite F. simpl.
    destruct (hasSignalId _ _); lia.
  - specialize (H sid). unfold nonTerminalFor in H.
    unfold hasSignalId at 2. simpl. rewrite E. lia.
Qed.

Lemma filter_nil_find {A : Type} (f g : A -> bool) (l : list A) :
  filter (fun x => (g x && f x)%bool) l = [] ->
  find f (filter g l) = None.
Proof.
  induction l as [|x l IH]; simpl; auto.
  destruct (g x); simpl; auto.
  destruct (f x); [discriminate|auto].
Qed.

(** C4 (as the code has it).  [enqueueCommand] never rejects: it stores a
    new ['pending'] command under the identifier drawn and returns that
    command; under a new identifier the queue grows by exactly this
    command, also when a non-terminal command of the same signal is already
    there.  The guard is the webhook's: an attempt that finds a ['pending']
    or ['sent'] command of the signal leaves the store as it is and creates
    nothing, an attempt that finds none enqueues the TRADE command of the
    signal; and after any sequence of guarded attempts a store that had at
    most one non-terminal command per signal still has at most one. *)
Theorem C4_guarded_enqueue attempts st :
  atMostOneNonTerminal st ->
  atMostOneNonTerminal (fold_left attempt attempts st)
  /\ (forall a, nonTerminalFor (sig_id (att_signal a)) st <> [] ->
        enqueueIfAbsent (att_signal a) (att_stopLoss a) (att_takeProfit a)
          (att_commandId a) (att_now a) st = (st, None))
  /\ (forall a, nonTerminalFor (sig_id (att_signal a)) st = [] ->
        let r := enqueueCommand
                   (tradeCommandFor (att_signal a) (att_stopLoss a)
                      (att_takeProfit a))
                   (att_commandId a) (att_now a) st in
        enqueueIfAbsent (att_signal a) (att_stopLoss a) (att_takeProfit a)
          (att_commandId a) (att_now a) st = (fst r, Some (snd r))
        /\ cmd_signalId (snd r) = Some (sig_id (att_signal a))
        /\ cmd_action (snd r) = TRADE)
  /\ (forall insertCommand id now,
        let r := enqueueCommand insertCommand id now st in
        getCommandById id (fst r) = Some (snd r)
        /\ cmd_id (snd r) = id
        /\ cmd_status (snd r) = cmd_pending
        /\ cmd_signalId (snd r) = icmd_signalId insertCommand
        /\ (getCommandById id st = None ->
            JsMap.values (mt5Commands (fst r))
            = JsMap.values (mt5Commands st) ++ [snd r]
            /\ forall signalId,
                 icmd_signalId insertCommand = Some signalId ->
                 nonTerminalFor signalId (fst r)
                 = nonTerminalFor signalId st ++ [snd r])).
Proof.
  intros H. split; [|split; [|split]].
  - revert st H. induction attempts as [|a l IH]; intros st H; simpl; auto.
    apply IH. now apply attempt_keeps_invariant.
  - intros a Hne. unfold enqueueIfAbsent, getPendingCommands.
    destruct (find _ _) eqn:F; auto.
    apply find_none_filter in F. unfold nonTerminalFor in Hne. contradiction.
  - intros a He r. unfold enqueueIfAbsent, getPendingCommands.
    unfold nonTerminalFor in He. rewrite (filter_nil_find _ _ _ He).
    subst r. cbn. auto.
  - intros ins id now r. subst r. unfold getCommandById. cbn.
    rewrite JsMapFacts.get_set_same. repeat split.
    + rewrite (JsMapFacts.keys_set_absent _ _ _ H0).
      unfold JsMap.values. now rewrite map_app.
    + intros sid Hs. unfold nonTerminalFor. cbn.
      rewrite (JsMapFacts.keys_set_absent _ _ _ H0).
      unfold JsMap.values. rewrite map_app, filter_app. cbn.
      unfold hasSignalId at 2. cbn. rewrite Hs, String.eqb_refl.
      reflexivity.
Qed.

Lemma C4_guarded_enqueue_witness :
  atMostOneNonTerminal
    (fold_left attempt
       [mkAttempt sampleSignal None None "c1" 0;
        mkAttempt sampleSignal None None "c2" 1] newStorage)
  /\ map cmd_id
       (JsMap.values
          (mt5Commands
             (fold_left attempt
                [mkAttempt sampleSignal None None "c1" 0;
                 mkAttempt sampleSignal None None "c2" 1] newStorage)))
     = ["c1"%string]
  /\ enqueueIfAbsent sampleSignal None None "c2" 1
       (attempt newStorage (mkAttempt sampleSignal None None "c1" 0))
     = (attempt newStorage (mkAttempt sampleSignal None None "c1" 0), None).
Proof.
  split; [|split].
  - apply (C4_guarded_enqueue
             [mkAttempt sampleSignal None None "c1" 0;
              mkAttempt sampleSignal None None "c2" 1] newStorage).
    intros sid. simpl. lia.
  - reflexivity.
  - refine (proj1 (proj2 (C4_guarded_enqueue []
                            (attempt newStorage
                               (mkAttempt sampleSignal None None "c1" 0)) _))
              (mkAttempt sampleSignal None None "c2" 1) _).
    + apply attempt_keeps_invariant. intros sid. simpl. lia.
    + discriminate.
Defined.

(** C4, the claim as stated, fails for [enqueueCommand]: a second enqueue
    for the same signal creates a second ['pending'] command and returns the
    new command, not the existing one. *)
Lemma C4_enqueue_creates_second_command :
  let st1 := fst (enqueueCommand (sampleInsert (Some "s1"%string)) "c1" 0
                    newStorage) in
  let r := enqueueCommand (sampleInsert (Some "s1"%string)) "c2" 1 st1 in
  map cmd_id (nonTerminalFor "s1" st1) = ["c1"%string]
  /\ cmd_id (snd r) = "c2"%string
  /\ map cmd_id (nonTerminalFor "s1" (fst r)) = ["c1"%string; "c2"%string]
  /\ ~ atMostOneNonTerminal (fst r).
Proof.
  simpl. repeat split; try reflexivity.
  intros H. specialize (H "s1"%string). simpl in H. lia.
Qed.

(** ** The reconnection replay *)

Lemma updateSignalStatus_commands id s e st :
  mt5Commands (updateSignalStatus id s e st) = mt5Commands st.
Proof.
  unfold updateSignalStatus. destruct (JsMap.get id (signals st)); auto.
Qed.

Lemma resendCommand_commands now srv c :
  mt5Commands (storage (resendCommand now srv c)) =
  mt5Commands (markCommandAsSent (cmd_id c) now (storage srv)).
Proof.
  unfold resendCommand. simpl.
  destruct (cmd_signalId c) as [sid|]; simpl; auto.
  destruct (negb (String.eqb sid "")); simpl; auto.
  apply updateSignalStatus_commands.
Qed.

Lemma resendCommand_channel now srv c :
  mt5WsClients (resendCommand now srv c) = mt5WsClients srv
  /\ outbox (resendCommand now srv c) =
     outbox srv ++ sendsOf (mt5WsClients srv) true c.
Proof. unfold resendCommand. simpl. auto. Qed.

Lemma replay_channel now L : forall srv,
  mt5WsClients (fold_left (resendCommand now) L srv) = mt5WsClients srv
  /\ outbox (fold_left (resendCommand now) L srv) =
     outbox srv ++ flat_map (sendsOf (mt5WsClients srv) true) L.
Proof.
  induction L as [|c L IH]; intros srv; simpl.
  - now rewrite app_nil_r.
  - destruct (IH (resendCommand now srv c)) as [H1 H2].
    destruct (resendCommand_channel now srv c) as [H3 H4].
    rewrite H1, H2, H3, H4. split; auto. now rewrite app_assoc.
Qed.

Lemma markSent_status id now st k c :
  getCommandById k st = Some c ->
  exists c', getCommandById k (markCommandAsSent id now st) = Some c'
          /\ cmd_id c' = cmd_id c
          /\ cmd_status c' = if String.eqb id k then cmd_sent else cmd_status c.
Proof.
  unfold getCommandById, markCommandAsSent. intros G.
  destruct (JsMap.get id (mt5Commands st)) as [c0|] eqn:G0; simpl.
  - rewrite JsMapFacts.get_set. destruct (String.eqb id k) eqn:E; eauto.
    apply String.eqb_eq in E. subst. rewrite G in G0. inversion G0. eauto.
  - destruct (String.eqb id k) eqn:E; eauto.
    apply String.eqb_eq in E. congruence.
Qed.

(** After the loop a command is ['sent'] if it was before or if the loop
    went over its identifier. *)
Lemma replay_marks_sent now L : forall srv k c,
  getCommandById k (storage srv) = Some c ->
  cmd_status c = cmd_sent \/ In k (map cmd_id L) ->
  exists c', getCommandById k (storage (fold_left (resendCommand now) L srv))
             = Some c'
          /\ cmd_status c' = cmd_sent.
Proof.
  induction L as [|a L IH]; intros srv k c G H; simpl.
  - destruct H as [H|[]]. eauto.
  - destruct (markSent_status (cmd_id a) now (storage srv) k c G)
      as [c' [G' [_ Hs]]].
    apply (IH (resendCommand now srv a) k c').
    + unfold getCommandById in *. now rewrite resendCommand_commands.
    + rewrite Hs. destruct (String.eqb (cmd_id a) k) eqn:E; auto.
      apply String.eqb_neq in E. simpl in H. tauto.
Qed.

Lemma filter_pending_nonTerminal l :
  filter isPending (filter nonTerminal l) = filter isPending l.
Proof.
  induction l as [|c l IH]; simpl; auto.
  assert (H : isPending c = true -> nonTerminal c = true).
  { unfold isPending, nonTerminal. destruct (cmd_status c); auto. }
  destruct (nonTerminal c) eqn:N; simpl; rewrite IH; auto.
  destruct (isPending c); auto. discriminate H; auto.
Qed.

Lemma StronglySorted_filter_map {A : Type} (key : A -> Z) (f : A -> bool) l :
  StronglySorted Z.le (map key l) ->
  StronglySorted Z.le (map key (filter f l)).
Proof.
  induction l as [|x l IH]; simpl; intros H; auto.
  inversion H as [|? ? Hs Hall]; subst.
  destruct (f x); simpl; auto. constructor; auto.
  rewrite Forall_forall in *. intros y Hy. apply Hall.
  apply in_map_iff in Hy. destruct Hy as [z [E Hz]]. subst y.
  apply in_map. apply filter_In in Hz. tauto.
Qed.

Lemma sends_single_socket ws l :
  ws_open ws = true ->
  flat_map (sendsOf [ws] true) l =
  map (fun c => (ws_id ws, wireOf true c)) l.
Proof.
  intros Hopen. induction l as [|c l IH]; simpl; auto.
  rewrite IH. unfold sendsOf. simpl. now rewrite Hopen.
Qed.

(** The two invariants used for the replay are maintained by the store:
    marking and sweeping keep the order and the creation times, and
    enqueueing under a new identifier, at a time not before the creation
    times present, appends in order. *)
Lemma created_set_same (m : JsMap.t Mt5Command) k c v :
  JsMap.get k m = Some c -> cmd_createdAt v = cmd_createdAt c ->
  map cmd_createdAt (JsMap.values (JsMap.set k v m)) =
  map cmd_createdAt (JsMap.values m).
Proof.
  unfold JsMap.values.
  induction m as [|[k' v'] r IH]; simpl; [discriminate|].
  destruct (String.eqb k k'); simpl; intros G E.
  - inversion G; subst. now rewrite E.
  - f_equal. now apply IH.
Qed.

Lemma createdAscending_step st op :
  wf_commands (mt5Commands st) ->
  createdAscending (mt5Commands st) ->
  match op with
  | OpEnqueue _ id now =>
      getCommandById id st = None /\
      Forall (fun c => cmd_createdAt c <= now) (JsMap.values (mt5Commands st))
  | _ => True
  end ->
  createdAscending (mt5Commands (apply_op st op)).
Proof.
  intros Hwf Hs Hop. unfold createdAscending in *.
  destruct op as [ins id now|id now|id now|id msg|now].
  - destruct Hop as [Hfresh Hle]. simpl.
    rewrite JsMapFacts.keys_set_absent by exact Hfresh.
    unfold JsMap.values in *. rewrite !map_app. simpl.
    revert Hs Hle. generalize (map snd (mt5Commands st)).
    induction l as [|x l IH]; simpl; intros Hs Hle.
    + constructor; constructor.
    + inversion Hs; subst. inversion Hle; subst. constructor; auto.
      rewrite Forall_app. split; auto.
  - simpl. unfold markCommandAsSent.
    destruct (JsMap.get id (mt5Commands st)) eqn:G; auto. simpl.
    now rewrite (created_set_same _ _ _ _ G).
  - simpl. unfold markCommandAsAcknowledged.
    destruct (JsMap.get id (mt5Commands st)) eqn:G; auto. simpl.
    now rewrite (created_set_same _ _ _ _ G).
  - simpl. unfold markCommandAsFailed.
    destruct (JsMap.get id (mt5Commands st)) eqn:G; auto. simpl.
    now rewrite (created_set_same _ _ _ _ G).
  - change (StronglySorted Z.le
              (map cmd_createdAt
                 (JsMap.values (mt5Commands (retryTimedOutCommands now st))))).
    rewrite retry_pointwise by auto. rewrite values_map_values, map_map.
    erewrite map_ext; [exact Hs|].
    intros c. unfold sweep1. destruct (timedOut now c); auto.
Qed.

(** ** Execution reports *)

Lemma updateSignalStatus_other id s e st :
  trades (updateSignalStatus id s e st) = trades st
  /\ mt5ExecutionResults (updateSignalStatus id s e st) = mt5ExecutionResults st.
Proof.
  unfold updateSignalStatus. destruct (JsMap.get id (signals st)); auto.
Qed.

Lemma markAcknowledged_effect id now st c :
  getCommandById id st = Some c ->
  markCommandAsAcknowledged id now st =
  with_commands st
    (JsMap.set id
       (set_command_status c cmd_acknowledged (cmd_sentAt c) (Some now)
          (cmd_errorMessage c))
       (mt5Commands st)).
Proof.
  unfold getCommandById, markCommandAsAcknowledged. now intros ->.
Qed.

(** The handler on a report that names a stored command: what it returns,
    spelled out. *)
Lemma onReport_found report resultId tradeId now st k c :
  rep_commandId report = Some k -> k <> ""%string ->
  rep_type report <> Some "HEARTBEAT"%string ->
  getCommandById k st = Some c ->
  let st0 := updateMt5Heartbeat now st in
  let st1 :=
    fst (createExecutionResult (rep_success report) (Some k)
           (numberField (rep_orderId report))
           (numberField (rep_positionId report))
           (numberField (rep_error report)) resultId now st0) in
  let st2 :=
    with_commands st1
      (JsMap.set k
         (set_command_status c cmd_acknowledged (cmd_sentAt c) (Some now)
            (cmd_errorMessage c))
         (mt5Commands st1)) in
  onReport report resultId tradeId now st =
  (if truthy (cmd_signalId c) then
     let signalId := orElse (cmd_signalId c) ""%string in
     if (rep_success report && truthy (rep_orderId report))%bool then
       let st' := updateSignalStatus signalId sig_executed (Some None) st2 in
       match getSignalById signalId st', cmd_action c with
       | Some signal, TRADE =>
           fst (createTrade (Some signalId) (sig_symbol signal)
                  (sig_type signal) (Some (strOr (sig_price signal) "0"))
                  (strOr (cmd_volume c) "0")
                  (numberField (rep_orderId report))
                  (if truthy (rep_positionId report)
                   then rep_positionId report
                   else numberField (rep_orderId report))
                  (cmd_stopLoss c) (cmd_takeProfit c)
                  (Some trade_open) tradeId now st')
       | _, _ => st'
       end
     else
       updateSignalStatus signalId sig_failed
         (Some (Some (strOr (rep_error report) executionFailedMessage))) st2
   else st2,
   Ack).
Proof.
  intros Hid Hne Hty G st0 st1 st2. unfold onReport.
  assert (Hb : match rep_type report with
               | Some t => String.eqb t "HEARTBEAT"
               | None => false
               end = false).
  { destruct (rep_type report) as [t|]; auto.
    destruct (String.eqb t "HEARTBEAT") eqn:E; auto.
    apply String.eqb_eq in E. subst. congruence. }
  rewrite Hb, Hid. simpl truthy.
  assert (Hk : String.eqb k "" = false) by now apply String.eqb_neq.
  rewrite Hk. simpl negb. cbv iota. simpl orElse.
  assert (G0 : getCommandById k (updateMt5Heartbeat now st) = Some c).
  { unfold getCommandById, updateMt5Heartbeat in *.
    destruct (settings st); simpl; auto. }
  rewrite G0.
  assert (G1 : getCommandById k st1 = Some c) by exact G0.
  subst st2 st1 st0. unfold createExecutionResult in *. cbn [fst] in *.
  rewrite (markAcknowledged_effect k now _ c G1).
  reflexivity.
Qed.

Lemma updateMt5Heartbeat_frame now st :
  signals (updateMt5Heartbeat now st) = signals st
  /\ trades (updateMt5Heartbeat now st) = trades st
  /\ mt5Commands (updateMt5Heartbeat now st) = mt5Commands st
  /\ mt5ExecutionResults (updateMt5Heartbeat now st) = mt5ExecutionResults st.
Proof. unfold updateMt5Heartbeat. destruct (settings st); simpl; auto. Qed.

Lemma getSignalById_update id s e st :
  getSignalById id (updateSignalStatus id s e st) =
  option_map (fun sg => set_signal_status sg s e) (getSignalById id st).
Proof.
  unfold getSignalById, updateSignalStatus.
  destruct (JsMap.get id (signals st)) eqn:G; simpl.
  - apply JsMapFacts.get_set_same.
  - now rewrite G.
Qed.

Lemma truthy_some o : truthy o = true -> exists s, o = Some s /\ orElse o ""%string = s.
Proof. destruct o; simpl; [eauto|discriminate]. Qed.

(** The command and result stores after a report on a stored command,
    whichever branch the handler takes. *)
Lemma onReport_queue report resultId tradeId now st k c :
  rep_commandId report = Some k -> k <> ""%string ->
  rep_type report <> Some "HEARTBEAT"%string ->
  getCommandById k st = Some c ->
  let st' := fst (onReport report resultId tradeId now st) in
  mt5Commands st' =
    JsMap.set k
      (set_command_status c cmd_acknowledged (cmd_sentAt c) (Some now)
         (cmd_errorMessage c))
      (mt5Commands st)
  /\ mt5ExecutionResults st' =
     JsMap.set resultId
       {| res_id := resultId;
          res_commandId := Some k;
          res_success := rep_success report;
          res_orderId := numberField (rep_orderId report);
          res_positionId := numberField (rep_positionId report);
          res_executedAt := now;
          res_errorMessage := numberField (rep_error report) |}
       (mt5ExecutionResults st).
Proof.
  intros Hid Hne Hty G st'. subst st'.
  rewrite (onReport_found report resultId tradeId now st k c Hid Hne Hty G).
  destruct (updateMt5Heartbeat_frame now st) as [Fs [Ft [Fc Fr]]].
  cbn [fst].
  destruct (truthy (cmd_signalId c));
    [destruct (rep_success report && truthy (rep_orderId report))%bool;
     [destruct (getSignalById _ _); [destruct (cmd_action c)|]|]|];
    unfold createTrade; cbn [fst];
    simpl mt5Commands; simpl mt5ExecutionResults;
    rewrite ?updateSignalStatus_commands,
      ?(proj2 (updateSignalStatus_other _ _ _ _));
    simpl mt5Commands; simpl mt5ExecutionResults;
    rewrite ?Fc, ?Fr; auto.
Qed.

Lemma onReport_trades report resultId tradeId now st k c :
  rep_commandId report = Some k -> k <> ""%string ->
  rep_type report <> Some "HEARTBEAT"%string ->
  getCommandById k st = Some c ->
  let st' := fst (onReport report resultId tradeId now st) in
  (opensTrade report c st = true ->
     exists trade, trades st' = JsMap.set tradeId trade (trades st)
                /\ trade_status trade = trade_open
                /\ trade_signalId trade = cmd_signalId c)
  /\ (opensTrade report c st = false -> trades st' = trades st).
Proof.
  intros Hid Hne Hty G st'. subst st'.
  rewrite (onReport_found report resultId tradeId now st k c Hid Hne Hty G).
  destruct (updateMt5Heartbeat_frame now st) as [Fs [Ft [Fc Fr]]].
  cbn [fst].
  destruct (truthy (cmd_signalId c)) eqn:Tsig.
  2:{ unfold opensTrade. rewrite Tsig. simpl.
      split; [discriminate|auto]. }
  destruct (truthy_some _ Tsig) as [sid [Esid Eor]].
  cbv zeta. rewrite Eor.
  destruct (rep_success report && truthy (rep_orderId report))%bool eqn:Ok.
  2:{ unfold opensTrade. rewrite Tsig. cbn [andb]. rewrite Ok. cbn [andb].
      rewrite (proj1 (updateSignalStatus_other _ _ _ _)). simpl.
      split; [discriminate|auto]. }
  rewrite getSignalById_update.
  match goal with
  | |- context [option_map _ (getSignalById sid ?s)] =>
      replace (getSignalById sid s) with (getSignalById sid st)
        by (unfold getSignalById; simpl; now rewrite Fs)
  end.
  unfold opensTrade. rewrite Tsig, Eor. cbn [andb]. rewrite Ok. cbn [andb].
  destruct (getSignalById sid st) as [sg|] eqn:Gs; simpl option_map; cbv iota.
  2:{ rewrite andb_false_r, (proj1 (updateSignalStatus_other _ _ _ _)). simpl.
      split; [discriminate|auto]. }
  rewrite andb_true_r.
  destruct (cmd_action c) eqn:Ea; simpl Action_eqb;
    unfold createTrade; cbn [fst]; simpl trades;
    rewrite ?(proj1 (updateSignalStatus_other _ _ _ _)); simpl trades;
    rewrite Ft.
  - split; [|discriminate]. intros _. eexists. split; [reflexivity|].
    simpl. auto.
  - split; [discriminate|auto].
  - split; [discriminate|auto].
Qed.

(** C2 (as the code has it).  A report for a command that is already
    ['acknowledged'] is processed like the first one: the command stays
    ['acknowledged'] but its acknowledged-timestamp becomes the time of this
    report, a further execution result is recorded, and when the report is a
    success with an order identifier for a TRADE command whose signal exists
    a further open trade of that signal is stored; otherwise the trades are
    untouched. *)
Theorem C2_report_for_acknowledged_command
  report resultId tradeId now st k c :
  rep_commandId report = Some k -> k <> ""%string ->
  rep_type report <> Some "HEARTBEAT"%string ->
  getCommandById k st = Some c ->
  cmd_status c = cmd_acknowledged ->
  let st' := fst (onReport report resultId tradeId now st) in
  (exists c', getCommandById k st' = Some c'
           /\ cmd_status c' = cmd_acknowledged
           /\ cmd_acknowledgedAt c' = Some now)
  /\ (exists r, JsMap.get resultId (mt5ExecutionResults st') = Some r
             /\ res_commandId r = Some k /\ res_executedAt r = now)
  /\ (opensTrade report c st = true ->
        exists trade, trades st' = JsMap.set tradeId trade (trades st)
                   /\ trade_status trade = trade_open
                   /\ trade_signalId trade = cmd_signalId c)
  /\ (opensTrade report c st = false -> trades st' = trades st).
Proof.
  intros Hid Hne Hty G Hs st'.
  destruct (onReport_queue report resultId tradeId now st k c Hid Hne Hty G)
    as [Hc Hr].
  fold st' in Hc, Hr.
  split; [|split].
  - unfold getCommandById. rewrite Hc, JsMapFacts.get_set_same.
    eexists. split; [reflexivity|]. simpl. auto.
  - rewrite Hr, JsMapFacts.get_set_same.
    eexists. split; [reflexivity|]. simpl. auto.
  - exact (onReport_trades report resultId tradeId now st k c Hid Hne Hty G).
Qed.

Lemma C2_report_for_acknowledged_command_witness :
  exists c', getCommandById "c1"
               (fst (onReport successReport "r2" "t2" 200 acknowledgedStore))
             = Some c'
          /\ cmd_status c' = cmd_acknowledged
          /\ cmd_acknowledgedAt c' = Some 200.
Proof.
  refine (proj1 (C2_report_for_acknowledged_command successReport "r2" "t2"
                   200 acknowledgedStore "c1" acknowledgedCommand
                   _ _ _ _ _)).
  - reflexivity.
  - discriminate.
  - discriminate.
  - reflexivity.
  - reflexivity.
Defined.

(** C2, the claim as stated, fails: after the first success report the
    command is acknowledged at time 100 with one open trade; handling the
    same report again at time 200 moves the acknowledged-timestamp to 200
    and stores a second open trade for the same signal. *)
Lemma C2_replayed_report_not_idempotent :
  let st2 := fst (onReport successReport "r2" "t2" 200 acknowledgedStore) in
  option_map cmd_status (getCommandById "c1" acknowledgedStore)
    = Some cmd_acknowledged
  /\ option_map cmd_acknowledgedAt (getCommandById "c1" acknowledgedStore)
     = Some (Some 100)
  /\ option_map cmd_acknowledgedAt (getCommandById "c1" st2)
     = Some (Some 200)
  /\ map trade_id (openTradesFor "s1" acknowledgedStore) = ["t1"%string]
  /\ map trade_id (openTradesFor "s1" st2) = ["t1"%string; "t2"%string].
Proof. repeat split; reflexivity. Qed.

Lemma onReport_signals_failed report resultId tradeId now st k c sid :
  rep_commandId report = Some k -> k <> ""%string ->
  rep_type report <> Some "HEARTBEAT"%string ->
  getCommandById k st = Some c ->
  rep_success report = false ->
  cmd_signalId c = Some sid -> sid <> ""%string ->
  let st' := fst (onReport report resultId tradeId now st) in
  getSignalById sid st' =
  option_map
    (fun sg => set_signal_status sg sig_failed
                 (Some (Some (strOr (rep_error report)
                                executionFailedMessage))))
    (getSignalById sid st).
Proof.
  intros Hid Hne Hty G Hf Hsid Hsne st'. subst st'.
  rewrite (onReport_found report resultId tradeId now st k c Hid Hne Hty G).
  destruct (updateMt5Heartbeat_frame now st) as [Fs _].
  cbn [fst]. rewrite Hsid, Hf. simpl.
  apply String.eqb_neq in Hsne. rewrite Hsne. simpl.
  rewrite getSignalById_update. f_equal.
  unfold getSignalById. simpl. now rewrite Fs.
Qed.

(** C3 (as the code has it).  On a report with [success = false] for a
    stored ['pending'] or ['sent'] command the handler applies
    [markCommandAsAcknowledged]: the command becomes ['acknowledged'] and its
    own error text is left as it was.  The broker's reason is recorded in
    the execution result, and the originating signal, when the command names
    one that exists, becomes ['failed'] with that reason (or the default
    text).  No trade is stored. *)
Theorem C3_failure_report_acknowledges
  report resultId tradeId now st k c :
  rep_commandId report = Some k -> k <> ""%string ->
  rep_type report <> Some "HEARTBEAT"%string ->
  getCommandById k st = Some c ->
  nonTerminal c = true ->
  rep_success report = false ->
  let st' := fst (onReport report resultId tradeId now st) in
  mt5Commands st' = mt5Commands (markCommandAsAcknowledged k now st)
  /\ (exists c', getCommandById k st' = Some c'
              /\ cmd_status c' = cmd_acknowledged
              /\ cmd_errorMessage c' = cmd_errorMessage c)
  /\ (exists r, JsMap.get resultId (mt5ExecutionResults st') = Some r
             /\ res_commandId r = Some k
             /\ res_success r = false
             /\ res_errorMessage r = numberField (rep_error report))
  /\ (forall sid sg,
        cmd_signalId c = Some sid -> sid <> ""%string ->
        getSignalById sid st = Some sg ->
        exists sg', getSignalById sid st' = Some sg'
                 /\ sig_status sg' = sig_failed
                 /\ sig_errorMessage sg' =
                    Some (strOr (rep_error report) executionFailedMessage))
  /\ trades st' = trades st.
Proof.
  intros Hid Hne Hty G Hnt Hf st'.
  destruct (onReport_queue report resultId tradeId now st k c Hid Hne Hty G)
    as [Hc Hr].
  destruct (onReport_trades report resultId tradeId now st k c Hid Hne Hty G)
    as [_ Ht].
  fold st' in Hc, Hr, Ht.
  split; [|split; [|split; [|split]]].
  - rewrite Hc, (markAcknowledged_effect k now st c G). reflexivity.
  - unfold getCommandById. rewrite Hc, JsMapFacts.get_set_same.
    eexists. split; [reflexivity|]. simpl. auto.
  - rewrite Hr, JsMapFacts.get_set_same.
    eexists. split; [reflexivity|]. simpl. auto.
  - intros sid sg Hsid Hsne Gs. unfold st'.
    rewrite (onReport_signals_failed report resultId tradeId now st k c sid
               Hid Hne Hty G Hf Hsid Hsne), Gs.
    simpl. eexists. split; [reflexivity|]. simpl. auto.
  - apply Ht. unfold opensTrade. rewrite Hf.
    now rewrite andb_false_r.
Qed.

Lemma C3_failure_report_acknowledges_witness :
  mt5Commands (fst (onReport failureReport "r1" "t1" 100 tradingStore)) =
  mt5Commands (markCommandAsAcknowledged "c1" 100 tradingStore).
Proof.
  refine (proj1 (C3_failure_report_acknowledges failureReport "r1" "t1" 100
                   tradingStore "c1" sentCommandAt10 _ _ _ _ _ _)).
  - reflexivity.
  - discriminate.
  - discriminate.
  - reflexivity.
  - reflexivity.
  - reflexivity.
Defined.

(** C3, the claim as stated, fails: after a [success = false] report for a
    ['sent'] command the command is ['acknowledged'], not ['failed'], and it
    carries no error text; the signal is ['failed'] with the broker's
    reason. *)
Lemma C3_failure_report_not_failed :
  let st' := fst (onReport failureReport "r1" "t1" 100 tradingStore) in
  option_map cmd_status (getCommandById "c1" tradingStore) = Some cmd_sent
  /\ option_map cmd_status (getCommandById "c1" st') = Some cmd_acknowledged
  /\ option_map cmd_status (getCommandById "c1" st') <> Some cmd_failed
  /\ option_map cmd_errorMessage (getCommandById "c1" st') = Some None
  /\ option_map sig_status (getSignalById "s1" st') = Some sig_failed.
Proof. repeat split; try reflexivity. discriminate. Qed.

(** ** Signal de-duplication *)

Lemma duplicateOf_rule v now s :
  duplicateOf v now s = true <->
  duplicateRule (isig_symbol v) (isig_type v) now s.
Proof.
  unfold duplicateOf, duplicateRule, dedupWindow.
  rewrite !andb_true_iff, String.eqb_eq, TradeType_eqb_eq, Z.leb_le,
    negb_true_iff.
  split.
  - intros [[[H1 H2] H3] H4]. repeat split; auto; [lia|].
    intros E. rewrite E in H4. discriminate.
  - intros [H1 [H2 [H3 H4]]]. repeat split; auto; [lia|].
    destruct (sig_status s); simpl; auto. congruence.
Qed.

Lemma isDuplicate_rule v now recent :
  isDuplicate v now recent = true <->
  exists s1, In s1 recent
          /\ duplicateRule (isig_symbol v) (isig_type v) now s1.
Proof.
  unfold isDuplicate. rewrite existsb_exists.
  split; intros [s [Hin H]]; exists s; split; auto;
    now apply duplicateOf_rule.
Qed.

(** C7 (as the code has it).  The webhook answers "duplicate" exactly when
    one of the 100 most recent stored signals has the resolved symbol and the
    direction of the new signal, a timestamp at most 60000 ms before the
    arrival and a status other than ['failed']; the answer leaves the whole
    process state as it was, so neither a signal nor a command is created. *)
Theorem C7_duplicate_classification body signalId commandId now srv type :
  body_symbol body <> "UNKNOWN"%string ->
  normalizeType (body_signalType body) = Some type ->
  let symbol := mapSymbol (body_symbol body) (storage srv) in
  let duplicate :=
    exists s1, In s1 (getSignals (Int 100) (storage srv))
            /\ duplicateRule symbol type now s1 in
  (snd (webhook body signalId commandId now srv) = DuplicateIgnored
   <-> duplicate)
  /\ (duplicate -> webhook body signalId commandId now srv
                   = (srv, DuplicateIgnored)).
Proof.
  intros Hsym Hty symbol duplicate.
  apply String.eqb_neq in Hsym.
  unfold webhook. rewrite Hsym, Hty.
  match goal with
  | |- context [isDuplicate ?v now ?r] =>
      pose proof (isDuplicate_rule v now r) as Hd;
      destruct (isDuplicate v now r) eqn:D
  end; simpl in Hd; fold symbol in Hd; fold duplicate in Hd.
  - split; [|reflexivity]. simpl. split; auto. intros _. now apply Hd.
  - assert (Hn : ~ duplicate).
    { intros H. apply Hd in H. discriminate. }
    split; [|contradiction].
    split; [|contradiction].
    unfold createSignal, getSettings, enqueueIfAbsent, sendCommandToMT5.
    cbn [settings with_signals sig_id].
    repeat match goal with
           | |- context [match ?x with _ => _ end] =>
               match x with
               | context [match _ with _ => _ end] => fail 1
               | _ => destruct x eqn:?
               end
           end; simpl; try discriminate.
Qed.

Lemma C7_duplicate_classification_witness :
  webhook eurusdBody "s1" "c1" 100 afterFirstAlert
  = (afterFirstAlert, DuplicateIgnored).
Proof.
  refine (proj2 (C7_duplicate_classification eurusdBody "s1" "c1" 100
                   afterFirstAlert BUY _ _) _).
  - discriminate.
  - reflexivity.
  - eexists. split; [left; reflexivity|].
    repeat split; simpl; try lia. discriminate.
Defined.

(** C7, the claim as stated, fails for an earlier signal that is no longer
    among the 100 most recent ones: the BUY EURUSD signal of time 0 is
    still ['pending'] and 200 ms old, yet after 100 other signals a second
    BUY EURUSD alert is not classified a duplicate and is queued. *)
Lemma C7_earlier_signal_outside_window :
  (exists s1, JsMap.get "s0" (signals (storage floodedServer)) = Some s1
           /\ duplicateRule "EURUSD" BUY 200 s1)
  /\ List.length (signals (storage floodedServer)) = 101%nat
  /\ snd (webhook eurusdBody "s101" "c101" 200 floodedServer) = Queued "s101"
  /\ snd (webhook eurusdBody "s101" "c101" 200 floodedServer)
     <> DuplicateIgnored.
Proof.
  assert (E : snd (webhook eurusdBody "s101" "c101" 200 floodedServer)
              = Queued "s101") by (vm_compute; reflexivity).
  split; [|split; [|split]].
  - eexists. split; [vm_compute; reflexivity|].
    repeat split; simpl; try lia. discriminate.
  - vm_compute. reflexivity.
  - exact E.
  - rewrite E. discriminate.
Qed.



(** ** Signals that arrive while the agent is away *)






Lemma resendCommand_settings now srv c :
  settings (storage (resendCommand now srv c)) = settings (storage srv).
Proof.
  unfold resendCommand. cbn [storage with_storage fst sendCommandToMT5].
  assert (H : forall st, settings (markCommandAsSent (cmd_id c) now st)
                         = settings st).
  { intros st. unfold markCommandAsSent.
    destruct (JsMap.get (cmd_id c) (mt5Commands st)); auto. }
  assert (H' : forall id s e st, settings (updateSignalStatus id s e st)
                                 = settings st).
  { intros id s e st. unfold updateSignalStatus.
    destruct (JsMap.get id (signals st)); auto. }
  destruct (cmd_signalId c) as [sid|]; [destruct (truthy (Some sid))|];
    simpl; rewrite ?H', H; reflexivity.
Qed.

Lemma replay_settings now L : forall srv,
  settings (storage (fold_left (resendCommand now) L srv))
  = settings (storage srv).
Proof.
  induction L as [|c L IH]; intros srv; simpl; auto.
  now rewrite IH, resendCommand_settings.
Qed.


(** ** The retried signals *)

Lemma sort_insert_In {A : Type} (before : A -> A -> bool) x y l :
  In y (sort_insert before x l) <-> y = x \/ In y l.
Proof.
  induction l as [|z l IH]; simpl.
  - intuition.
  - destruct (before z x); simpl; rewrite ?IH; intuition.
Qed.

Lemma js_sort_In {A : Type} (before : A -> A -> bool) y l :
  In y (js_sort before l) <-> In y l.
Proof.
  induction l as [|x l IH]; simpl; [tauto|].
  rewrite sort_insert_In, IH. intuition.
Qed.

Lemma sort_insert_length {A : Type} (before : A -> A -> bool) x l :
  List.length (sort_insert before x l) = S (List.length l).
Proof.
  induction l as [|z l IH]; simpl; auto.
  destruct (before z x); simpl; auto.
Qed.

Lemma js_sort_length {A : Type} (before : A -> A -> bool) l :
  List.length (js_sort before l) = List.length l.
Proof.
  induction l as [|x l IH]; simpl; auto.
  now rewrite sort_insert_length, IH.
Qed.












(* ================================================================== *)
(** * Properties of the execution agent                                *)
(* ================================================================== *)

Local Open Scope Q_scope.

Section AgentFacts.

Variable inp : Inputs.
Variable DoubleToString : Q -> Z -> string.
Variable StringToDouble : string -> Q.
Variable IntegerToString : Z -> string.
Variable OrderSend : Terminal -> MqlTradeRequest -> Terminal * OrderReply.

Lemma orderSend_requests request a :
  requests (fst (orderSend OrderSend request a)) = requests a ++ [request].
Proof.
  unfold orderSend. destruct (OrderSend (terminal a) request). reflexivity.
Qed.

Lemma closeOpposite_requests symbol tradeType a i :
  exists sent,
    requests (closeOpposite OrderSend symbol tradeType a i) = requests a ++ sent
    /\ Forall closesTicket sent.
Proof.
  unfold closeOpposite.
  destruct (0 <? PositionGetTicket i (terminal a))%Z eqn:Hpos;
    [|exists []; rewrite app_nil_r; auto].
  destruct (PositionSelectByTicket _ _) as [p|] eqn:Hsel;
    [|exists []; rewrite app_nil_r; auto].
  destruct (String.eqb (pos_symbol p) symbol);
    [|exists []; rewrite app_nil_r; auto].
  match goal with
  | |- context [if ?b then _ else _] => destruct b
  end; [|exists []; rewrite app_nil_r; auto].
  eexists. split; [apply orderSend_requests|].
  constructor; [|constructor].
  unfold closesTicket, closeRequest. simpl. repeat split.
  apply find_some in Hsel. destruct Hsel as [_ E].
  apply Z.eqb_eq in E. apply Z.ltb_lt in Hpos. lia.
Qed.

Lemma CloseOppositePositions_requests symbol tradeType a :
  exists sent,
    requests (CloseOppositePositions OrderSend symbol tradeType a)
      = requests a ++ sent
    /\ Forall closesTicket sent.
Proof.
  unfold CloseOppositePositions.
  generalize (rev (seq 0 (PositionsTotal (terminal a)))). intros l.
  revert a. induction l as [|i l IH]; intros a; simpl.
  - exists []. rewrite app_nil_r. auto.
  - destruct (closeOpposite_requests symbol tradeType a i) as [s1 [E1 F1]].
    destruct (IH (closeOpposite OrderSend symbol tradeType a i))
      as [s2 [E2 F2]].
    exists (s1 ++ s2). rewrite E2, E1, app_assoc. split; auto.
    apply Forall_app. auto.
Qed.

(** C10.  Whatever the command, the inputs and the broker: every request
    that [ExecuteTrade] gives to [OrderSend] has [tp = 0].  The requests are
    the closes of the hedging loop followed by at most one opening request;
    the opening request carries the intended first target only in its
    comment, ["TradingView|TP1:<target>"] (no marker without target). *)
Theorem C10_no_native_take_profit commandId cmd a :
  exists closes opening,
    requests (agentOf (ExecuteTrade inp DoubleToString IntegerToString
                         OrderSend commandId cmd a))
      = requests a ++ closes ++ opening
    /\ Forall closesTicket closes
    /\ opensWithComment DoubleToString cmd opening
    /\ Forall (fun r => req_tp r = 0) (closes ++ opening).
Proof.
  assert (Hfin : forall closes opening a',
             requests a' = requests a ++ closes ++ opening ->
             Forall closesTicket closes ->
             opensWithComment DoubleToString cmd opening ->
             exists closes opening,
               requests a' = requests a ++ closes ++ opening
               /\ Forall closesTicket closes
               /\ opensWithComment DoubleToString cmd opening
               /\ Forall (fun r => req_tp r = 0) (closes ++ opening)).
  { intros closes opening a' E Fc Ho. exists closes, opening.
    repeat split; auto. apply Forall_app. split.
    - eapply Forall_impl; [|exact Fc]. intros r [H _]. exact H.
    - destruct Ho as [->|[v [cp [sl [tp [dv [fl [info [-> _]]]]]]]]];
        constructor; auto. }
  unfold ExecuteTrade.
  destruct (String.eqb (tj_symbol cmd) "" || String.eqb (tj_type cmd) "")%bool.
  { apply (Hfin [] []); simpl; auto; [now rewrite app_nil_r|now left]. }
  destruct (negb (EnsureSymbolReady _)).
  { apply (Hfin [] []); simpl; auto; [now rewrite app_nil_r|now left]. }
  set (a1 := if Hedging inp
             then CloseOppositePositions OrderSend (tj_symbol cmd)
                    (tj_type cmd) a
             else a).
  assert (H1 : exists closes, requests a1 = requests a ++ closes
                           /\ Forall closesTicket closes).
  { unfold a1. destruct (Hedging inp).
    - apply CloseOppositePositions_requests.
    - exists []. rewrite app_nil_r. auto. }
  destruct H1 as [closes [E1 F1]].
  assert (Hstop : exists closes opening,
             requests a1 = requests a ++ closes ++ opening
             /\ Forall closesTicket closes
             /\ opensWithComment DoubleToString cmd opening
             /\ Forall (fun r => req_tp r = 0) (closes ++ opening)).
  { apply (Hfin closes []); auto; [now rewrite app_nil_r|now left]. }
  destruct (Pyramiding inp <=? _)%Z; [exact Hstop|].
  destruct (normalizeIfSet _ (tj_stopLoss cmd)) as [stopLoss|];
    [|exact Hstop].
  destruct (normalizeIfSet _ (tj_takeProfit cmd)) as [takeProfit|] eqn:Htp;
    [|exact Hstop].
  destruct (lotSize _ _ _ _ _ _) as [volume|]; [|exact Hstop].
  destruct (Qle_bool _ 0); [exact Hstop|].
  destruct (validateLevels _ _ _ _); [exact Hstop|].
  destruct (divide _ _) as [slippagePoints|]; [|exact Hstop].
  match goal with
  | |- context [orderSend OrderSend ?rq a1] =>
      pose proof (orderSend_requests rq a1) as E2;
      destruct (orderSend OrderSend rq a1) as [a2 reply];
      assert (Hopen : exists closes opening,
                 requests a2 = requests a ++ closes ++ opening
                 /\ Forall closesTicket closes
                 /\ opensWithComment DoubleToString cmd opening
                 /\ Forall (fun r => req_tp r = 0) (closes ++ opening))
        by (apply (Hfin closes [rq]); auto;
            [simpl in E2; rewrite E2, E1, app_assoc; reflexivity
            |right; do 7 eexists;
             split; [reflexivity|split; [exact Htp|reflexivity]]])
  end.
  destruct (negb (reply_ok reply)); [exact Hopen|].
  destruct (negb (Z.eqb _ _)); exact Hopen.
Qed.

(** ** Comparisons *)

Lemma Qlt_bool_false a b : Qlt_bool a b = false -> b <= a.
Proof.
  unfold Qlt_bool. intros H. apply negb_false_iff in H.
  now apply Qle_bool_iff.
Qed.

Lemma Qlt_bool_true a b : Qlt_bool a b = true -> a < b.
Proof.
  unfold Qlt_bool. intros H. apply negb_true_iff in H.
  apply Qnot_le_lt. intros Hle. apply Qle_bool_iff in Hle. congruence.
Qed.

(** ** The staged exit *)

(** [MathRound] returns a whole number nearest to its argument. *)
Lemma MathRound_nearest x :
  exists n : Z, MathRound x = inject_Z n /\ nearestInteger n x.
Proof.
  unfold MathRound, nearestInteger. destruct (Qle_bool 0 x).
  - exists (Qfloor (x + (1 # 2))). split; [reflexivity|].
    pose proof (Qfloor_le (x + (1 # 2))) as H1.
    pose proof (Qlt_floor (x + (1 # 2))) as H2.
    rewrite inject_Z_plus in H2. change (inject_Z 1) with 1 in H2.
    set (n := inject_Z (Qfloor (x + (1 # 2)))) in *. lra.
  - exists (- Qfloor (- x + (1 # 2)))%Z. split; [reflexivity|].
    pose proof (Qfloor_le (- x + (1 # 2))) as H1.
    pose proof (Qlt_floor (- x + (1 # 2))) as H2.
    rewrite inject_Z_plus in H2. change (inject_Z 1) with 1 in H2.
    rewrite inject_Z_opp.
    set (n := inject_Z (Qfloor (- x + (1 # 2)))) in *. lra.
Qed.

(** What [NormalizeVolume] and [NormalizePrice] return. *)
Lemma NormalizeVolume_rounded info volume :
  roundedToStep info volume (NormalizeVolume info volume).
Proof.
  unfold roundedToStep, NormalizeVolume. cbv zeta. fold (stepOf info).
  destruct (MathRound_nearest (ddiv volume (stepOf info))) as (n & -> & Hn).
  destruct (Qlt_bool (dmul (inject_Z n) (stepOf info)) (sym_volumeMin info)).
  - destruct (Qlt_bool _ _); auto.
  - destruct (Qlt_bool _ _); eauto.
Qed.

Lemma NormalizeVolume_clamped info volume :
  sym_volumeMin info <= sym_volumeMax info ->
  sym_volumeMin info <= NormalizeVolume info volume
  /\ NormalizeVolume info volume <= sym_volumeMax info.
Proof.
  intros Hmm. unfold NormalizeVolume. cbv zeta.
  set (v := dmul _ _).
  destruct (Qlt_bool v (sym_volumeMin info)) eqn:E1.
  - destruct (Qlt_bool (sym_volumeMax info) (sym_volumeMin info)) eqn:E2.
    + apply Qlt_bool_true in E2. split; [exact Hmm|apply Qle_refl].
    + split; [apply Qle_refl|exact Hmm].
  - apply Qlt_bool_false in E1.
    destruct (Qlt_bool (sym_volumeMax info) v) eqn:E2.
    + split; [exact Hmm|apply Qle_refl].
    + apply Qlt_bool_false in E2. split; assumption.
Qed.







End AgentFacts.



(** The whole pass on the sample position of one lot: the close of 0.75
    lots, then the single modification with stop 1.10000 and target
    1.11000; the position is tracked in both arrays. *)
Lemma staged_exit_example :
  let a' := agentOf (ManagePartialExits defaultInputs parseDouble fillRequest
                       (agentWith (longPosition 1))) in
  map (fun r => (req_action r, req_volume r, req_sl r, req_tp r)) (requests a')
  = [(TRADE_ACTION_DEAL, 3 # 4, 0, 0);
     (TRADE_ACTION_SLTP, 0, roundToDouble (11 # 10),
      roundToDouble (111 # 100))]
  /\ partialExitedPositions a' = [7001%Z]
  /\ breakEvenPositions a' = [7001%Z].
Proof. repeat split; vm_compute; reflexivity. Qed.

(** With the fixed trigger of 50 pips the same position is not staged at
    the bid 1.10500: in doubles [(1.105 - 1.1) / 0.0001] is just below 50.
    One point higher it is. *)
Lemma fixed_trigger_example :
  Qlt_bool (ddiv (dsub (roundToDouble (1105 # 1000)) (roundToDouble (11 # 10)))
              (roundToDouble (1 # 10000))) 50 = true
  /\ ManagePartialExits fixedExitInputs parseDouble fillRequest
       (agentWith (longPosition 1))
     = Finished (agentWith (longPosition 1))
  /\ map req_volume
       (requests
          (agentOf
             (ManagePartialExits fixedExitInputs parseDouble fillRequest
                (mkAgent
                   (mkTerminal [longPosition 1]
                      (fun _ => fxInfo (roundToDouble (110501 # 100000))
                                  (roundToDouble (110511 # 100000))) 10000)
                   0 [] [] [] []))))
     = [3 # 4; 0].
Proof. repeat split; vm_compute; reflexivity. Qed.

(** [ExecuteTrade] on a BUY with stop 1.10000 and target 1.11000: the one
    request opens the position with [tp = 0], the stop in place and the
    target in the comment, from where [GetTP1FromComment] reads it back. *)
Lemma execute_trade_example :
  let a' := agentOf (ExecuteTrade defaultInputs formatDecimal formatInteger
                       fillRequest "c1" buyCommand idleAgent) in
  map (fun r => (req_action r, req_position r, req_sl r, req_tp r,
                 req_comment r))
      (requests a')
  = [(TRADE_ACTION_DEAL, 0%Z, roundToDouble (11 # 10), 0,
      "TradingView|TP1:1.11000"%string)]
  /\ map (fun p => GetTP1FromComment parseDouble (pos_comment p))
       (positions (terminal a'))
     = [roundToDouble (111 # 100)]
  /\ map er_success (reports a') = [true].
Proof. repeat split; vm_compute; reflexivity. Qed.

Local Close Scope Q_scope.



(* ================================================================== *)
(** * Further properties of the store, the routes and the agent        *)
(* ================================================================== *)

(** ** Sorting *)

Lemma sort_insert_sorted_desc {A : Type} (key : A -> Z) before x l :
  (forall a b, before a b = (key b <? key a)) ->
  StronglySorted (fun a b => key b <= key a) l ->
  StronglySorted (fun a b => key b <= key a) (sort_insert before x l).
Proof.
  intros Hb. induction l as [|y r IH]; simpl; intros H.
  - constructor; constructor.
  - inversion H as [|? ? Hs Hall]; subst.
    rewrite Hb. destruct (key x <? key y) eqn:E.
    + constructor; auto. rewrite Forall_forall in *. intros z Hz.
      apply sort_insert_In in Hz. destruct Hz as [->|Hz]; auto.
      apply Z.ltb_lt in E. lia.
    + apply Z.ltb_ge in E. constructor; [constructor; auto|].
      constructor; auto. rewrite Forall_forall in *. intros z Hz.
      specialize (Hall z Hz). lia.
Qed.

Lemma js_sort_sorted_desc {A : Type} (key : A -> Z) before l :
  (forall a b, before a b = (key b <? key a)) ->
  StronglySorted (fun a b => key b <= key a) (js_sort before l).
Proof.
  intros Hb. induction l as [|x l IH]; simpl; [constructor|].
  now apply sort_insert_sorted_desc.
Qed.

Lemma sort_insert_sorted_asc {A : Type} (key : A -> Z) before x l :
  (forall a b, before a b = (key a <? key b)) ->
  StronglySorted (fun a b => key a <= key b) l ->
  StronglySorted (fun a b => key a <= key b) (sort_insert before x l).
Proof.
  intros Hb. induction l as [|y r IH]; simpl; intros H.
  - constructor; constructor.
  - inversion H as [|? ? Hs Hall]; subst.
    rewrite Hb. destruct (key y <? key x) eqn:E.
    + constructor; auto. rewrite Forall_forall in *. intros z Hz.
      apply sort_insert_In in Hz. destruct Hz as [->|Hz]; auto.
      apply Z.ltb_lt in E. lia.
    + apply Z.ltb_ge in E. constructor; [constructor; auto|].
      constructor; auto. rewrite Forall_forall in *. intros z Hz.
      specialize (Hall z Hz). lia.
Qed.

Lemma js_sort_sorted_asc {A : Type} (key : A -> Z) before l :
  (forall a b, before a b = (key a <? key b)) ->
  StronglySorted (fun a b => key a <= key b) (js_sort before l).
Proof.
  intros Hb. induction l as [|x l IH]; simpl; [constructor|].
  now apply sort_insert_sorted_asc.
Qed.

Lemma In_firstn {A : Type} (x : A) n l : In x (firstn n l) -> In x l.
Proof.
  intros H. rewrite <- (firstn_skipn n l). apply in_or_app. now left.
Qed.

Lemma In_skipn {A : Type} (x : A) n l : In x (skipn n l) -> In x l.
Proof.
  intros H. rewrite <- (firstn_skipn n l). apply in_or_app. now right.
Qed.

Lemma sort_insert_perm {A : Type} (before : A -> A -> bool) x l :
  Permutation (sort_insert before x l) (x :: l).
Proof.
  induction l as [|y r IH]; simpl; auto.
  destruct (before y x); auto.
  rewrite IH. apply perm_swap.
Qed.

Lemma js_sort_perm {A : Type} (before : A -> A -> bool) l :
  Permutation (js_sort before l) l.
Proof.
  induction l as [|x l IH]; simpl; auto.
  rewrite sort_insert_perm. now constructor.
Qed.

(** The first [n] elements of a list sorted downwards are not below any of
    the others. *)
Lemma firstn_sorted_top {A : Type} (key : A -> Z) l : forall n,
  StronglySorted (fun a b => key b <= key a) l ->
  StronglySorted (fun a b => key b <= key a) (firstn n l)
  /\ Forall (fun b => Forall (fun a => key b <= key a) (firstn n l))
            (skipn n l).
Proof.
  induction l as [|x l IH]; intros n H.
  - rewrite firstn_nil, skipn_nil. split; constructor.
  - destruct n as [|n]; simpl.
    + split; [constructor|]. apply Forall_forall. intros; constructor.
    + inversion H as [|? ? Hs Hall]; subst.
      destruct (IH n Hs) as [H1 H2]. split.
      * constructor; auto. rewrite Forall_forall in *. intros z Hz.
        apply Hall. eapply In_firstn; eauto.
      * rewrite Forall_forall in *. intros b Hb. constructor.
        -- apply Hall. eapply In_skipn; eauto.
        -- now apply H2.
Qed.

(** What [firstn limit (js_sort before l)] returns when [before] orders by
    [key], largest first. *)
Lemma newest_first_page {A : Type} (key : A -> Z) before limit (l : list A) :
  (forall a b, before a b = (key b <? key a)) ->
  let r := firstn limit (js_sort before l) in
  List.length r = Nat.min limit (List.length l)
  /\ StronglySorted (fun a b => key b <= key a) r
  /\ exists rest,
       Permutation (r ++ rest) l
       /\ Forall (fun b => Forall (fun a => key b <= key a) r) rest.
Proof.
  intros Hb r. subst r.
  pose proof (js_sort_sorted_desc key before l Hb) as Hs.
  destruct (firstn_sorted_top key (js_sort before l) limit Hs) as [H1 H2].
  split; [|split; auto].
  - now rewrite length_firstn, js_sort_length.
  - exists (skipn limit (js_sort before l)). split; auto.
    rewrite firstn_skipn. apply js_sort_perm.
Qed.

(** ** Reading signals *)

Lemma slice0_firstn {A : Type} (limit : JsInteger) (l : list A) :
  exists k, slice0 limit l = firstn k l
         /\ Nat.min k (List.length l)
            = match limit with
              | NaN => 0%nat
              | Int z => if z <? 0 then (List.length l - Z.to_nat (- z))%nat
                         else Nat.min (Z.to_nat z) (List.length l)
              end.
Proof.
  destruct limit as [|z]; cbn.
  - exists 0%nat. auto.
  - destruct (z <? 0); eexists; split; try reflexivity. lia.
Qed.

(** X1.  [getSignals(limit)] returns a prefix of the stored signals
    ordered newest first, so every stored signal it leaves out is no newer
    than any it returns.  Of [n] signals it returns [min limit n] for a
    limit that is not negative, [n - |limit|] (none when that is negative)
    for a negative limit, which [slice] counts from the end, and none for
    [NaN]; the routes pass what [parseInt] made of the [limit] parameter,
    unchecked, and 50 without parameter.  [getTrades(limit)] does the same
    for the trades, by opening time. *)
Theorem getSignals_newest_page limit st :
  (let r := getSignals limit st in
   let n := List.length (signals st) in
   List.length r = match limit with
                   | NaN => 0%nat
                   | Int z => if z <? 0 then (n - Z.to_nat (- z))%nat
                              else Nat.min (Z.to_nat z) n
                   end
   /\ StronglySorted (fun a b => sig_timestamp b <= sig_timestamp a) r
   /\ exists rest,
        Permutation (r ++ rest) (JsMap.values (signals st))
        /\ Forall (fun b => Forall
                     (fun a => sig_timestamp b <= sig_timestamp a) r) rest)
  /\ (let r := getTrades limit st in
      let n := List.length (trades st) in
      List.length r = match limit with
                      | NaN => 0%nat
                      | Int z => if z <? 0 then (n - Z.to_nat (- z))%nat
                                 else Nat.min (Z.to_nat z) n
                      end
      /\ StronglySorted (fun a b => trade_openTime b <= trade_openTime a) r
      /\ exists rest,
           Permutation (r ++ rest) (JsMap.values (trades st))
           /\ Forall (fun b => Forall
                        (fun a => trade_openTime b <= trade_openTime a) r)
                     rest)
  /\ List.length (getSignals (queryLimit None) st)
     = Nat.min 50 (List.length (signals st))
  /\ List.length (getSignals (queryLimit (Some (Int (-1)))) st)
     = (List.length (signals st) - 1)%nat
  /\ getSignals (queryLimit (Some NaN)) st = [].
Proof.
  assert (S : forall limit,
             let r := getSignals limit st in
             let n := List.length (signals st) in
             List.length r = match limit with
                             | NaN => 0%nat
                             | Int z =>
                                 if z <? 0 then (n - Z.to_nat (- z))%nat
                                 else Nat.min (Z.to_nat z) n
                             end
             /\ StronglySorted (fun a b => sig_timestamp b <= sig_timestamp a) r
             /\ exists rest,
                  Permutation (r ++ rest) (JsMap.values (signals st))
                  /\ Forall (fun b => Forall
                               (fun a => sig_timestamp b <= sig_timestamp a) r)
                            rest).
  { intros l. unfold getSignals. cbv zeta.
    destruct (slice0_firstn l
                (js_sort newer_first (JsMap.values (signals st))))
      as (k & -> & Hk).
    pose proof (newest_first_page sig_timestamp newer_first k
                  (JsMap.values (signals st)) (fun a b => eq_refl)) as H.
    rewrite js_sort_length in Hk.
    unfold JsMap.values in *. rewrite length_map in H, Hk.
    rewrite <- Hk. exact H. }
  split; [apply S|]. split; [|split; [|split]].
  - unfold getTrades. cbv zeta.
    destruct (slice0_firstn limit
                (js_sort newest_trade_first (JsMap.values (trades st))))
      as (k & -> & Hk).
    pose proof (newest_first_page trade_openTime newest_trade_first k
                  (JsMap.values (trades st)) (fun a b => eq_refl)) as H.
    rewrite js_sort_length in Hk.
    unfold JsMap.values in *. rewrite length_map in H, Hk.
    rewrite <- Hk. exact H.
  - exact (proj1 (S (Int 50))).
  - exact (proj1 (S (Int (-1)))).
  - reflexivity.
Qed.

(** X2.  [getPendingSignals(limit)] and [getFailedSignals(limit)] return
    only signals of that status, at most [limit] of them, newest first; a
    signal of that status that is left out is no newer than any returned. *)
Theorem status_queries_newest_page limit st :
  (let r := getPendingSignals limit st in
   Forall (fun s => sig_status s = sig_pending) r
   /\ (List.length r <= limit)%nat
   /\ StronglySorted (fun a b => sig_timestamp b <= sig_timestamp a) r
   /\ exists rest,
        Permutation (r ++ rest)
          (filter (fun s => SignalStatus_eqb (sig_status s) sig_pending)
             (JsMap.values (signals st)))
        /\ Forall (fun b => Forall
                     (fun a => sig_timestamp b <= sig_timestamp a) r) rest)
  /\ (let r := getFailedSignals limit st in
      Forall (fun s => sig_status s = sig_failed) r
      /\ (List.length r <= limit)%nat
      /\ StronglySorted (fun a b => sig_timestamp b <= sig_timestamp a) r
      /\ exists rest,
           Permutation (r ++ rest)
             (filter (fun s => SignalStatus_eqb (sig_status s) sig_failed)
                (JsMap.values (signals st)))
           /\ Forall (fun b => Forall
                        (fun a => sig_timestamp b <= sig_timestamp a) r) rest).
Proof.
  assert (G : forall status,
             let l := filter (fun s => SignalStatus_eqb (sig_status s) status)
                        (JsMap.values (signals st)) in
             let r := firstn limit (js_sort newer_first l) in
             Forall (fun s => sig_status s = status) r
             /\ (List.length r <= limit)%nat
             /\ StronglySorted (fun a b => sig_timestamp b <= sig_timestamp a) r
             /\ exists rest,
                  Permutation (r ++ rest) l
                  /\ Forall (fun b => Forall
                               (fun a => sig_timestamp b <= sig_timestamp a) r)
                            rest).
  { intros status l r.
    destruct (newest_first_page sig_timestamp newer_first limit l
                (fun a b => eq_refl)) as [Hlen [Hs Hrest]].
    fold r in Hlen, Hs, Hrest. repeat split; auto.
    - apply Forall_forall. intros s Hin. apply In_firstn in Hin.
      apply js_sort_In in Hin. apply filter_In in Hin.
      now apply SignalStatus_eqb_eq.
    - rewrite Hlen. apply Nat.le_min_l. }
  split; [apply (G sig_pending)|apply (G sig_failed)].
Qed.

(** ** The command queue *)

(** X3.  [getNextPendingCommand] sweeps the timed-out commands and then
    returns the oldest ['pending'] command: none exactly when the queue has
    no pending command, otherwise a stored pending command whose creation
    time is not after that of any other pending command. *)
Theorem getNextPendingCommand_oldest now st :
  wf_commands (mt5Commands st) ->
  let r := getNextPendingCommand now st in
  fst r = retryTimedOutCommands now st
  /\ (snd r = None <->
      filter isPending (JsMap.values (mt5Commands st)) = [])
  /\ (forall c, snd r = Some c ->
        cmd_status c = cmd_pending
        /\ In c (JsMap.values (mt5Commands st))
        /\ forall c', In c' (JsMap.values (mt5Commands st)) ->
                      cmd_status c' = cmd_pending ->
                      cmd_createdAt c <= cmd_createdAt c').
Proof.
  intros Hwf r. subst r. unfold getNextPendingCommand. cbn [fst snd].
  rewrite (retry_pending_unchanged now st Hwf).
  set (l := filter isPending (JsMap.values (mt5Commands st))).
  pose proof (js_sort_sorted_asc cmd_createdAt older_first l
                (fun a b => eq_refl)) as Hs.
  pose proof (js_sort_length older_first l) as Hlen.
  assert (Hin : forall x, In x (js_sort older_first l) <-> In x l)
    by (intros; apply js_sort_In).
  destruct (js_sort older_first l) as [|c rest]; simpl.
  - split; [reflexivity|]. split; [|discriminate].
    split; auto. intros _. destruct l; [reflexivity|discriminate].
  - split; [reflexivity|]. split.
    + split; [discriminate|]. intros E. rewrite E in Hlen. discriminate.
    + intros c0 E. inversion E; subst c0.
      assert (Hc : In c l) by (apply Hin; now left).
      apply filter_In in Hc. destruct Hc as [Hc Hp].
      split; [now apply CommandStatus_eqb_eq|]. split; auto.
      intros c' Hc' Hp'.
      assert (H' : In c' (c :: rest)).
      { apply Hin. apply filter_In. split; auto.
        unfold isPending. now rewrite Hp'. }
      inversion Hs as [|? ? _ Hall]; subst.
      destruct H' as [->|H']; [lia|].
      rewrite Forall_forall in Hall. now apply Hall.
Qed.

Lemma getNextPendingCommand_oldest_witness :
  option_map cmd_id (snd (getNextPendingCommand 100 replayStore))
  = Some "c2"%string
  /\ (snd (getNextPendingCommand 100 replayStore) = None <->
      filter isPending (JsMap.values (mt5Commands replayStore)) = []).
Proof.
  split; [reflexivity|].
  exact (proj1 (proj2 (getNextPendingCommand_oldest 100 replayStore
                         (run_ops_wf _ _ newStorage_wf)))).
Defined.

(** ** Updating a signal *)

(** X4.  [updateSignalStatus] on an unknown identifier changes nothing.  On
    a stored signal it sets the status, replaces the error text only when
    one is passed ([null] clears it, a missing argument keeps it), and
    leaves the signal's other fields, its place in the map, every other
    signal and the other stores as they are. *)
Theorem updateSignalStatus_effect id status errorMessage st :
  let st' := updateSignalStatus id status errorMessage st in
  (getSignalById id st = None -> st' = st)
  /\ (forall sg, getSignalById id st = Some sg ->
        getSignalById id st' =
          Some (mkSignal (sig_id sg) (sig_type sg) (sig_symbol sg)
                  (sig_price sg) (sig_timestamp sg) (sig_source sg) status
                  (match errorMessage with
                   | Some e => e
                   | None => sig_errorMessage sg
                   end)
                  (sig_indicatorType sg) (sig_entryPrice sg)
                  (sig_stopLoss sg) (sig_takeProfit sg)))
  /\ (forall id', id' <> id -> getSignalById id' st' = getSignalById id' st)
  /\ JsMap.keys (signals st') = JsMap.keys (signals st)
  /\ mt5Commands st' = mt5Commands st
  /\ trades st' = trades st
  /\ settings st' = settings st.
Proof.
  intros st'. subst st'. unfold updateSignalStatus, getSignalById.
  destruct (JsMap.get id (signals st)) as [sg|] eqn:G; simpl.
  - split; [discriminate|]. split.
    + intros sg0 E. inversion E; subst sg0.
      now rewrite JsMapFacts.get_set_same.
    + split.
      * intros id' Hne. apply JsMapFacts.get_set_other. congruence.
      * split; auto. apply JsMapFacts.keys_set_present. congruence.
  - repeat split; auto. discriminate.
Qed.

(** ** Settings and the heartbeat *)

Lemma getSettings_some st s :
  settings st = Some s -> getSettings st = (st, s).
Proof. unfold getSettings. now intros ->. Qed.

(** [getSettings] installs the default settings (auto-trade on, no
    heartbeat) when none exist and otherwise changes nothing; a second call
    returns the same settings and leaves the store as the first left it. *)
Lemma getSettings_stable st :
  let r := getSettings st in
  settings (fst r) = Some (snd r)
  /\ getSettings (fst r) = r
  /\ (settings st = None -> snd r = defaultSettings None)
  /\ (forall s, settings st = Some s -> r = (st, s))
  /\ signals (fst r) = signals st
  /\ mt5Commands (fst r) = mt5Commands st.
Proof.
  unfold getSettings. destruct (settings st) as [s|] eqn:E; simpl.
  - rewrite E. repeat split; auto; try discriminate.
    intros s0 H. inversion H. reflexivity.
  - repeat split; auto. discriminate.
Qed.

(** X5.  [upsertSettings] replaces the secret, the balance and the
    auto-trade flag (with ['10000'] and ['true'] for missing or empty
    values) but keeps the identifier and the last heartbeat of existing
    settings, so saving the settings never makes a connected agent look
    disconnected.  It touches no other store, [getSettings] returns the
    saved settings afterwards, and saving the same values again changes
    nothing. *)
Theorem upsertSettings_keeps_heartbeat insertSettings id now st old :
  settings st = Some old ->
  let r := upsertSettings insertSettings id st in
  settings (fst r) = Some (snd r)
  /\ set_lastMt5Heartbeat (snd r) = set_lastMt5Heartbeat old
  /\ isMt5Connected now (snd r) = isMt5Connected now old
  /\ (set_id old <> ""%string -> set_id (snd r) = set_id old)
  /\ set_mt5ApiSecret (snd r) = iset_mt5ApiSecret insertSettings
  /\ set_accountBalance (snd r)
     = strOr (iset_accountBalance insertSettings) "10000"
  /\ set_accountBalance (snd r) <> ""%string
  /\ set_autoTrade (snd r) = strOr (iset_autoTrade insertSettings) "true"
  /\ set_autoTrade (snd r) <> ""%string
  /\ getSettings (fst r) = r
  /\ (set_id old <> ""%string ->
      forall id', upsertSettings insertSettings id' (fst r) = r)
  /\ signals (fst r) = signals st
  /\ trades (fst r) = trades st
  /\ mt5Commands (fst r) = mt5Commands st
  /\ mt5ExecutionResults (fst r) = mt5ExecutionResults st
  /\ symbolMappings (fst r) = symbolMappings st.
Proof.
  intros E r. subst r. unfold upsertSettings. rewrite E. cbn.
  assert (Hne : forall (a : option string) (d : string),
             d <> ""%string -> strOr a d <> ""%string).
  { intros a d Hd. unfold strOr, truthy.
    destruct a as [a|]; cbn; auto.
    destruct (String.eqb a "") eqn:Ea; cbn; auto.
    now apply String.eqb_neq. }
  assert (Hid : set_id old <> ""%string ->
                forall d, strOr (Some (set_id old)) d = set_id old).
  { intros H d. unfold strOr. cbn. apply String.eqb_neq in H.
    now rewrite H. }
  repeat split; auto; try (apply Hne; discriminate).
  intros H id'. now rewrite !(Hid H).
Qed.

Lemma upsertSettings_keeps_heartbeat_witness :
  isMt5Connected 50
    (snd (upsertSettings (mkInsertSettings (Some "k"%string) None None) "u"
            (storage heartbeatServer)))
  = isMt5Connected 50 (defaultSettings (Some 0))
  /\ set_accountBalance
       (snd (upsertSettings (mkInsertSettings (Some "k"%string) None None) "u"
               (storage heartbeatServer)))
     = "10000"%string.
Proof.
  pose proof (upsertSettings_keeps_heartbeat
                (mkInsertSettings (Some "k"%string) None None) "u" 50
                (storage heartbeatServer) (defaultSettings (Some 0)) eq_refl)
    as (_ & _ & H3 & _ & _ & H6 & _).
  split; [exact H3|exact H6].
Defined.

(** After [updateMt5Heartbeat] at time [t] the webhook's connection check
    succeeds at every time less than 90 s later (and fails from 90 s on);
    the other settings, or the defaults when there were none, stay. *)
Lemma heartbeat_connects t now st :
  let st' := updateMt5Heartbeat t st in
  exists s, settings st' = Some s
         /\ set_lastMt5Heartbeat s = Some t
         /\ (isMt5Connected now s = true <-> now - t < 90000)
         /\ set_autoTrade s = match settings st with
                              | Some old => set_autoTrade old
                              | None => "true"%string
                              end
         /\ set_mt5ApiSecret s = match settings st with
                                 | Some old => set_mt5ApiSecret old
                                 | None => None
                                 end.
Proof.
  unfold updateMt5Heartbeat, isMt5Connected, heartbeatTimeout.
  destruct (settings st) as [old|]; simpl; eexists;
    (split; [reflexivity|]); simpl; repeat split; auto;
    try apply Z.ltb_lt; intros H; now apply Z.ltb_lt.
Qed.

(** ** Symbol mappings *)

Lemma existsb_perm {A : Type} (f : A -> bool) l l' :
  Permutation l l' -> existsb f l = existsb f l'.
Proof.
  intros H. induction H; simpl; auto.
  - now rewrite IHPermutation.
  - destruct (f x), (f y); auto.
  - congruence.
Qed.

(** X6.  For symbols and stored mappings of ASCII text:
    [areSymbolsEquivalent] does not depend on the collation that orders the
    mappings, it is symmetric, every symbol is equivalent to itself in any
    letter case, and every symbol is equivalent to the symbol that
    [mapSymbol] translates it to. *)
Theorem areSymbolsEquivalent_relation localeCompare symbol1 symbol2 st :
  isAscii symbol1 = true -> isAscii symbol2 = true -> asciiMappings st ->
  areSymbolsEquivalent localeCompare symbol1 symbol2 st
    = (String.eqb (toUpperCase symbol1) (toUpperCase symbol2)
       || existsb (linksSymbols symbol1 symbol2)
            (JsMap.values (symbolMappings st)))%bool
  /\ areSymbolsEquivalent localeCompare symbol1 symbol2 st
     = areSymbolsEquivalent localeCompare symbol2 symbol1 st
  /\ (toUpperCase symbol1 = toUpperCase symbol2 ->
      areSymbolsEquivalent localeCompare symbol1 symbol2 st = true)
  /\ areSymbolsEquivalent localeCompare symbol1 (mapSymbol symbol1 st) st
     = true
  /\ isAscii (mapSymbol symbol1 st) = true.
Proof.
  intros A1 A2 Am.
  assert (E : forall a b,
             areSymbolsEquivalent localeCompare a b st
             = (String.eqb (toUpperCase a) (toUpperCase b)
                || existsb (linksSymbols a b)
                     (JsMap.values (symbolMappings st)))%bool).
  { intros a b. unfold areSymbolsEquivalent, getSymbolMappings.
    rewrite (existsb_perm _ _ _ (js_sort_perm _ _)).
    destruct (String.eqb (toUpperCase a) (toUpperCase b)); auto. }
  split; [apply E|]. split; [|split; [|split]].
  - rewrite !E. rewrite (String.eqb_sym (toUpperCase symbol1)). f_equal.
    clear E Am.
    induction (JsMap.values (symbolMappings st)) as [|m l IH]; simpl; auto.
    rewrite IH. f_equal. unfold linksSymbols.
    destruct (String.eqb (toUpperCase (map_tradingViewSymbol m))
                (toUpperCase symbol1)),
             (String.eqb (toUpperCase (map_mt5Symbol m)) (toUpperCase symbol2)),
             (String.eqb (toUpperCase (map_mt5Symbol m)) (toUpperCase symbol1)),
             (String.eqb (toUpperCase (map_tradingViewSymbol m))
                (toUpperCase symbol2)); reflexivity.
  - intros H. rewrite E, H, String.eqb_refl. reflexivity.
  - rewrite E. unfold mapSymbol, getSymbolMappingByTradingViewSymbol.
    destruct (find _ _) as [m|] eqn:F.
    + apply find_some in F. destruct F as [Hin Hm].
      apply orb_true_iff. right. apply existsb_exists. exists m.
      split; auto. unfold linksSymbols. rewrite Hm, String.eqb_refl.
      reflexivity.
    + now rewrite String.eqb_refl.
  - unfold mapSymbol, getSymbolMappingByTradingViewSymbol.
    destruct (find _ _) as [m|] eqn:F; auto.
    apply find_some in F. destruct F as [Hin _].
    unfold asciiMappings in Am. rewrite Forall_forall in Am.
    apply (Am m Hin).
Qed.

Lemma areSymbolsEquivalent_relation_witness :
  areSymbolsEquivalent (fun _ _ => 0) "eurusd" "EURUSDm" mappedStore = true.
Proof.
  pose proof (areSymbolsEquivalent_relation (fun _ _ => 0) "eurusd" "EURUSDm"
                mappedStore eq_refl eq_refl) as H.
  destruct H as (_ & _ & _ & H4 & _).
  - repeat constructor.
  - exact H4.
Defined.

Lemma Forall_values_set {V : Type} (P : V -> Prop) k v (m : JsMap.t V) :
  Forall P (JsMap.values m) -> P v -> Forall P (JsMap.values (JsMap.set k v m)).
Proof.
  intros H Hv. induction m as [|[k' v'] r IH]; simpl in *.
  - constructor; auto.
  - inversion H; subst. destruct (String.eqb k k'); simpl; constructor; auto.
Qed.

Lemma Forall_values_get {V : Type} (P : V -> Prop) k v (m : JsMap.t V) :
  Forall P (JsMap.values m) -> JsMap.get k m = Some v -> P v.
Proof.
  intros H G. apply JsMapFacts.get_In in G.
  rewrite Forall_forall in H. apply H.
  unfold JsMap.values. apply in_map_iff. now exists (k, v).
Qed.

Lemma find_set_only_new {V : Type} (f : V -> bool) k v (m : JsMap.t V) :
  (forall x, In x (JsMap.values m) -> f x = false) -> f v = true ->
  find f (JsMap.values (JsMap.set k v m)) = Some v.
Proof.
  unfold JsMap.values. induction m as [|[k' v'] r IH]; simpl; intros H Hv.
  - now rewrite Hv.
  - destruct (String.eqb k k'); simpl.
    + now rewrite Hv.
    + rewrite (H v') by now left. apply IH; auto.
Qed.

Lemma find_app_found {A : Type} (f : A -> bool) l l' x :
  find f l = Some x -> find f (l ++ l') = Some x.
Proof.
  induction l as [|y l IH]; simpl; [discriminate|].
  destruct (f y); auto.
Qed.

(** X7.  For a new mapping, stored mappings and looked-up symbols of ASCII
    text: [createSymbolMapping] fails exactly when a mapping with the same
    TradingView symbol, letter for letter, is stored.  When it succeeds and
    no stored mapping matched the symbol in any letter case, [mapSymbol]
    translates every spelling of the symbol to the new MT5 symbol.  When an
    older mapping matches in another letter case the new mapping is stored
    under its new identifier, but lookups keep returning the older one. *)
Theorem createSymbolMapping_lookup insertMapping id now st :
  let tv := imap_tradingViewSymbol insertMapping in
  isAscii tv = true -> isAscii (imap_mt5Symbol insertMapping) = true ->
  asciiMappings st ->
  (createSymbolMapping insertMapping id now st = None <->
   exists m, In m (JsMap.values (symbolMappings st))
          /\ map_tradingViewSymbol m = tv)
  /\ (forall st' mapping,
        createSymbolMapping insertMapping id now st = Some (st', mapping) ->
        JsMap.get id (symbolMappings st') = Some mapping
        /\ map_mt5Symbol mapping = imap_mt5Symbol insertMapping
        /\ signals st' = signals st /\ mt5Commands st' = mt5Commands st
        /\ asciiMappings st'
        /\ (getSymbolMappingByTradingViewSymbol tv st = None ->
            forall s, isAscii s = true -> toUpperCase s = toUpperCase tv ->
                      mapSymbol s st' = imap_mt5Symbol insertMapping)
        /\ (JsMap.get id (symbolMappings st) = None ->
            forall s older,
              isAscii s = true ->
              getSymbolMappingByTradingViewSymbol s st = Some older ->
              getSymbolMappingByTradingViewSymbol s st' = Some older)).
Proof.
  intros tv A1 A2 Am. unfold createSymbolMapping. fold tv.
  destruct (find _ (JsMap.values (symbolMappings st))) as [m0|] eqn:F.
  - split.
    + split; auto. intros _. apply find_some in F. destruct F as [Hin E].
      apply String.eqb_eq in E. eauto.
    + intros st' mapping H. discriminate.
  - split.
    + split; [discriminate|]. intros [m [Hin E]].
      pose proof (find_none _ _ F m Hin) as Hn. simpl in Hn.
      rewrite E, String.eqb_refl in Hn. discriminate.
    + intros st' mapping H. inversion H; subst st' mapping. clear H. simpl.
      split; [apply JsMapFacts.get_set_same|].
      repeat split; auto.
      * unfold asciiMappings. cbn [symbolMappings].
        apply Forall_values_set; auto.
      * intros Hnone s _ Hs. unfold mapSymbol,
          getSymbolMappingByTradingViewSymbol in *. simpl.
        rewrite Hs.
        rewrite find_set_only_new; auto.
        -- intros x Hx. exact (find_none _ _ Hnone x Hx).
        -- simpl. apply String.eqb_refl.
      * intros Hfresh s older _ Hold.
        unfold getSymbolMappingByTradingViewSymbol in *. simpl.
        rewrite (JsMapFacts.keys_set_absent _ _ _ Hfresh).
        unfold JsMap.values in *. rewrite map_app.
        now apply find_app_found.
Qed.

Lemma createSymbolMapping_lookup_witness :
  exists st' mapping,
    createSymbolMapping (mkInsertMapping "eurusd" "EURUSD.x") "m2" 5 mappedStore
      = Some (st', mapping)
    /\ mapSymbol "eurusd" st' = "EURUSDm"%string.
Proof.
  eexists. eexists. split; [reflexivity|].
  unfold mapSymbol.
  assert (Am : asciiMappings mappedStore) by repeat constructor.
  rewrite (proj2 (proj2 (proj2 (proj2 (proj2 (proj2
             (proj2 (createSymbolMapping_lookup
                       (mkInsertMapping "eurusd" "EURUSD.x") "m2" 5 mappedStore
                       eq_refl eq_refl Am)
                    _ _ eq_refl))))))
             eq_refl "eurusd"%string (mkMapping "m1" "EURUSD" "EURUSDm" 0)
             eq_refl eq_refl).
  reflexivity.
Defined.

Lemma delete_set_new {V : Type} k (v : V) m :
  JsMap.get k m = None -> JsMap.delete k (JsMap.set k v m) = m.
Proof.
  induction m as [|[k' v'] r IH]; simpl; intros H.
  - now rewrite String.eqb_refl.
  - destruct (String.eqb k k') eqn:E; [discriminate|]. simpl. rewrite E.
    f_equal. now apply IH.
Qed.

(** X8.  Deleting a mapping that was just created under a new identifier
    gives back the store as it was; deleting an identifier that is not
    stored changes nothing. *)
Theorem deleteSymbolMapping_undoes_create insertMapping id now st :
  JsMap.get id (symbolMappings st) = None ->
  deleteSymbolMapping id st = st
  /\ forall st' mapping,
       createSymbolMapping insertMapping id now st = Some (st', mapping) ->
       deleteSymbolMapping id st' = st.
Proof.
  intros Hfresh. split.
  - unfold deleteSymbolMapping. destruct st as [a b c d e m]. simpl in *.
    f_equal. clear - Hfresh. induction m as [|[k' v'] r IH]; simpl in *; auto.
    destruct (String.eqb id k'); [discriminate|]. f_equal. now apply IH.
  - intros st' mapping H. unfold createSymbolMapping in H.
    destruct (find _ _); [discriminate|]. inversion H; subst. clear H.
    unfold deleteSymbolMapping. simpl. rewrite delete_set_new by auto.
    now destruct st.
Qed.

Lemma deleteSymbolMapping_undoes_create_witness :
  deleteSymbolMapping "m2" mappedStore = mappedStore.
Proof.
  exact (proj1 (deleteSymbolMapping_undoes_create
                  (mkInsertMapping "a" "b") "m2" 0 mappedStore eq_refl)).
Defined.

(** ** Dashboard statistics *)

Lemma MathRoundJs_bounds x : (0 <= x)%Q -> (x <= 100)%Q ->
  0 <= MathRoundJs x <= 100.
Proof.
  intros H0 H1. unfold MathRoundJs. split.
  - change 0 with (Qfloor 0). apply Qfloor_resp_le.
    apply Qle_trans with x; auto.
    rewrite <- (Qplus_0_r x) at 1. apply Qplus_le_r. discriminate.
  - change 100 with (Qfloor (100 + (1 # 2))). apply Qfloor_resp_le.
    now apply Qplus_le_l.
Qed.

Lemma rate_bounds e t : (e <= t)%nat -> (0 < t)%nat ->
  (0 <= inject_Z (Z.of_nat e) / inject_Z (Z.of_nat t) * 100)%Q
  /\ (inject_Z (Z.of_nat e) / inject_Z (Z.of_nat t) * 100 <= 100)%Q.
Proof.
  intros Hle Hpos.
  assert (Ht : (0 < inject_Z (Z.of_nat t))%Q).
  { unfold Qlt, inject_Z. simpl. lia. }
  assert (He : (0 <= inject_Z (Z.of_nat e))%Q).
  { unfold Qle, inject_Z. simpl. lia. }
  assert (Het : (inject_Z (Z.of_nat e) <= inject_Z (Z.of_nat t))%Q).
  { unfold Qle, inject_Z. simpl. lia. }
  assert (Hq : (0 <= inject_Z (Z.of_nat e) / inject_Z (Z.of_nat t))%Q).
  { apply Qle_shift_div_l; auto; rewrite Qmult_0_l; auto. }
  assert (Hq1 : (inject_Z (Z.of_nat e) / inject_Z (Z.of_nat t) <= 1)%Q).
  { apply Qle_shift_div_r; auto; rewrite Qmult_1_l; auto. }
  split.
  - apply Qmult_le_0_compat; auto. discriminate.
  - setoid_replace 100%Q with (1 * 100)%Q at 2 by reflexivity.
    apply Qmult_le_compat_r; auto. discriminate.
Qed.

(** X9.  [getStats], for a double arithmetic in which the quotient of two
    counts times 100 lies between 0 and 100 and is 100 for equal counts:
    the success rate is a whole percentage between 0 and 100, it is 0
    without signals and 100 when every signal is executed; the pending
    count is at most the total; and whenever the dashboard reports the
    agent connected (heartbeat less than 60 s old) the webhook's own check
    (90 s) also takes it as connected. *)
Theorem getStats_consistent ratioTimes100 now st :
  (forall e t, (e <= t)%nat -> (0 < t)%nat ->
     (0 <= ratioTimes100 e t)%Q /\ (ratioTimes100 e t <= 100)%Q) ->
  (forall t, (0 < t)%nat -> (ratioTimes100 t t == 100)%Q) ->
  let stats := getStats ratioTimes100 now st in
  0 <= successRate stats <= 100
  /\ (pendingSignals stats <= totalSignals stats)%nat
  /\ (totalSignals stats = 0%nat -> successRate stats = 0)
  /\ ((0 < totalSignals stats)%nat ->
      Forall (fun s => sig_status s = sig_executed) (JsMap.values (signals st)) ->
      successRate stats = 100)
  /\ (isConnected stats = true ->
      exists s, settings st = Some s /\ isMt5Connected now s = true).
Proof.
  intros Hrange Hall100.
  unfold getStats. cbn [successRate pendingSignals totalSignals isConnected].
  set (all := JsMap.values (signals st)).
  set (e := List.length
              (filter (fun s => SignalStatus_eqb (sig_status s) sig_executed)
                 all)).
  assert (He : (e <= List.length all)%nat) by apply filter_length_le.
  split; [|split; [|split; [|split]]].
  - destruct (Nat.ltb 0 (List.length all)) eqn:L.
    + apply Nat.ltb_lt in L. destruct (Hrange e _ He L).
      now apply MathRoundJs_bounds.
    + vm_compute. split; discriminate.
  - apply filter_length_le.
  - intros H0. rewrite H0. reflexivity.
  - intros Hpos Hall. apply Nat.ltb_lt in Hpos. rewrite Hpos.
    assert (Ee : e = List.length all).
    { unfold e. clear - Hall. induction all as [|s l IH]; simpl; auto.
      inversion Hall; subst.
      assert (E : SignalStatus_eqb (sig_status s) sig_executed = true)
        by now apply SignalStatus_eqb_eq.
      rewrite E. simpl. f_equal. now apply IH. }
    rewrite Ee. apply Nat.ltb_lt in Hpos.
    unfold MathRoundJs. rewrite (Hall100 _ Hpos). reflexivity.
  - destruct (settings st) as [s|]; [|discriminate].
    intros H. exists s. split; auto. unfold isMt5Connected, heartbeatTimeout.
    destruct (set_lastMt5Heartbeat s); [|discriminate].
    apply Z.ltb_lt in H. apply Z.ltb_lt. lia.
Qed.

Lemma getStats_consistent_witness :
  0 <= successRate (getStats exactRatioTimes100 50 (storage afterFirstAlert))
    <= 100.
Proof.
  refine (proj1 (getStats_consistent exactRatioTimes100 50
                   (storage afterFirstAlert) _ _)).
  - intros e t. apply rate_bounds.
  - intros t Ht. unfold exactRatioTimes100. field.
    unfold Qeq, inject_Z. simpl. lia.
Defined.

(* ------------------------------------------------------------------ *)
(** ** The webhook                                                     *)
(* ------------------------------------------------------------------ *)

Lemma set_set {V : Type} k (v v' : V) m :
  JsMap.set k v' (JsMap.set k v m) = JsMap.set k v' m.
Proof.
  induction m as [|[k0 v0] m IH]; simpl.
  - now rewrite String.eqb_refl.
  - destruct (String.eqb k k0) eqn:E; simpl; rewrite E; [reflexivity|].
    now rewrite IH.
Qed.

Lemma getSettings_frame st :
  signals (fst (getSettings st)) = signals st
  /\ trades (fst (getSettings st)) = trades st
  /\ mt5Commands (fst (getSettings st)) = mt5Commands st
  /\ mt5ExecutionResults (fst (getSettings st)) = mt5ExecutionResults st
  /\ symbolMappings (fst (getSettings st)) = symbolMappings st
  /\ settings (fst (getSettings st)) = Some (snd (getSettings st)).
Proof. unfold getSettings. destruct (settings st) eqn:E; simpl; auto 10. Qed.

Lemma markCommandAsSent_signals id now st :
  signals (markCommandAsSent id now st) = signals st.
Proof.
  unfold markCommandAsSent. now destruct (JsMap.get id (mt5Commands st)).
Qed.

Lemma updateSignalStatus_signals id status e st sg :
  getSignalById id st = Some sg ->
  signals (updateSignalStatus id status e st)
  = JsMap.set id (set_signal_status sg status e) (signals st).
Proof.
  unfold getSignalById, updateSignalStatus. now intros ->.
Qed.

(** What the webhook has in hand once the alert has passed the duplicate
    check: the stored signal and the settings. *)
Lemma webhook_stored_signal (v : InsertSignal) signalId now st st1 sg st2 s :
  createSignal v signalId now st = (st1, sg) ->
  getSettings st1 = (st2, s) ->
  sig_id sg = signalId
  /\ sig_symbol sg = isig_symbol v /\ sig_type sg = isig_type v
  /\ sig_timestamp sg = now
  /\ sig_status sg = orElse (isig_status v) sig_pending
  /\ sig_stopLoss sg = isig_stopLoss v
  /\ sig_takeProfit sg = isig_takeProfit v
  /\ getSignalById signalId st2 = Some sg
  /\ signals st2 = JsMap.set signalId sg (signals st)
  /\ mt5Commands st2 = mt5Commands st
  /\ snd (getSettings st) = s.
Proof.
  unfold createSignal. intros C GS. injection C as <- <-.
  pose proof (getSettings_frame
                (with_signals st
                   (JsMap.set signalId
                      (snd (createSignal v signalId now st)) (signals st))))
    as F.
  unfold createSignal in F. cbn [snd] in F. rewrite GS in F. cbn [fst snd] in F.
  destruct F as (Fs & _ & Fc & _ & _ & _).
  unfold getSignalById. rewrite Fs, Fc. simpl.
  rewrite JsMapFacts.get_set_same. repeat split; auto.
  unfold getSettings in *. simpl in GS.
  destruct (settings st); now inversion GS.
Qed.

(** X10.  The webhook either rejects the alert without touching the
    server (no symbol, unknown signal type, duplicate) or stores exactly
    one signal under the new identifier: with the mapped symbol, the
    normalised type and the arrival time, ['failed'] when the symbol is
    malformed and ['pending'] otherwise; the answer carries that
    identifier and the other signals are untouched. *)
Theorem webhook_records_signal body signalId commandId now srv :
  let '(srv', r) := webhook body signalId commandId now srv in
  match r with
  | MissingSymbol | InvalidSignalType | DuplicateIgnored => srv' = srv
  | PendingConnection id _ | InvalidSymbolFormat id | CommandAlreadyExists id
  | AutoTradeDisabled id _ | Queued id =>
      id = signalId
      /\ exists s,
           signals (storage srv')
           = JsMap.set signalId s (signals (storage srv))
           /\ sig_id s = signalId
           /\ sig_symbol s = mapSymbol (body_symbol body) (storage srv)
           /\ normalizeType (body_signalType body) = Some (sig_type s)
           /\ sig_timestamp s = now
           /\ sig_status s = match r with
                             | InvalidSymbolFormat _ => sig_failed
                             | _ => sig_pending
                             end
  end.
Proof.
  unfold webhook.
  destruct (String.eqb (body_symbol body) "UNKNOWN"); [reflexivity|].
  destruct (normalizeType (body_signalType body)) as [ty|] eqn:N;
    [|reflexivity].
  cbv zeta.
  destruct (isDuplicate _ _ _); [reflexivity|].
  destruct (createSignal _ signalId now (storage srv)) as [st1 sg] eqn:C.
  destruct (getSettings st1) as [st2 s] eqn:GS.
  destruct (webhook_stored_signal _ _ _ _ _ _ _ _ C GS)
    as (Hid & Hsym & Hty & Hts & Hst & _ & _ & G2 & S2 & _).
  cbn in Hsym, Hty, Hst.
  assert (U : forall status e,
             exists s0,
               signals (updateSignalStatus signalId status e st2)
               = JsMap.set signalId s0 (signals (storage srv))
               /\ sig_id s0 = signalId
               /\ sig_symbol s0 = mapSymbol (body_symbol body) (storage srv)
               /\ Some ty = Some (sig_type s0)
               /\ sig_timestamp s0 = now
               /\ sig_status s0 = status).
  { intros status e. exists (set_signal_status sg status e).
    rewrite (updateSignalStatus_signals _ _ _ _ _ G2), S2, set_set.
    simpl. rewrite Hty. repeat split; auto. }
  rewrite Hid.
  destruct (String.eqb (set_autoTrade s) "true").
  - destruct (negb (isMt5Connected now s)); [split; [reflexivity|apply U]|].
    destruct (negb (isValidSymbol (sig_symbol sg)));
      [split; [reflexivity|apply U]|].
    unfold enqueueIfAbsent.
    destruct (find _ _); [split; [reflexivity|apply U]|].
    unfold enqueueCommand, sendCommandToMT5. cbv zeta.
    destruct (negb _); (split; [reflexivity|]); cbn [storage with_storage];
      rewrite ?markCommandAsSent_signals; cbn [signals with_commands];
      apply U.
  - split; [reflexivity|apply U].
Qed.

Lemma updateSignalStatus_frame id status e st :
  mt5Commands (updateSignalStatus id status e st) = mt5Commands st
  /\ settings (updateSignalStatus id status e st) = settings st
  /\ trades (updateSignalStatus id status e st) = trades st
  /\ mt5ExecutionResults (updateSignalStatus id status e st)
     = mt5ExecutionResults st
  /\ symbolMappings (updateSignalStatus id status e st) = symbolMappings st.
Proof.
  unfold updateSignalStatus. destruct (JsMap.get id (signals st)); simpl; auto.
Qed.

Lemma open_sockets clients :
  negb (Nat.eqb (List.length (filter ws_open clients)) 0)
  = existsb ws_open clients.
Proof.
  induction clients as [|c l IH]; simpl; auto.
  destruct (ws_open c); simpl; auto.
Qed.

(** X11.  The webhook never changes the set of sockets, and it touches the
    command queue and the channel only when it answers [Queued], which
    requires auto-trade on and a heartbeat less than 90 s old.  Then exactly
    one command is stored under the new command identifier: a TRADE for the
    new signal and its (well-formed) mapped symbol with volume 0.01, the
    alert's stop loss and take profit when both are present and neither
    otherwise.  That command is sent once to every open socket and is
    ['sent'] when there is one, ['pending'] when there is none. *)
Theorem webhook_queue_effect body signalId commandId now srv :
  let '(srv', r) := webhook body signalId commandId now srv in
  mt5WsClients srv' = mt5WsClients srv
  /\ match r with
     | Queued _ =>
         (let s := snd (getSettings (storage srv)) in
          set_autoTrade s = "true"%string /\ isMt5Connected now s = true)
         /\ exists c,
              mt5Commands (storage srv')
              = JsMap.set commandId c (mt5Commands (storage srv))
              /\ cmd_id c = commandId
              /\ cmd_action c = TRADE
              /\ cmd_signalId c = Some signalId
              /\ cmd_symbol c = Some (mapSymbol (body_symbol body) (storage srv))
              /\ isValidSymbol (mapSymbol (body_symbol body) (storage srv))
                 = true
              /\ normalizeType (body_signalType body) = cmd_type c
              /\ cmd_volume c = Some "0.01"%string
              /\ (cmd_stopLoss c, cmd_takeProfit c)
                 = (if (truthy (body_stopLoss body)
                        && truthy (body_takeProfit body))%bool
                    then (body_stopLoss body, body_takeProfit body)
                    else (None, None))
              /\ cmd_createdAt c = now
              /\ cmd_status c = (if existsb ws_open (mt5WsClients srv)
                                 then cmd_sent else cmd_pending)
              /\ outbox srv'
                 = outbox srv
                   ++ map (fun ws => (ws_id ws, wireOf false c))
                        (filter ws_open (mt5WsClients srv))
     | _ =>
         mt5Commands (storage srv') = mt5Commands (storage srv)
         /\ outbox srv' = outbox srv
     end.
Proof.
  unfold webhook.
  destruct (String.eqb (body_symbol body) "UNKNOWN"); [auto|].
  destruct (normalizeType (body_signalType body)) as [ty|] eqn:N; [|auto].
  cbv zeta.
  destruct (isDuplicate _ _ _); [auto|].
  destruct (createSignal _ signalId now (storage srv)) as [st1 sg] eqn:C.
  destruct (getSettings st1) as [st2 s] eqn:GS.
  destruct (webhook_stored_signal _ _ _ _ _ _ _ _ C GS)
    as (Hid & Hsym & Hty & Hts & Hst & Hsl & Htp & G2 & S2 & C2 & Hs).
  cbn in Hsym, Hty, Hst, Hsl, Htp.
  assert (U : forall status e,
             mt5Commands (updateSignalStatus signalId status e st2)
             = mt5Commands (storage srv)).
  { intros. now rewrite (proj1 (updateSignalStatus_frame _ _ _ _)). }
  rewrite Hid.
  destruct (String.eqb (set_autoTrade s) "true") eqn:Eauto;
    [|cbn; rewrite U; auto].
  destruct (negb (isMt5Connected now s)) eqn:Econ; [cbn; rewrite U; auto|].
  destruct (negb (isValidSymbol (sig_symbol sg))) eqn:Esym;
    [cbn; rewrite U; auto|].
  unfold enqueueIfAbsent.
  destruct (find _ _); [cbn; rewrite U; auto|].
  unfold enqueueCommand, sendCommandToMT5. cbv zeta.
  cbn [mt5WsClients with_storage storage outbox].
  rewrite open_sockets.
  apply negb_false_iff in Econ, Esym. apply String.eqb_eq in Eauto.
  rewrite Hsym in Esym.
  destruct (existsb ws_open (mt5WsClients srv)) eqn:Eopen.
  - cbn [mt5WsClients with_storage storage outbox].
    split; [reflexivity|]. split; [rewrite Hs; auto|].
    unfold markCommandAsSent. cbn [mt5Commands with_commands cmd_id].
    rewrite JsMapFacts.get_set_same. cbn [mt5Commands with_commands].
    rewrite set_set, U.
    eexists. split; [reflexivity|].
    cbn. rewrite Hid, Hsym, Hty, Hsl, Htp.
    destruct (truthy (body_stopLoss body) && truthy (body_takeProfit body))%bool;
      repeat split; auto.
  - split; [reflexivity|]. split; [rewrite Hs; auto|].
    cbn [mt5Commands with_commands]. rewrite U.
    eexists. split; [reflexivity|].
    cbn. rewrite Hid, Hsym, Hty, Hsl, Htp.
    destruct (truthy (body_stopLoss body) && truthy (body_takeProfit body))%bool;
      repeat split; auto.
Qed.

(** X12.  The webhook looks for an earlier command of the signal it has
    just created.  When no queued command refers to the new signal
    identifier it never answers [CommandAlreadyExists]. *)
Theorem webhook_never_finds_command body signalId commandId now srv :
  (forall c, In c (JsMap.values (mt5Commands (storage srv))) ->
             cmd_signalId c <> Some signalId) ->
  forall id,
    snd (webhook body signalId commandId now srv) <> CommandAlreadyExists id.
Proof.
  intros Hfresh id. unfold webhook.
  destruct (String.eqb (body_symbol body) "UNKNOWN"); [discriminate|].
  destruct (normalizeType (body_signalType body)) as [ty|] eqn:N;
    [|discriminate].
  cbv zeta.
  destruct (isDuplicate _ _ _); [discriminate|].
  destruct (createSignal _ signalId now (storage srv)) as [st1 sg] eqn:C.
  destruct (getSettings st1) as [st2 s] eqn:GS.
  destruct (webhook_stored_signal _ _ _ _ _ _ _ _ C GS)
    as (Hid & _ & _ & _ & _ & _ & _ & _ & _ & C2 & _).
  destruct (String.eqb (set_autoTrade s) "true"); [|discriminate].
  destruct (negb (isMt5Connected now s)); [discriminate|].
  destruct (negb (isValidSymbol (sig_symbol sg))); [discriminate|].
  unfold enqueueIfAbsent.
  destruct (find _ _) as [c|] eqn:F.
  - exfalso. apply find_some in F. destruct F as [Hin Hc].
    unfold getPendingCommands in Hin. apply filter_In in Hin.
    rewrite (proj1 (updateSignalStatus_frame _ _ _ _)), C2 in Hin.
    apply (Hfresh c (proj1 Hin)).
    unfold hasSignalId in Hc. destruct (cmd_signalId c) as [sid|];
      [|discriminate].
    apply String.eqb_eq in Hc. congruence.
  - unfold enqueueCommand, sendCommandToMT5. cbv zeta.
    destruct (negb _); discriminate.
Qed.

Lemma webhook_never_finds_command_witness :
  map cmd_signalId (JsMap.values (mt5Commands (storage afterFirstAlert)))
  = [Some "s0"%string]
  /\ snd (webhook malformedBody "s1" "c1" 10 afterFirstAlert)
     <> CommandAlreadyExists "s1".
Proof.
  split; [reflexivity|].
  apply (webhook_never_finds_command malformedBody "s1" "c1" 10
           afterFirstAlert).
  intros c H. vm_compute in H. destruct H as [<-|[]]. discriminate.
Defined.

(* ------------------------------------------------------------------ *)
(** ** The heartbeat and the webhook's connection check                *)
(* ------------------------------------------------------------------ *)

Lemma markCommandAsSent_settings id now st :
  settings (markCommandAsSent id now st) = settings st.
Proof.
  unfold markCommandAsSent. now destruct (JsMap.get id (mt5Commands st)).
Qed.

Lemma markCommandAsAcknowledged_settings id now st :
  settings (markCommandAsAcknowledged id now st) = settings st.
Proof.
  unfold markCommandAsAcknowledged.
  now destruct (JsMap.get id (mt5Commands st)).
Qed.

Lemma webhook_connected body signalId commandId now srv s :
  settings (storage srv) = Some s -> isMt5Connected now s = true ->
  forall id w,
    snd (webhook body signalId commandId now srv) <> PendingConnection id w.
Proof.
  intros Hs Hc id w. unfold webhook.
  destruct (String.eqb (body_symbol body) "UNKNOWN"); [discriminate|].
  destruct (normalizeType (body_signalType body)) as [ty|] eqn:N;
    [|discriminate].
  cbv zeta.
  destruct (isDuplicate _ _ _); [discriminate|].
  destruct (createSignal _ signalId now (storage srv)) as [st1 sg] eqn:C.
  destruct (getSettings st1) as [st2 s'] eqn:GS.
  destruct (webhook_stored_signal _ _ _ _ _ _ _ _ C GS)
    as (_ & _ & _ & _ & _ & _ & _ & _ & _ & _ & Hs').
  rewrite (getSettings_some _ _ Hs) in Hs'. cbn in Hs'. subst s'.
  rewrite Hc. cbn [negb].
  destruct (String.eqb (set_autoTrade s) "true"); [|discriminate].
  destruct (negb (isValidSymbol (sig_symbol sg))); [discriminate|].
  unfold enqueueIfAbsent.
  destruct (find _ _); [discriminate|].
  unfold enqueueCommand, sendCommandToMT5. cbv zeta.
  destruct (negb _); discriminate.
Qed.

Lemma onReport_settings report resultId tradeId t st :
  settings (fst (onReport report resultId tradeId t st))
  = settings (updateMt5Heartbeat t st).
Proof.
  unfold onReport. cbv zeta.
  destruct (match rep_type report with
            | Some ty => String.eqb ty "HEARTBEAT"
            | None => false
            end); [reflexivity|].
  destruct (negb (truthy (rep_commandId report))); [reflexivity|].
  destruct (getCommandById _ _) as [c|]; [|reflexivity].
  unfold createExecutionResult. cbv zeta. cbn [fst].
  destruct (truthy (cmd_signalId c)).
  - destruct (rep_success report && truthy (rep_orderId report))%bool.
    + destruct (getSignalById _ _) as [sg|]; [destruct (cmd_action c)|];
        unfold createTrade; cbn [fst with_trades settings];
        rewrite (proj1 (proj2 (updateSignalStatus_frame _ _ _ _)));
        now rewrite markCommandAsAcknowledged_settings.
    + rewrite (proj1 (proj2 (updateSignalStatus_frame _ _ _ _))).
      now rewrite markCommandAsAcknowledged_settings.
  - now rewrite markCommandAsAcknowledged_settings.
Qed.

Lemma retrySignal_settings now srv p :
  settings (storage (retrySignal now srv p)) = settings (storage srv).
Proof.
  destruct p as [sg id]. unfold retrySignal, enqueueCommand, sendCommandToMT5.
  cbv zeta. destruct (negb _); cbn [storage with_storage]; auto.
  rewrite (proj1 (proj2 (updateSignalStatus_frame _ _ _ _))).
  now rewrite markCommandAsSent_settings.
Qed.

Lemma retry_loop_settings now L : forall srv,
  settings (storage (fold_left (retrySignal now) L srv))
  = settings (storage srv).
Proof.
  induction L as [|p L IH]; intros srv; simpl; auto.
  now rewrite IH, retrySignal_settings.
Qed.

Lemma onConnection_settings ws uuid t srv :
  settings (storage (onConnection ws uuid t srv))
  = settings (updateMt5Heartbeat t (storage srv)).
Proof.
  unfold onConnection. cbv zeta.
  set (srv1 := replayPending t (acceptSocket ws t srv)).
  assert (E1 : settings (storage srv1)
               = settings (updateMt5Heartbeat t (storage srv))).
  { unfold srv1, replayPending. now rewrite replay_settings. }
  destruct (heartbeat_connects t t (storage srv)) as (s & Hs & _).
  rewrite Hs in E1. rewrite (getSettings_some _ _ E1).
  destruct (_ && _)%bool; [rewrite retry_loop_settings|];
    cbn [storage with_storage]; congruence.
Qed.

(** X13.  Whatever the agent does on its channel at time [t] — connect,
    send a report or a heartbeat message, ping or answer a ping — refreshes
    the stored heartbeat, so that an alert arriving less than 90 s later is
    never parked with the "MT5 not connected" answer, whatever the alert
    and whether or not a socket is still open. *)
Theorem agent_activity_opens_webhook t now body signalId commandId srv0 srv :
  now - t < 90000 ->
  (exists ws uuid, srv = onConnection ws uuid t srv0)
  \/ (exists report resultId tradeId,
        storage srv = fst (onReport report resultId tradeId t (storage srv0)))
  \/ storage srv = updateMt5Heartbeat t (storage srv0) ->
  forall id w,
    snd (webhook body signalId commandId now srv) <> PendingConnection id w.
Proof.
  intros Hlt Hact.
  destruct (heartbeat_connects t now (storage srv0)) as (s & Hs & _ & Hc & _).
  apply (webhook_connected body signalId commandId now srv s);
    [|now apply Hc].
  destruct Hact as [(ws & uuid & ->)|[(report & rid & tid & ->)| ->]].
  - now rewrite onConnection_settings.
  - now rewrite onReport_settings.
  - exact Hs.
Qed.

Lemma agent_activity_opens_webhook_witness :
  snd (webhook eurusdBody "s2" "c2" 90999
         (onConnection agentSocket sampleUuid 1000 afterOfflineAlert))
  <> PendingConnection "s2" notConnectedMessage.
Proof.
  apply (agent_activity_opens_webhook 1000 90999 eurusdBody "s2" "c2"
           afterOfflineAlert); [reflexivity|].
  left. exists agentSocket, sampleUuid. reflexivity.
Defined.

(* ------------------------------------------------------------------ *)
(** ** The upgrade handler                                             *)
(* ------------------------------------------------------------------ *)

Lemma option_string_eqb_eq a b : option_string_eqb a b = true <-> a = b.
Proof.
  destruct a as [x|], b as [y|]; simpl; split; intros H;
    try discriminate; auto.
  - apply String.eqb_eq in H. now subst.
  - inversion H. apply String.eqb_refl.
Qed.

Lemma retrySignal_clients now srv p :
  mt5WsClients (retrySignal now srv p) = mt5WsClients srv.
Proof.
  destruct p as [sg id]. unfold retrySignal, enqueueCommand, sendCommandToMT5.
  cbv zeta. now destruct (negb _).
Qed.

Lemma retry_loop_clients now L : forall srv,
  mt5WsClients (fold_left (retrySignal now) L srv) = mt5WsClients srv.
Proof.
  induction L as [|p L IH]; intros srv; simpl; auto.
  now rewrite IH, retrySignal_clients.
Qed.

Lemma onConnection_clients ws uuid t srv :
  mt5WsClients (onConnection ws uuid t srv) = mt5WsClients srv ++ [ws].
Proof.
  unfold onConnection. cbv zeta.
  destruct (getSettings _) as [st2 s].
  destruct (_ && _)%bool; [rewrite retry_loop_clients|];
    cbn [mt5WsClients with_storage]; unfold replayPending;
    now rewrite (proj1 (replay_channel _ _ _)).
Qed.

(** X14.  The upgrade handler accepts an agent socket only on the path
    [/mt5-ws], and only when no secret is configured (none or the empty
    string) or the request presents exactly the configured secret, where a
    non-empty [secret] query parameter takes precedence over the
    [x-mt5-api-secret] header.  An accepted socket joins the agent's
    sockets; on every other answer the sockets, the channel, the command
    queue and the signals stay as they were. *)
Theorem onUpgrade_authentication request ws uuid now srv :
  let '(srv', r) := onUpgrade request ws uuid now srv in
  let presented :=
    if truthy (up_secretParam request) then up_secretParam request
    else up_secretHeader request in
  let secret := set_mt5ApiSecret (snd (getSettings (storage srv))) in
  (r = AgentSocket <->
   up_pathname request = "/mt5-ws"%string
   /\ (truthy secret = false \/ presented = secret))
  /\ (r = AgentSocket -> mt5WsClients srv' = mt5WsClients srv ++ [ws])
  /\ (r <> AgentSocket ->
      mt5WsClients srv' = mt5WsClients srv
      /\ outbox srv' = outbox srv
      /\ mt5Commands (storage srv') = mt5Commands (storage srv)
      /\ signals (storage srv') = signals (storage srv)).
Proof.
  unfold onUpgrade. cbv zeta.
  destruct (String.eqb (up_pathname request) "/ws") eqn:E1.
  { apply String.eqb_eq in E1. rewrite E1. repeat split; auto;
      try discriminate. intros [H _]. discriminate. }
  destruct (String.eqb (up_pathname request) "/mt5-ws") eqn:E2.
  2:{ apply String.eqb_neq in E2. repeat split; auto; try discriminate.
      intros [H _]. contradiction. }
  apply String.eqb_eq in E2.
  pose proof (getSettings_frame (storage srv)) as F.
  destruct (getSettings (storage srv)) as [st1 s]. cbn [fst snd] in *.
  destruct F as (Fs & _ & Fc & _).
  destruct (truthy (set_mt5ApiSecret s)) eqn:T; cbn [andb].
  - destruct (option_string_eqb _ _) eqn:Q; cbn [negb].
    + apply option_string_eqb_eq in Q. split; [|split].
      * split; auto.
      * intros _. now rewrite onConnection_clients.
      * intros H. now contradiction H.
    + split; [|split].
      * split; [discriminate|]. intros [_ [H|H]]; [discriminate|].
        apply option_string_eqb_eq in H. congruence.
      * discriminate.
      * intros _. cbn. auto.
  - split; [|split].
    + split; auto.
    + intros _. now rewrite onConnection_clients.
    + intros H. now contradiction H.
Qed.

(* ------------------------------------------------------------------ *)
(** ** Connecting with auto-trade switched off                         *)
(* ------------------------------------------------------------------ *)

Lemma markCommandAsSent_keys id now st :
  JsMap.keys (mt5Commands (markCommandAsSent id now st))
  = JsMap.keys (mt5Commands st).
Proof.
  unfold markCommandAsSent.
  destruct (JsMap.get id (mt5Commands st)) eqn:G; auto.
  cbn [mt5Commands with_commands]. apply JsMapFacts.keys_set_present.
  congruence.
Qed.

Lemma replay_keys now L : forall srv,
  JsMap.keys (mt5Commands (storage (fold_left (resendCommand now) L srv)))
  = JsMap.keys (mt5Commands (storage srv)).
Proof.
  induction L as [|c L IH]; intros srv; simpl; auto.
  now rewrite IH, resendCommand_commands, markCommandAsSent_keys.
Qed.

(** X15.  When the stored settings have auto-trade switched off, a new
    agent connection creates no command for the signals that are waiting:
    the handler only registers the socket, refreshes the heartbeat and
    replays the commands that are already queued, so the queue keeps
    exactly its identifiers and the signals' commands stay missing. *)
Theorem onConnection_autotrade_off ws uuid t srv s :
  settings (storage srv) = Some s ->
  set_autoTrade s <> "true"%string ->
  let srv' := onConnection ws uuid t srv in
  srv' = replayPending t (acceptSocket ws t srv)
  /\ JsMap.keys (mt5Commands (storage srv'))
     = JsMap.keys (mt5Commands (storage srv))
  /\ outbox srv'
     = outbox srv
       ++ flat_map (sendsOf (mt5WsClients srv ++ [ws]) true)
            (commandsToResend (storage srv)).
Proof.
  intros Hs Hoff srv'.
  assert (E : srv' = replayPending t (acceptSocket ws t srv)).
  { unfold srv', onConnection. cbv zeta.
    set (srv1 := replayPending t (acceptSocket ws t srv)).
    assert (E1 : settings (storage srv1)
                 = settings (updateMt5Heartbeat t (storage srv))).
    { unfold srv1, replayPending. now rewrite replay_settings. }
    unfold updateMt5Heartbeat in E1. rewrite Hs in E1. cbn in E1.
    rewrite (getSettings_some _ _ E1). cbn [set_autoTrade].
    apply String.eqb_neq in Hoff. rewrite Hoff. cbn [andb].
    now destruct srv1. }
  split; [exact E|]. rewrite E. unfold replayPending.
  rewrite replay_keys.
  destruct (replay_channel t
              (commandsToResend (storage (acceptSocket ws t srv)))
              (acceptSocket ws t srv)) as [_ ->].
  cbn [acceptSocket storage mt5WsClients outbox].
  unfold commandsToResend, getPendingCommands.
  now rewrite (proj1 (proj2 (proj2 (updateMt5Heartbeat_frame t _)))).
Qed.

Lemma onConnection_autotrade_off_witness :
  List.length (getPendingSignals 100 (storage pausedServer)) = 1%nat
  /\ JsMap.keys (mt5Commands (storage (onConnection agentSocket sampleUuid
                                         5000 pausedServer))) = [].
Proof.
  split; [reflexivity|].
  refine (proj1 (proj2 (onConnection_autotrade_off agentSocket sampleUuid 5000
                          pausedServer
                          (mkSettings "default" None "10000" "false" None)
                          eq_refl _))).
  discriminate.
Defined.

(* ------------------------------------------------------------------ *)
(** ** What the routes keep true of the queue and the channel          *)
(* ------------------------------------------------------------------ *)

Lemma queueInv_frame st st' :
  mt5Commands st' = mt5Commands st -> queueInv st -> queueInv st'.
Proof. unfold queueInv. now intros ->. Qed.

Lemma tradeOnly_status c status sentAt ackAt :
  tradeOnly c -> status <> cmd_failed ->
  tradeOnly (set_command_status c status sentAt ackAt (cmd_errorMessage c)).
Proof.
  unfold tradeOnly. cbn. intros (A & B & C & D & E & F & G & H) Hs.
  repeat split; auto.
Qed.

Lemma queueInv_markSent id now st :
  queueInv st -> queueInv (markCommandAsSent id now st).
Proof.
  intros [Hwf Hall]. split.
  - exact (apply_op_wf st (OpMarkSent id now) Hwf).
  - unfold markCommandAsSent.
    destruct (JsMap.get id (mt5Commands st)) as [c|] eqn:G; auto.
    cbn [mt5Commands with_commands]. apply Forall_values_set; auto.
    apply tradeOnly_status; [|discriminate].
    eapply Forall_values_get; eauto.
Qed.

Lemma queueInv_markAcknowledged id now st :
  queueInv st -> queueInv (markCommandAsAcknowledged id now st).
Proof.
  intros [Hwf Hall]. split.
  - exact (apply_op_wf st (OpMarkAcknowledged id now) Hwf).
  - unfold markCommandAsAcknowledged.
    destruct (JsMap.get id (mt5Commands st)) as [c|] eqn:G; auto.
    cbn [mt5Commands with_commands]. apply Forall_values_set; auto.
    apply tradeOnly_status; [|discriminate].
    eapply Forall_values_get; eauto.
Qed.

Lemma tradeOnly_new sg sl tp id now st :
  tradeOnly (snd (enqueueCommand (tradeCommandFor sg sl tp) id now st)).
Proof. unfold tradeOnly. cbn. repeat split; discriminate. Qed.

Lemma queueInv_enqueue sg sl tp id now st :
  queueInv st ->
  queueInv (fst (enqueueCommand (tradeCommandFor sg sl tp) id now st)).
Proof.
  intros [Hwf Hall]. split.
  - exact (apply_op_wf st (OpEnqueue (tradeCommandFor sg sl tp) id now) Hwf).
  - unfold enqueueCommand. cbn [fst mt5Commands with_commands].
    apply Forall_values_set; auto.
    exact (tradeOnly_new sg sl tp id now st).
Qed.

Lemma tradeMessage_wireOf b c : tradeOnly c -> tradeMessage (wireOf b c).
Proof.
  unfold tradeOnly, tradeMessage. cbn.
  intros (A & B & C & D & E & F & G & H). rewrite B, C.
  repeat split; auto. now destruct b.
Qed.

Lemma channelInv_send b c srv :
  tradeOnly c -> channelInv srv ->
  channelInv (fst (sendCommandToMT5 (wireOf b c) srv)).
Proof.
  intros Hc Ho. unfold channelInv, sendCommandToMT5. cbn [fst outbox].
  apply Forall_app. split; auto.
  apply Forall_forall. intros m Hm. apply in_map_iff in Hm.
  destruct Hm as (ws & <- & _). now apply tradeMessage_wireOf.
Qed.

(** The invariant of the process: queue and channel. *)
Lemma webhook_inv body signalId commandId now srv :
  queueInv (storage srv) /\ channelInv srv ->
  let srv' := fst (webhook body signalId commandId now srv) in
  queueInv (storage srv') /\ channelInv srv'.
Proof.
  intros [HQ HO]. unfold webhook.
  destruct (String.eqb (body_symbol body) "UNKNOWN"); [now split|].
  destruct (normalizeType (body_signalType body)) as [ty|] eqn:N;
    [|now split].
  cbv zeta.
  destruct (isDuplicate _ _ _); [now split|].
  destruct (createSignal _ signalId now (storage srv)) as [st1 sg] eqn:C.
  destruct (getSettings st1) as [st2 s] eqn:GS.
  destruct (webhook_stored_signal _ _ _ _ _ _ _ _ C GS)
    as (_ & _ & _ & _ & _ & _ & _ & _ & _ & C2 & _).
  assert (Q2 : queueInv st2) by (eapply queueInv_frame; eauto).
  assert (U : forall id status e,
             queueInv (updateSignalStatus id status e st2)).
  { intros. eapply queueInv_frame; [|exact Q2].
    apply updateSignalStatus_frame. }
  destruct (String.eqb (set_autoTrade s) "true"); [|cbn; split; auto].
  destruct (negb (isMt5Connected now s)); [cbn; split; auto|].
  destruct (negb (isValidSymbol (sig_symbol sg))); [cbn; split; auto|].
  unfold enqueueIfAbsent.
  destruct (find _ _); [cbn; split; auto|].
  set (st3 := updateSignalStatus (sig_id sg) sig_pending None st2).
  pose proof (queueInv_enqueue sg
                (if (truthy (sig_stopLoss sg) && truthy (sig_takeProfit sg))%bool
                 then sig_stopLoss sg else None)
                (if (truthy (sig_stopLoss sg) && truthy (sig_takeProfit sg))%bool
                 then sig_takeProfit sg else None)
                commandId now st3 (U _ _ _)) as Q4.
  pose proof (tradeOnly_new sg
                (if (truthy (sig_stopLoss sg) && truthy (sig_takeProfit sg))%bool
                 then sig_stopLoss sg else None)
                (if (truthy (sig_stopLoss sg) && truthy (sig_takeProfit sg))%bool
                 then sig_takeProfit sg else None)
                commandId now st3) as T4.
  destruct (enqueueCommand _ commandId now st3) as [st4 c]. cbn [fst snd] in *.
  pose proof (channelInv_send false c (with_storage srv st4) T4 HO) as O5.
  unfold sendCommandToMT5 in *. cbv zeta in *. cbn [fst] in O5.
  destruct (negb _); cbn [fst storage with_storage]; split; auto.
  now apply queueInv_markSent.
Qed.

Lemma resendCommand_inv now srv c :
  tradeOnly c -> queueInv (storage srv) /\ channelInv srv ->
  queueInv (storage (resendCommand now srv c))
  /\ channelInv (resendCommand now srv c).
Proof.
  intros Hc [HQ HO].
  pose proof (channelInv_send true c srv Hc HO) as O1.
  unfold resendCommand, sendCommandToMT5 in *. cbv zeta in *.
  cbn [fst storage with_storage] in *.
  split; [|exact O1].
  assert (Q2 : queueInv (markCommandAsSent (cmd_id c) now (storage srv)))
    by now apply queueInv_markSent.
  destruct (cmd_signalId c) as [sid|]; [destruct (truthy (Some sid))|]; auto.
  eapply queueInv_frame; [|exact Q2]. apply updateSignalStatus_frame.
Qed.

Lemma replay_inv now L : forall srv,
  Forall tradeOnly L -> queueInv (storage srv) /\ channelInv srv ->
  queueInv (storage (fold_left (resendCommand now) L srv))
  /\ channelInv (fold_left (resendCommand now) L srv).
Proof.
  induction L as [|c L IH]; intros srv HL H; simpl; auto.
  inversion HL; subst. apply IH; auto. now apply resendCommand_inv.
Qed.

Lemma retrySignal_inv now srv p :
  queueInv (storage srv) /\ channelInv srv ->
  queueInv (storage (retrySignal now srv p))
  /\ channelInv (retrySignal now srv p).
Proof.
  intros [HQ HO]. destruct p as [sg id]. unfold retrySignal.
  pose proof (queueInv_enqueue sg (numberField (sig_stopLoss sg))
                (numberField (sig_takeProfit sg)) id now (storage srv) HQ)
    as Q1.
  pose proof (tradeOnly_new sg (numberField (sig_stopLoss sg))
                (numberField (sig_takeProfit sg)) id now (storage srv)) as T1.
  destruct (enqueueCommand _ id now (storage srv)) as [st1 c].
  cbn [fst snd] in *.
  pose proof (channelInv_send false c (with_storage srv st1) T1 HO) as O2.
  unfold sendCommandToMT5 in *. cbv zeta in *. cbn [fst] in O2.
  destruct (negb _); cbn [storage with_storage]; split; auto.
  eapply queueInv_frame; [apply updateSignalStatus_frame|].
  now apply queueInv_markSent.
Qed.

Lemma retry_loop_inv now L : forall srv,
  queueInv (storage srv) /\ channelInv srv ->
  queueInv (storage (fold_left (retrySignal now) L srv))
  /\ channelInv (fold_left (retrySignal now) L srv).
Proof.
  induction L as [|p L IH]; intros srv H; simpl; auto.
  apply IH. now apply retrySignal_inv.
Qed.

Lemma onConnection_inv ws uuid now srv :
  queueInv (storage srv) /\ channelInv srv ->
  queueInv (storage (onConnection ws uuid now srv))
  /\ channelInv (onConnection ws uuid now srv).
Proof.
  intros [HQ HO]. unfold onConnection. cbv zeta.
  assert (H0 : queueInv (storage (acceptSocket ws now srv))
               /\ channelInv (acceptSocket ws now srv)).
  { split; [|exact HO]. eapply queueInv_frame; [|exact HQ].
    apply updateMt5Heartbeat_frame. }
  assert (H1 : queueInv (storage (replayPending now (acceptSocket ws now srv)))
               /\ channelInv (replayPending now (acceptSocket ws now srv))).
  { unfold replayPending. apply replay_inv; auto.
    unfold commandsToResend, getPendingCommands.
    apply Forall_forall. intros c Hc.
    apply filter_In in Hc. destruct Hc as [Hc _].
    apply filter_In in Hc. destruct Hc as [Hc _].
    destruct H0 as [[_ Hall] _]. rewrite Forall_forall in Hall. auto. }
  set (srv1 := replayPending now (acceptSocket ws now srv)) in *.
  pose proof (getSettings_frame (storage srv1)) as F.
  destruct (getSettings (storage srv1)) as [st2 s]. cbn [fst snd] in F.
  destruct F as (_ & _ & Fc & _).
  assert (H2 : queueInv (storage (with_storage srv1 st2))
               /\ channelInv (with_storage srv1 st2)).
  { split; [|exact (proj2 H1)]. eapply queueInv_frame; [exact Fc|].
    exact (proj1 H1). }
  destruct (_ && _)%bool; auto. now apply retry_loop_inv.
Qed.

Lemma onReport_inv report resultId tradeId now st :
  queueInv st -> queueInv (fst (onReport report resultId tradeId now st)).
Proof.
  intros HQ.
  assert (Q0 : queueInv (updateMt5Heartbeat now st)).
  { eapply queueInv_frame; [|exact HQ]. apply updateMt5Heartbeat_frame. }
  unfold onReport. cbv zeta.
  destruct (match rep_type report with
            | Some ty => String.eqb ty "HEARTBEAT"
            | None => false
            end); [exact Q0|].
  destruct (negb (truthy (rep_commandId report))); [exact Q0|].
  destruct (getCommandById _ _) as [c|]; [|exact Q0].
  unfold createExecutionResult. cbv zeta. cbn [fst].
  set (st1 := with_results _ _).
  assert (Q2 : queueInv (markCommandAsAcknowledged
                           (orElse (rep_commandId report) ""%string) now st1)).
  { apply queueInv_markAcknowledged. eapply queueInv_frame; [|exact Q0].
    reflexivity. }
  destruct (truthy (cmd_signalId c)); auto.
  destruct (rep_success report && truthy (rep_orderId report))%bool.
  - destruct (getSignalById _ _) as [sg|]; [destruct (cmd_action c)|];
      unfold createTrade; cbn [fst];
      (eapply queueInv_frame; [|exact Q2]);
      cbn [mt5Commands with_trades]; apply updateSignalStatus_frame.
  - eapply queueInv_frame; [|exact Q2]. apply updateSignalStatus_frame.
Qed.

Lemma handle_inv srv e :
  queueInv (storage srv) /\ channelInv srv ->
  queueInv (storage (handle srv e)) /\ channelInv (handle srv e).
Proof.
  intros H. pose proof H as [HQ HO].
  destruct e as [body sid cid now|request ws uuid now|report rid tid now
                |[now|]|now|ws| |ins id|ins id now|id]; cbn [handle].
  - now apply webhook_inv.
  - unfold onUpgrade. cbv zeta.
    destruct (String.eqb (up_pathname request) "/ws"); auto.
    destruct (String.eqb (up_pathname request) "/mt5-ws"); auto.
    pose proof (getSettings_frame (storage srv)) as F.
    destruct (getSettings (storage srv)) as [st1 s]. cbn [fst snd] in F.
    destruct F as (_ & _ & Fc & _).
    assert (H1 : queueInv (storage (with_storage srv st1))
                 /\ channelInv (with_storage srv st1)).
    { split; auto. eapply queueInv_frame; eauto. }
    destruct (_ && _)%bool; cbn [fst]; auto. now apply onConnection_inv.
  - split; auto. now apply onReport_inv.
  - split; auto. eapply queueInv_frame; [|exact HQ].
    apply updateMt5Heartbeat_frame.
  - split; auto.
  - split; auto. eapply queueInv_frame; [|exact HQ].
    apply updateMt5Heartbeat_frame.
  - split; auto.
  - split; auto. eapply queueInv_frame; [|exact HQ]. apply getSettings_frame.
  - split; auto.
  - destruct (createSymbolMapping ins id now (storage srv)) as [[st m]|] eqn:E;
      auto.
    split; auto. unfold createSymbolMapping in E.
    destruct (find _ _); [discriminate|]. inversion E; subst.
    exact HQ.
  - split; auto.
Qed.

(** The handlers only append to the log of the channel. *)
Lemma webhook_outbox body signalId commandId now srv :
  exists sent,
    outbox (fst (webhook body signalId commandId now srv)) = outbox srv ++ sent.
Proof.
  assert (N : exists sent : list (nat * WireCommand),
             outbox srv = outbox srv ++ sent)
    by (exists []; now rewrite app_nil_r).
  unfold webhook.
  destruct (String.eqb (body_symbol body) "UNKNOWN"); [exact N|].
  destruct (normalizeType (body_signalType body)); [|exact N]. cbv zeta.
  destruct (isDuplicate _ _ _); [exact N|].
  destruct (createSignal _ signalId now (storage srv)) as [st1 sg].
  destruct (getSettings st1) as [st2 s].
  destruct (String.eqb (set_autoTrade s) "true"); [|exact N].
  destruct (negb (isMt5Connected now s)); [exact N|].
  destruct (negb (isValidSymbol (sig_symbol sg))); [exact N|].
  destruct (enqueueIfAbsent _ _ _ _ _ _) as [st4 [c|]]; [|exact N].
  unfold sendCommandToMT5. cbv zeta.
  destruct (negb _); cbn [fst outbox with_storage]; eauto.
Qed.

Lemma retrySignal_outbox now srv p :
  exists sent, outbox (retrySignal now srv p) = outbox srv ++ sent.
Proof.
  destruct p as [sg id]. unfold retrySignal.
  destruct (enqueueCommand _ id now (storage srv)) as [st1 c].
  unfold sendCommandToMT5. cbv zeta.
  destruct (negb _); cbn [outbox with_storage]; eauto.
Qed.

Lemma retry_loop_outbox now L : forall srv,
  exists sent,
    outbox (fold_left (retrySignal now) L srv) = outbox srv ++ sent.
Proof.
  induction L as [|p L IH]; intros srv; simpl.
  - exists []. now rewrite app_nil_r.
  - destruct (IH (retrySignal now srv p)) as [s2 E2].
    destruct (retrySignal_outbox now srv p) as [s1 E1].
    exists (s1 ++ s2). now rewrite E2, E1, app_assoc.
Qed.

(** The connection handler first runs the replay pass; what it sends for
    the pending signals comes after it. *)
Lemma onConnection_outbox ws uuid now srv :
  exists later,
    outbox (onConnection ws uuid now srv)
    = outbox (replayPending now (acceptSocket ws now srv)) ++ later.
Proof.
  unfold onConnection. cbv zeta.
  set (srv1 := replayPending now (acceptSocket ws now srv)).
  destruct (getSettings (storage srv1)) as [st2 s].
  destruct (_ && _)%bool.
  - apply (retry_loop_outbox now _ (with_storage srv1 st2)).
  - exists []. now rewrite app_nil_r.
Qed.

Lemma handle_outbox srv e :
  exists sent, outbox (handle srv e) = outbox srv ++ sent.
Proof.
  assert (N : exists sent : list (nat * WireCommand),
             outbox srv = outbox srv ++ sent)
    by (exists []; now rewrite app_nil_r).
  destruct e as [body sid cid now|request ws uuid now|report rid tid now
                |[now|]|now|ws| |ins id|ins id now|id]; cbn [handle];
    try exact N.
  - apply webhook_outbox.
  - unfold onUpgrade. cbv zeta.
    destruct (String.eqb (up_pathname request) "/ws"); [exact N|].
    destruct (String.eqb (up_pathname request) "/mt5-ws"); [|exact N].
    destruct (getSettings (storage srv)) as [st1 s].
    destruct (_ && _)%bool; [exact N|]. cbn [fst].
    destruct (onConnection_outbox ws uuid now (with_storage srv st1))
      as [later E].
    destruct (replay_channel now
                (commandsToResend
                   (storage (acceptSocket ws now (with_storage srv st1))))
                (acceptSocket ws now (with_storage srv st1))) as [_ R].
    fold (replayPending now (acceptSocket ws now (with_storage srv st1))) in R.
    rewrite E, R. cbn [outbox acceptSocket with_storage].
    rewrite <- app_assoc. eauto.
  - destruct (createSymbolMapping ins id now (storage srv)) as [[st m]|];
      exact N.
Qed.

Lemma skipn_length_app {A : Type} (l l' : list A) :
  skipn (List.length l) (l ++ l') = l'.
Proof. induction l as [|x l IH]; cbn; auto. Qed.

Lemma commandsOf_app l l' : commandsOf (l ++ l') = commandsOf l ++ commandsOf l'.
Proof. unfold commandsOf. apply flat_map_app. Qed.

Lemma commandsOf_commands (l : list (nat * WireCommand)) :
  commandsOf (map (fun m => CommandText (fst m) (snd m)) l) = l.
Proof.
  unfold commandsOf. induction l as [|[ws w] l IH]; cbn; auto.
  now rewrite IH.
Qed.

Lemma commandsOf_textsOf srv e :
  outbox (handle srv e) = outbox srv ++ commandsOf (textsOf srv e).
Proof.
  destruct (handle_outbox srv e) as [sent E]. unfold textsOf.
  rewrite commandsOf_app, E, skipn_length_app, commandsOf_commands.
  f_equal. rewrite <- app_nil_r at 1. f_equal.
  destruct e; cbn; auto.
  destruct (snd (onReport _ _ _ _ _)); reflexivity.
Qed.

Lemma transcript_outbox events : forall srv,
  outbox (fold_left handle events srv)
  = outbox srv ++ commandsOf (transcript srv events).
Proof.
  induction events as [|e l IH]; intros srv; cbn.
  - now rewrite app_nil_r.
  - rewrite IH, commandsOf_app, commandsOf_textsOf. now rewrite app_assoc.
Qed.

Lemma textsOf_ok srv e :
  channelInv (handle srv e) -> Forall channelText (textsOf srv e).
Proof.
  intros HO. unfold textsOf. apply Forall_app. split.
  - apply Forall_forall. intros t Ht. apply in_map_iff in Ht.
    destruct Ht as (m & <- & Hm). apply In_skipn in Hm.
    unfold channelInv in HO. rewrite Forall_forall in HO.
    exact (HO m Hm).
  - destruct e; try constructor; cbn; auto.
    destruct (snd (onReport _ _ _ _ _)); constructor; cbn; auto.
Qed.

Lemma transcript_ok events : forall srv,
  queueInv (storage srv) /\ channelInv srv ->
  Forall channelText (transcript srv events).
Proof.
  induction events as [|e l IH]; intros srv H; cbn.
  - constructor.
  - pose proof (handle_inv srv e H) as H'.
    apply Forall_app. split; [apply textsOf_ok; apply H'|now apply IH].
Qed.

(** X16.  Whatever sequence of alerts, agent connections, agent messages,
    pings, disconnections and settings or mapping requests the routes
    handle, starting from the empty process: the command queue stays well
    formed and holds only TRADE commands of 0.01 lots that name a signal,
    a symbol and a direction, have no position and no error text and are
    never ['failed']; every text the routes write to an agent socket is
    either such a TRADE command, sent by [sendCommandToMT5] and logged in
    [outbox], or the answer of the message handler to a message of the
    agent (the acknowledgement, 'Command not found', or the failure answer
    to a text that is no report); and the failed-commands view of the error
    log is empty. *)
Theorem routes_keep_trade_only_queue events limit :
  let srv := run events in
  wf_commands (mt5Commands (storage srv))
  /\ Forall tradeOnly (JsMap.values (mt5Commands (storage srv)))
  /\ Forall channelText (transcript freshServer events)
  /\ outbox srv = commandsOf (transcript freshServer events)
  /\ Forall (fun m => tradeMessage (snd m)) (outbox srv)
  /\ getFailedCommands limit (storage srv) = [].
Proof.
  assert (G : forall l srv,
             queueInv (storage srv) /\ channelInv srv ->
             queueInv (storage (fold_left handle l srv))
             /\ channelInv (fold_left handle l srv)).
  { induction l as [|e l IH]; intros srv H; simpl; auto.
    apply IH. now apply handle_inv. }
  assert (H0 : queueInv (storage freshServer) /\ channelInv freshServer).
  { split; [split|]; [exact newStorage_wf|constructor|constructor]. }
  destruct (G events freshServer H0) as [[Hwf Hall] HO].
  cbv zeta. fold (run events) in Hwf, Hall, HO.
  split; [exact Hwf|]. split; [exact Hall|].
  split; [now apply transcript_ok|].
  split; [exact (transcript_outbox events freshServer)|].
  split; [exact HO|].
  unfold getFailedCommands.
  assert (E : filter isFailedCommand
                (JsMap.values (mt5Commands (storage (run events)))) = []).
  { induction Hall as [|c l Hc _ IH]; simpl; auto.
    destruct Hc as (_ & _ & _ & He & Hs & _).
    unfold isFailedCommand, hasErrorText. rewrite He. cbn.
    destruct (cmd_status c); try contradiction; cbn; auto. }
  rewrite E. now destruct limit.
Qed.

(* ------------------------------------------------------------------ *)
(** ** One live command per signal                                     *)
(* ------------------------------------------------------------------ *)

Lemma count_set_same {V : Type} (P : V -> bool) k v v' (m : JsMap.t V) :
  JsMap.get k m = Some v' -> P v = P v' ->
  List.length (filter P (JsMap.values (JsMap.set k v m)))
  = List.length (filter P (JsMap.values m)).
Proof.
  unfold JsMap.values.
  induction m as [|[k0 v0] r IH]; simpl; [discriminate|].
  destruct (String.eqb k k0); simpl; intros G E.
  - inversion G; subst. rewrite E. now destruct (P v').
  - destruct (P v0); simpl; rewrite IH; auto.
Qed.

Lemma nonTerminalFor_frame sid st st' :
  mt5Commands st' = mt5Commands st ->
  nonTerminalFor sid st' = nonTerminalFor sid st.
Proof. unfold nonTerminalFor. now intros ->. Qed.

Lemma markSent_live id now st c sid :
  getCommandById id st = Some c -> nonTerminal c = true ->
  List.length (nonTerminalFor sid (markCommandAsSent id now st))
  = List.length (nonTerminalFor sid st).
Proof.
  unfold getCommandById, markCommandAsSent, nonTerminalFor. intros G Hn.
  rewrite G. cbn [mt5Commands with_commands].
  apply count_set_same with (v' := c); auto.
  rewrite Hn. reflexivity.
Qed.

Lemma markAcknowledged_live id now st sid :
  (List.length (nonTerminalFor sid (markCommandAsAcknowledged id now st))
   <= List.length (nonTerminalFor sid st))%nat.
Proof.
  unfold markCommandAsAcknowledged, nonTerminalFor.
  destruct (JsMap.get id (mt5Commands st)) as [c|]; auto.
  cbn [mt5Commands with_commands].
  eapply Nat.le_trans; [apply count_set_le|]. cbn. lia.
Qed.

Lemma wf_signals_set m k sg :
  wf_signals m -> sig_id sg = k -> wf_signals (JsMap.set k sg m).
Proof.
  intros [Hnd Hid] E. split.
  - now apply JsMapFacts.keys_set_NoDup.
  - clear Hnd. subst k. induction m as [|[k' v'] r IH]; simpl.
    + constructor; auto.
    + inversion Hid; subst.
      destruct (String.eqb (sig_id sg) k') eqn:E.
      * apply String.eqb_eq in E. constructor; auto.
      * constructor; auto.
Qed.

Lemma wf_signals_get m k sg :
  wf_signals m -> JsMap.get k m = Some sg -> sig_id sg = k.
Proof.
  intros [_ Hid] G. apply JsMapFacts.get_In in G.
  rewrite Forall_forall in Hid. exact (Hid _ G).
Qed.

Lemma wf_signals_update id status e st :
  wf_signals (signals st) ->
  wf_signals (signals (updateSignalStatus id status e st)).
Proof.
  intros H. unfold updateSignalStatus.
  destruct (JsMap.get id (signals st)) as [sg|] eqn:G; auto.
  cbn [signals with_signals]. apply wf_signals_set; auto.
  cbn. eapply wf_signals_get; eauto.
Qed.

Lemma markCommandAsAcknowledged_signals id now st :
  signals (markCommandAsAcknowledged id now st) = signals st.
Proof.
  unfold markCommandAsAcknowledged.
  now destruct (JsMap.get id (mt5Commands st)).
Qed.

Lemma enqueue_live sg sl tp id now st sid :
  (List.length
     (nonTerminalFor sid
        (fst (enqueueCommand (tradeCommandFor sg sl tp) id now st)))
   <= List.length (nonTerminalFor sid st)
      + (if String.eqb (sig_id sg) sid then 1 else 0))%nat.
Proof.
  unfold nonTerminalFor, enqueueCommand. cbn [fst mt5Commands with_commands].
  eapply Nat.le_trans; [apply count_set_le|]. cbn.
  destruct (String.eqb (sig_id sg) sid); lia.
Qed.

Lemma enqueue_get ins id now st :
  getCommandById id (fst (enqueueCommand ins id now st))
  = Some (snd (enqueueCommand ins id now st))
  /\ nonTerminal (snd (enqueueCommand ins id now st)) = true
  /\ cmd_id (snd (enqueueCommand ins id now st)) = id.
Proof.
  unfold getCommandById, enqueueCommand. cbn.
  now rewrite JsMapFacts.get_set_same.
Qed.

Lemma webhook_live body signalId commandId now srv :
  wf_signals (signals (storage srv))
  /\ atMostOneNonTerminal (storage srv) ->
  let srv' := fst (webhook body signalId commandId now srv) in
  wf_signals (signals (storage srv')) /\ atMostOneNonTerminal (storage srv').
Proof.
  intros [HS HL]. unfold webhook.
  destruct (String.eqb (body_symbol body) "UNKNOWN"); [now split|].
  destruct (normalizeType (body_signalType body)) as [ty|] eqn:N;
    [|now split].
  cbv zeta.
  destruct (isDuplicate _ _ _); [now split|].
  destruct (createSignal _ signalId now (storage srv)) as [st1 sg] eqn:C.
  destruct (getSettings st1) as [st2 s] eqn:GS.
  destruct (webhook_stored_signal _ _ _ _ _ _ _ _ C GS)
    as (Hid & _ & _ & _ & _ & _ & _ & _ & S2 & C2 & _).
  assert (W2 : wf_signals (signals st2)).
  { rewrite S2. now apply wf_signals_set. }
  assert (L2 : atMostOneNonTerminal st2).
  { intros sid. rewrite (nonTerminalFor_frame sid _ _ C2). apply HL. }
  assert (U : forall id status e,
             wf_signals (signals (updateSignalStatus id status e st2))
             /\ atMostOneNonTerminal (updateSignalStatus id status e st2)).
  { intros. split; [now apply wf_signals_update|]. intros sid.
    rewrite (nonTerminalFor_frame sid _ _
               (proj1 (updateSignalStatus_frame _ _ _ _))). apply L2. }
  destruct (String.eqb (set_autoTrade s) "true"); [|cbn; apply U].
  destruct (negb (isMt5Connected now s)); [cbn; apply U|].
  destruct (negb (isValidSymbol (sig_symbol sg))); [cbn; apply U|].
  set (st3 := updateSignalStatus (sig_id sg) sig_pending None st2).
  set (sl := if (truthy (sig_stopLoss sg) && truthy (sig_takeProfit sg))%bool
             then sig_stopLoss sg else None).
  set (tp := if (truthy (sig_stopLoss sg) && truthy (sig_takeProfit sg))%bool
             then sig_takeProfit sg else None).
  pose proof (attempt_keeps_invariant st3 (mkAttempt sg sl tp commandId now)
                (proj2 (U _ _ _))) as A.
  unfold attempt in A. cbn [att_signal att_stopLoss att_takeProfit
                            att_commandId att_now] in A.
  unfold enqueueIfAbsent in *.
  destruct (find _ _); [cbn; apply U|].
  destruct (enqueue_get (tradeCommandFor sg sl tp) commandId now st3)
    as (G4 & N4 & Ec).
  assert (W4 : signals (fst (enqueueCommand (tradeCommandFor sg sl tp)
                               commandId now st3)) = signals st3)
    by reflexivity.
  destruct (enqueueCommand _ commandId now st3) as [st4 c].
  cbn [fst snd] in *.
  unfold sendCommandToMT5. cbv zeta.
  destruct (negb _); cbn [fst storage with_storage].
  - split.
    + rewrite markCommandAsSent_signals, W4. apply U.
    + intros sid. rewrite Ec.
      rewrite (markSent_live commandId now st4 c sid G4 N4). apply A.
  - split; [rewrite W4; apply U|exact A].
Qed.

Lemma resendCommand_signals_wf now srv c :
  wf_signals (signals (storage srv)) ->
  wf_signals (signals (storage (resendCommand now srv c))).
Proof.
  intros H. unfold resendCommand, sendCommandToMT5. cbv zeta.
  cbn [storage with_storage].
  assert (H2 : wf_signals
                 (signals (markCommandAsSent (cmd_id c) now (storage srv))))
    by now rewrite markCommandAsSent_signals.
  destruct (cmd_signalId c) as [sid|]; [destruct (truthy (Some sid))|]; auto.
  now apply wf_signals_update.
Qed.

Lemma replay_live now L : forall srv,
  (forall c, In c L ->
     exists c', getCommandById (cmd_id c) (storage srv) = Some c'
             /\ nonTerminal c' = true) ->
  wf_signals (signals (storage srv)) ->
  wf_signals (signals (storage (fold_left (resendCommand now) L srv)))
  /\ forall sid,
       List.length
         (nonTerminalFor sid (storage (fold_left (resendCommand now) L srv)))
       = List.length (nonTerminalFor sid (storage srv)).
Proof.
  induction L as [|c L IH]; intros srv HL HS; simpl; auto.
  destruct (HL c (or_introl eq_refl)) as (c' & G & Hn).
  destruct (IH (resendCommand now srv c)) as [W E].
  - intros c2 H2. destruct (HL c2 (or_intror H2)) as (c2' & G2 & Hn2).
    destruct (markSent_status (cmd_id c) now (storage srv) _ _ G2)
      as (c3 & G3 & _ & Hs3).
    exists c3. split.
    + unfold getCommandById in *. now rewrite resendCommand_commands.
    + unfold nonTerminal in *. rewrite Hs3.
      now destruct (String.eqb (cmd_id c) (cmd_id c2)).
  - now apply resendCommand_signals_wf.
  - split; auto. intros sid. rewrite E.
    rewrite (nonTerminalFor_frame sid _ _ (resendCommand_commands now srv c)).
    now apply markSent_live with (c := c').
Qed.

Lemma retrySignal_live now srv sg id :
  wf_signals (signals (storage srv)) ->
  wf_signals (signals (storage (retrySignal now srv (sg, id))))
  /\ forall sid,
       (List.length (nonTerminalFor sid (storage (retrySignal now srv (sg, id))))
        <= List.length (nonTerminalFor sid (storage srv))
           + (if String.eqb (sig_id sg) sid then 1 else 0))%nat.
Proof.
  intros HS. unfold retrySignal.
  pose proof (enqueue_live sg (numberField (sig_stopLoss sg))
                (numberField (sig_takeProfit sg)) id now (storage srv)) as L1.
  destruct (enqueue_get (tradeCommandFor sg (numberField (sig_stopLoss sg))
                           (numberField (sig_takeProfit sg)))
              id now (storage srv)) as (G1 & N1 & E1).
  assert (W1 : signals (fst (enqueueCommand
                               (tradeCommandFor sg
                                  (numberField (sig_stopLoss sg))
                                  (numberField (sig_takeProfit sg)))
                               id now (storage srv)))
               = signals (storage srv)) by reflexivity.
  destruct (enqueueCommand _ id now (storage srv)) as [st1 c].
  cbn [fst snd] in *.
  unfold sendCommandToMT5. cbv zeta.
  destruct (negb _); cbn [storage with_storage].
  - split.
    + apply wf_signals_update. now rewrite markCommandAsSent_signals, W1.
    + intros sid.
      rewrite (nonTerminalFor_frame sid _ _
                 (proj1 (updateSignalStatus_frame _ _ _ _))).
      rewrite E1, (markSent_live id now st1 c sid G1 N1). apply L1.
  - split; [now rewrite W1|apply L1].
Qed.

Lemma retry_loop_live now L : forall srv,
  NoDup (map (fun p => sig_id (fst p)) L) ->
  wf_signals (signals (storage srv)) ->
  atMostOneNonTerminal (storage srv) ->
  (forall p, In p L -> nonTerminalFor (sig_id (fst p)) (storage srv) = []) ->
  wf_signals (signals (storage (fold_left (retrySignal now) L srv)))
  /\ atMostOneNonTerminal (storage (fold_left (retrySignal now) L srv)).
Proof.
  induction L as [|[sg id] L IH]; intros srv Hnd HS HL H0; cbn [fold_left];
    auto.
  inversion Hnd as [|? ? Hnin Hnd']; subst.
  destruct (retrySignal_live now srv sg id HS) as [W Hle].
  apply IH; auto.
  - intros sid. specialize (Hle sid).
    destruct (String.eqb (sig_id sg) sid) eqn:E.
    + apply String.eqb_eq in E. subst sid.
      pose proof (H0 (sg, id) (or_introl eq_refl)) as Z0. cbn [fst] in Z0.
      rewrite Z0 in Hle. exact Hle.
    + specialize (HL sid). lia.
  - intros [sg2 id2] Hin. cbn [fst].
    specialize (Hle (sig_id sg2)).
    destruct (String.eqb (sig_id sg) (sig_id sg2)) eqn:E.
    + apply String.eqb_eq in E. exfalso. apply Hnin. rewrite E.
      change (sig_id sg2) with ((fun p : Signal * string => sig_id (fst p))
                                  (sg2, id2)).
      now apply in_map.
    + pose proof (H0 (sg2, id2) (or_intror Hin)) as Z0. cbn [fst] in Z0.
      rewrite Z0 in Hle. cbn in Hle.
      destruct (nonTerminalFor _ _); [reflexivity|cbn in Hle; lia].
Qed.

Lemma NoDup_map_filter {A B : Type} (f : A -> B) p (l : list A) :
  NoDup (map f l) -> NoDup (map f (filter p l)).
Proof.
  induction l as [|x l IH]; simpl; intros H; auto.
  inversion H; subst. destruct (p x); simpl; auto.
  constructor; auto. intros Hin. apply in_map_iff in Hin.
  destruct Hin as (y & E & Hy). apply filter_In in Hy.
  rewrite <- E in *. apply H2. apply in_map. tauto.
Qed.

Lemma NoDup_map_firstn {A B : Type} (f : A -> B) n : forall (l : list A),
  NoDup (map f l) -> NoDup (map f (firstn n l)).
Proof.
  induction n as [|n IH]; intros [|x l] H; simpl; try constructor.
  - inversion H; subst. intros Hin. apply H2. apply in_map_iff in Hin.
    destruct Hin as (y & E & Hy). apply In_firstn in Hy.
    rewrite <- E. now apply in_map.
  - inversion H; subst. now apply IH.
Qed.

Lemma NoDup_map_combine {A B C : Type} (f : A -> C) (l : list A) :
  forall (l' : list B),
    NoDup (map f l) -> NoDup (map (fun p => f (fst p)) (combine l l')).
Proof.
  induction l as [|x l IH]; intros [|y l'] H; simpl; try constructor.
  - inversion H; subst. intros Hin. apply H2. apply in_map_iff in Hin.
    destruct Hin as ([a b] & E & Hab). apply in_combine_l in Hab.
    cbn in E. rewrite <- E. now apply in_map.
  - inversion H; subst. now apply IH.
Qed.

Lemma wf_signals_ids m :
  wf_signals m -> NoDup (map sig_id (JsMap.values m)).
Proof.
  intros [Hnd Hid]. unfold JsMap.values, JsMap.keys in *.
  rewrite map_map. erewrite map_ext_in; [exact Hnd|].
  intros kv Hin. rewrite Forall_forall in Hid. now apply Hid.
Qed.

Lemma pending_signals_ids limit st :
  wf_signals (signals st) ->
  NoDup (map sig_id (getPendingSignals limit st)).
Proof.
  intros H. unfold getPendingSignals.
  apply NoDup_map_firstn.
  eapply Permutation_NoDup;
    [apply Permutation_map; symmetry; apply js_sort_perm|].
  apply NoDup_map_filter. now apply wf_signals_ids.
Qed.

Lemma onConnection_live ws uuid now srv :
  wf_commands (mt5Commands (storage srv)) ->
  wf_signals (signals (storage srv))
  /\ atMostOneNonTerminal (storage srv) ->
  wf_signals (signals (storage (onConnection ws uuid now srv)))
  /\ atMostOneNonTerminal (storage (onConnection ws uuid now srv)).
Proof.
  intros Hwf [HS HL]. unfold onConnection, signalsToRetry. cbv zeta.
  set (srv0 := acceptSocket ws now srv).
  assert (C0 : mt5Commands (storage srv0) = mt5Commands (storage srv))
    by apply updateMt5Heartbeat_frame.
  assert (S0 : signals (storage srv0) = signals (storage srv))
    by apply updateMt5Heartbeat_frame.
  destruct (replay_live now (commandsToResend (storage srv0)) srv0)
    as [W1 E1].
  { intros c Hc. exists c. unfold commandsToResend, getPendingCommands in Hc.
    apply filter_In in Hc. destruct Hc as [Hc _].
    apply filter_In in Hc. destruct Hc as [Hc Hn]. split; auto.
    unfold getCommandById. apply wf_values_get; rewrite C0; auto.
    now rewrite <- C0. }
  { now rewrite S0. }
  fold (replayPending now srv0) in W1, E1.
  set (srv1 := replayPending now srv0) in *.
  pose proof (getSettings_frame (storage srv1)) as F.
  destruct (getSettings (storage srv1)) as [st2 s]. cbn [fst snd] in F.
  destruct F as (Fs & _ & Fc & _).
  assert (L2 : forall sid,
             List.length (nonTerminalFor sid st2)
             = List.length (nonTerminalFor sid (storage srv))).
  { intros sid. rewrite (nonTerminalFor_frame sid _ _ Fc), E1.
    now rewrite (nonTerminalFor_frame sid _ _ C0). }
  assert (H2 : wf_signals (signals st2) /\ atMostOneNonTerminal st2).
  { split; [now rewrite Fs|]. intros sid. rewrite L2. apply HL. }
  destruct (_ && _)%bool; [|exact H2].
  apply retry_loop_live; cbn [storage with_storage]; try apply H2.
  - apply NoDup_map_combine. unfold signalsWithoutCommands.
    apply NoDup_map_filter. now apply pending_signals_ids.
  - intros [sg id] Hin. cbn [fst]. apply in_combine_l in Hin.
    unfold signalsWithoutCommands in Hin. apply filter_In in Hin.
    destruct Hin as [_ Hno]. apply negb_true_iff in Hno.
    specialize (L2 (sig_id sg)).
    assert (Z0 : nonTerminalFor (sig_id sg) (storage srv0) = []).
    { unfold nonTerminalFor. unfold getPendingCommands in Hno.
      clear - Hno. induction (JsMap.values (mt5Commands (storage srv0)))
        as [|c l IH]; simpl in *; auto.
      destruct (nonTerminal c); simpl in *; auto.
      apply orb_false_iff in Hno. destruct Hno as [-> Hno]. auto. }
    rewrite <- (nonTerminalFor_frame (sig_id sg) _ _ C0), Z0 in L2.
    destruct (nonTerminalFor (sig_id sg) st2); [reflexivity|discriminate].
Qed.

Lemma onReport_live report resultId tradeId now st :
  wf_signals (signals st) /\ atMostOneNonTerminal st ->
  let st' := fst (onReport report resultId tradeId now st) in
  wf_signals (signals st') /\ atMostOneNonTerminal st'.
Proof.
  intros [HS HL].
  assert (H0 : wf_signals (signals (updateMt5Heartbeat now st))
               /\ atMostOneNonTerminal (updateMt5Heartbeat now st)).
  { split; [now rewrite (proj1 (updateMt5Heartbeat_frame now st))|].
    intros sid. rewrite (nonTerminalFor_frame sid st); [apply HL|].
    apply updateMt5Heartbeat_frame. }
  unfold onReport. cbv zeta.
  destruct (match rep_type report with
            | Some ty => String.eqb ty "HEARTBEAT"
            | None => false
            end); [exact H0|].
  destruct (negb (truthy (rep_commandId report))); [exact H0|].
  destruct (getCommandById _ _) as [c|]; [|exact H0].
  unfold createExecutionResult. cbv zeta. cbn [fst].
  set (st1 := with_results _ _).
  set (st2 := markCommandAsAcknowledged _ now st1).
  assert (H2 : wf_signals (signals st2) /\ atMostOneNonTerminal st2).
  { split.
    - unfold st2. rewrite markCommandAsAcknowledged_signals. apply H0.
    - intros sid. eapply Nat.le_trans; [apply markAcknowledged_live|].
      apply (proj2 H0 sid). }
  assert (U : forall id status e,
             wf_signals (signals (updateSignalStatus id status e st2))
             /\ atMostOneNonTerminal (updateSignalStatus id status e st2)).
  { intros. split; [now apply wf_signals_update|]. intros sid.
    rewrite (nonTerminalFor_frame sid _ _
               (proj1 (updateSignalStatus_frame _ _ _ _))). apply H2. }
  destruct (truthy (cmd_signalId c)); auto.
  destruct (rep_success report && truthy (rep_orderId report))%bool;
    [|apply U].
  destruct (getSignalById _ _) as [sg|]; [destruct (cmd_action c)|];
    unfold createTrade; cbn [fst]; apply U.
Qed.

Lemma handle_live srv e :
  wf_commands (mt5Commands (storage srv)) ->
  wf_signals (signals (storage srv)) /\ atMostOneNonTerminal (storage srv) ->
  wf_signals (signals (storage (handle srv e)))
  /\ atMostOneNonTerminal (storage (handle srv e)).
Proof.
  intros Hwf H.
  destruct e as [body sid cid now|request ws uuid now|report rid tid now
                |[now|]|now|ws| |ins id|ins id now|id]; cbn [handle].
  - now apply webhook_live.
  - unfold onUpgrade. cbv zeta.
    destruct (String.eqb (up_pathname request) "/ws"); auto.
    destruct (String.eqb (up_pathname request) "/mt5-ws"); auto.
    pose proof (getSettings_frame (storage srv)) as F.
    destruct (getSettings (storage srv)) as [st1 s]. cbn [fst snd] in F.
    destruct F as (Fs & _ & Fc & _).
    assert (H1 : wf_signals (signals st1) /\ atMostOneNonTerminal st1).
    { split; [rewrite Fs; apply H|]. intros k.
      rewrite (nonTerminalFor_frame k _ _ Fc). apply H. }
    destruct (_ && _)%bool; cbn [fst storage with_storage]; auto.
    apply onConnection_live; cbn [storage with_storage]; auto.
    now rewrite Fc.
  - cbn [storage with_storage]. now apply onReport_live.
  - cbn [storage with_storage].
    split; [rewrite (proj1 (updateMt5Heartbeat_frame _ _)); apply H|].
    intros k. rewrite (nonTerminalFor_frame k (storage srv)); [apply H|].
    apply updateMt5Heartbeat_frame.
  - exact H.
  - cbn [storage with_storage].
    split; [rewrite (proj1 (updateMt5Heartbeat_frame _ _)); apply H|].
    intros k. rewrite (nonTerminalFor_frame k (storage srv)); [apply H|].
    apply updateMt5Heartbeat_frame.
  - exact H.
  - cbn [storage with_storage].
    destruct (getSettings_frame (storage srv)) as (Fs & _ & Fc & _).
    split; [rewrite Fs; apply H|]. intros k.
    rewrite (nonTerminalFor_frame k _ _ Fc). apply H.
  - exact H.
  - destruct (createSymbolMapping ins id now (storage srv)) as [[st m]|] eqn:E;
      auto.
    unfold createSymbolMapping in E.
    destruct (find _ _); [discriminate|]. inversion E; subst. exact H.
  - exact H.
Qed.

(** X17.  Whatever the routes handle, starting from the empty process,
    signals stay stored under their own identifiers and every signal has at
    most one command that is ['pending'] or ['sent']: the webhook's guard
    and the connection handler's filter together keep a second live command
    from being created, without any assumption on the identifiers drawn. *)
Theorem routes_one_live_command_per_signal events :
  let st := storage (run events) in
  wf_signals (signals st) /\ atMostOneNonTerminal st.
Proof.
  assert (G : forall l srv,
             (queueInv (storage srv) /\ channelInv srv)
             /\ wf_signals (signals (storage srv))
             /\ atMostOneNonTerminal (storage srv) ->
             wf_signals (signals (storage (fold_left handle l srv)))
             /\ atMostOneNonTerminal (storage (fold_left handle l srv))).
  { induction l as [|e l IH]; intros srv [HI H]; simpl; auto.
    apply IH. split; [now apply handle_inv|].
    apply handle_live; auto. apply HI. }
  apply G. split; [split; [split|]|split; [split|]].
  - exact newStorage_wf.
  - constructor.
  - constructor.
  - constructor.
  - constructor.
  - intros sid. cbn. lia.
Qed.

(* ------------------------------------------------------------------ *)
(** ** What a report does to the signal                                *)
(* ------------------------------------------------------------------ *)

(** X18.  A report for a stored command whose signal is stored decides the
    signal's status: ['executed'] with the error text cleared exactly when
    the report is a success that names an order, and ['failed'] otherwise,
    with the report's error text or, when it has none, "Trade execution
    failed in MT5".  So a success report without order identifier marks
    the signal ['failed'] and stores no trade. *)
Theorem onReport_signal_outcome report resultId tradeId now st k c sid sg :
  rep_commandId report = Some k -> k <> ""%string ->
  rep_type report <> Some "HEARTBEAT"%string ->
  getCommandById k st = Some c ->
  cmd_signalId c = Some sid -> sid <> ""%string ->
  getSignalById sid st = Some sg ->
  let st' := fst (onReport report resultId tradeId now st) in
  let executed := (rep_success report && truthy (rep_orderId report))%bool in
  getSignalById sid st'
  = Some (set_signal_status sg
            (if executed then sig_executed else sig_failed)
            (Some (if executed then None
                   else Some (strOr (rep_error report)
                                executionFailedMessage))))
  /\ (executed = false -> trades st' = trades st).
Proof.
  intros Hid Hne Hty G Hsid Hsne Hsg st' executed. subst st'.
  rewrite (onReport_found report resultId tradeId now st k c Hid Hne Hty G).
  destruct (updateMt5Heartbeat_frame now st) as (Fs & Ft & _).
  cbn [fst]. rewrite Hsid. cbn [truthy orElse].
  apply String.eqb_neq in Hsne. rewrite Hsne. cbn [negb].
  fold executed.
  set (st2 := with_commands _ _).
  assert (G2 : getSignalById sid st2 = Some sg).
  { unfold getSignalById, st2. cbn. now rewrite Fs. }
  assert (T2 : trades st2 = trades st).
  { unfold st2. cbn. exact Ft. }
  destruct executed.
  - split; [|discriminate].
    assert (G3 : getSignalById sid
                   (updateSignalStatus sid sig_executed (Some None) st2)
                 = Some (set_signal_status sg sig_executed (Some None))).
    { now rewrite getSignalById_update, G2. }
    rewrite G3. destruct (cmd_action c); auto.
  - split.
    + now rewrite getSignalById_update, G2.
    + intros _. now rewrite (proj1 (proj2 (proj2
                               (updateSignalStatus_frame _ _ _ _)))).
Qed.

Lemma onReport_signal_outcome_witness :
  option_map sig_status
    (getSignalById "s1"
       (fst (onReport bareSuccessReport "r1" "t1" 100 tradingStore)))
  = Some sig_failed
  /\ trades (fst (onReport bareSuccessReport "r1" "t1" 100 tradingStore))
     = trades tradingStore.
Proof.
  destruct (onReport_signal_outcome bareSuccessReport "r1" "t1" 100
              tradingStore "c1" sentCommandAt10 "s1" sampleSignal)
    as [H1 H2]; try reflexivity; try discriminate.
  split; [now rewrite H1|now apply H2].
Defined.

(* ------------------------------------------------------------------ *)
(** ** The reconnection replay on the running process                  *)
(* ------------------------------------------------------------------ *)

Lemma created_markSent id now st :
  map cmd_createdAt (JsMap.values (mt5Commands (markCommandAsSent id now st)))
  = map cmd_createdAt (JsMap.values (mt5Commands st)).
Proof.
  unfold markCommandAsSent.
  destruct (JsMap.get id (mt5Commands st)) eqn:G; auto.
  cbn [mt5Commands with_commands]. now apply (created_set_same _ _ _ _ G).
Qed.

Lemma created_markAcknowledged id now st :
  map cmd_createdAt
    (JsMap.values (mt5Commands (markCommandAsAcknowledged id now st)))
  = map cmd_createdAt (JsMap.values (mt5Commands st)).
Proof.
  unfold markCommandAsAcknowledged.
  destruct (JsMap.get id (mt5Commands st)) eqn:G; auto.
  cbn [mt5Commands with_commands]. now apply (created_set_same _ _ _ _ G).
Qed.

Lemma createdUpTo_same t st st' :
  map cmd_createdAt (JsMap.values (mt5Commands st'))
  = map cmd_createdAt (JsMap.values (mt5Commands st)) ->
  createdUpTo t st -> createdUpTo t st'.
Proof. unfold createdUpTo, createdAscending. now intros ->. Qed.

Lemma createdUpTo_frame t st st' :
  mt5Commands st' = mt5Commands st -> createdUpTo t st -> createdUpTo t st'.
Proof. intros E. apply createdUpTo_same. now rewrite E. Qed.

Lemma createdUpTo_later t t' st :
  t <= t' -> createdUpTo t st -> createdUpTo t' st.
Proof.
  intros Hle [Hs Hb]. split; auto.
  eapply Forall_impl; [|exact Hb]. cbn. intros. lia.
Qed.

Lemma sorted_snoc l x :
  StronglySorted Z.le l -> Forall (fun y => y <= x) l ->
  StronglySorted Z.le (l ++ [x]).
Proof.
  induction l as [|y l IH]; cbn; intros Hs Hb.
  - constructor; constructor.
  - inversion Hs; subst. inversion Hb; subst. constructor; auto.
    rewrite Forall_app. split; auto.
Qed.

(** Enqueueing under a new identifier, not before the creation times
    present, appends in order. *)
Lemma createdUpTo_enqueue t insertCommand id now st :
  t <= now -> getCommandById id st = None -> createdUpTo t st ->
  createdUpTo now (fst (enqueueCommand insertCommand id now st)).
Proof.
  intros Hle Hfresh [Hs Hb]. unfold createdUpTo, createdAscending in *.
  cbn [fst enqueueCommand mt5Commands with_commands].
  rewrite (JsMapFacts.keys_set_absent _ _ _ Hfresh).
  unfold JsMap.values in *. rewrite !map_app. cbn [map snd cmd_createdAt].
  assert (Hb' : Forall (fun y => y <= now)
                  (map cmd_createdAt (map snd (mt5Commands st)))).
  { eapply Forall_impl; [|exact Hb]. cbn. intros. lia. }
  split.
  - now apply sorted_snoc.
  - apply Forall_app. split; auto. constructor; [lia|constructor].
Qed.

Lemma absent_enqueue k insertCommand id now st :
  id <> k -> getCommandById k st = None ->
  getCommandById k (fst (enqueueCommand insertCommand id now st)) = None.
Proof.
  intros Hne G. unfold getCommandById in *. cbn.
  now rewrite JsMapFacts.get_set_other.
Qed.

Lemma absent_keys k st st' :
  JsMap.keys (mt5Commands st') = JsMap.keys (mt5Commands st) ->
  getCommandById k st = None -> getCommandById k st' = None.
Proof.
  unfold getCommandById. intros E G.
  apply JsMapFacts.get_None_keys. rewrite E.
  now apply JsMapFacts.get_None_keys.
Qed.

Lemma retrySignal_created t now srv sg id :
  t <= now -> getCommandById id (storage srv) = None ->
  createdUpTo t (storage srv) ->
  createdUpTo now (storage (retrySignal now srv (sg, id)))
  /\ forall k, id <> k -> getCommandById k (storage srv) = None ->
               getCommandById k (storage (retrySignal now srv (sg, id))) = None.
Proof.
  intros Hle Hfresh Hc. unfold retrySignal.
  pose proof (createdUpTo_enqueue t
                (tradeCommandFor sg (numberField (sig_stopLoss sg))
                   (numberField (sig_takeProfit sg)))
                id now (storage srv) Hle Hfresh Hc) as C1.
  assert (A1 : forall k, id <> k -> getCommandById k (storage srv) = None ->
               getCommandById k
                 (fst (enqueueCommand
                         (tradeCommandFor sg (numberField (sig_stopLoss sg))
                            (numberField (sig_takeProfit sg)))
                         id now (storage srv))) = None).
  { intros k Hne G. now apply absent_enqueue. }
  destruct (enqueueCommand _ id now (storage srv)) as [st1 c].
  cbn [fst] in C1, A1.
  unfold sendCommandToMT5. cbv zeta.
  destruct (negb _); cbn [storage with_storage]; [|split; auto].
  split.
  - eapply createdUpTo_frame; [apply updateSignalStatus_frame|].
    eapply createdUpTo_same; [apply created_markSent|exact C1].
  - intros k Hne G.
    eapply absent_keys; [|exact (A1 k Hne G)].
    rewrite (proj1 (updateSignalStatus_frame _ _ _ _)).
    apply markCommandAsSent_keys.
Qed.

Lemma retry_loop_created now L : forall t srv,
  t <= now ->
  NoDup (map snd L) ->
  (forall id, In id (map snd L) -> getCommandById id (storage srv) = None) ->
  createdUpTo t (storage srv) ->
  createdUpTo now (storage (fold_left (retrySignal now) L srv)).
Proof.
  induction L as [|[sg id] L IH]; intros t srv Hle Hnd Hfresh Hc; cbn.
  - now apply (createdUpTo_later t).
  - inversion Hnd as [|? ? Hnin Hnd']; subst.
    destruct (retrySignal_created t now srv sg id Hle
                (Hfresh id (or_introl eq_refl)) Hc) as [C1 A1].
    apply (IH now); auto; [lia|].
    intros k Hk. apply A1.
    + intros ->. contradiction.
    + apply Hfresh. now right.
Qed.

Lemma replay_created now L : forall srv,
  map cmd_createdAt
    (JsMap.values (mt5Commands (storage (fold_left (resendCommand now) L srv))))
  = map cmd_createdAt (JsMap.values (mt5Commands (storage srv))).
Proof.
  induction L as [|c L IH]; intros srv; cbn [fold_left]; auto.
  now rewrite IH, resendCommand_commands, created_markSent.
Qed.

Lemma map_snd_combine {A B : Type} (l : list A) (l' : list B) :
  List.length l = List.length l' -> map snd (combine l l') = l'.
Proof.
  revert l'. induction l as [|x l IH]; intros [|y l']; cbn; intros H;
    try discriminate; auto.
  f_equal. apply IH. lia.
Qed.

Lemma NoDup_map_injective {A : Type} (f : nat -> A) l :
  (forall i j, f i = f j -> i = j) -> NoDup l -> NoDup (map f l).
Proof.
  intros Hinj. induction 1 as [|x l Hx Hnd IH]; cbn; constructor; auto.
  intros Hin. apply in_map_iff in Hin. destruct Hin as (y & E & Hy).
  apply Hinj in E. subst. contradiction.
Qed.

Lemma onConnection_created t ws uuid now srv :
  t <= now ->
  (forall i, getCommandById (uuid i) (storage srv) = None) ->
  (forall i j, uuid i = uuid j -> i = j) ->
  createdUpTo t (storage srv) ->
  createdUpTo now (storage (onConnection ws uuid now srv)).
Proof.
  intros Hle Hfresh Hinj Hc. unfold onConnection. cbv zeta.
  set (srv0 := acceptSocket ws now srv).
  set (srv1 := replayPending now srv0).
  assert (K1 : JsMap.keys (mt5Commands (storage srv1))
               = JsMap.keys (mt5Commands (storage srv))).
  { unfold srv1, replayPending. rewrite replay_keys. unfold srv0. cbn.
    now rewrite (proj1 (proj2 (proj2 (updateMt5Heartbeat_frame now _)))). }
  assert (C1 : createdUpTo t (storage srv1)).
  { eapply createdUpTo_same; [|exact Hc].
    unfold srv1, replayPending. rewrite replay_created. unfold srv0. cbn.
    now rewrite (proj1 (proj2 (proj2 (updateMt5Heartbeat_frame now _)))). }
  pose proof (getSettings_frame (storage srv1)) as F.
  destruct (getSettings (storage srv1)) as [st2 s]. cbn [fst snd] in F.
  destruct F as (_ & _ & Fc & _).
  assert (C2 : createdUpTo t (storage (with_storage srv1 st2))).
  { cbn. eapply createdUpTo_frame; eauto. }
  destruct (_ && _)%bool; [|now apply (createdUpTo_later t)].
  apply (retry_loop_created now _ t); auto.
  - rewrite map_snd_combine by now rewrite length_map, length_seq.
    apply NoDup_map_injective; auto. apply seq_NoDup.
  - intros id Hid.
    rewrite map_snd_combine in Hid by now rewrite length_map, length_seq.
    apply in_map_iff in Hid. destruct Hid as (i & <- & _).
    cbn [storage with_storage].
    apply (absent_keys _ (storage srv)); [|apply Hfresh].
    now rewrite Fc.
Qed.

Lemma webhook_created t body signalId commandId now srv :
  t <= now ->
  getCommandById commandId (storage srv) = None ->
  createdUpTo t (storage srv) ->
  createdUpTo now (storage (fst (webhook body signalId commandId now srv))).
Proof.
  intros Hle Hfresh Hc.
  pose proof (createdUpTo_later t now _ Hle Hc) as N.
  unfold webhook.
  destruct (String.eqb (body_symbol body) "UNKNOWN"); [exact N|].
  destruct (normalizeType (body_signalType body)); [|exact N]. cbv zeta.
  destruct (isDuplicate _ _ _); [exact N|].
  destruct (createSignal _ signalId now (storage srv)) as [st1 sg] eqn:C.
  destruct (getSettings st1) as [st2 s] eqn:GS.
  destruct (webhook_stored_signal _ _ _ _ _ _ _ _ C GS)
    as (_ & _ & _ & _ & _ & _ & _ & _ & _ & C2 & _).
  assert (U : forall id status e u,
             createdUpTo u (storage srv) ->
             createdUpTo u (updateSignalStatus id status e st2)).
  { intros id status e u Hu. eapply createdUpTo_frame; [|exact Hu].
    rewrite (proj1 (updateSignalStatus_frame _ _ _ _)). exact C2. }
  destruct (String.eqb (set_autoTrade s) "true"); [|cbn; auto].
  destruct (negb (isMt5Connected now s)); [cbn; auto|].
  destruct (negb (isValidSymbol (sig_symbol sg))); [cbn; auto|].
  unfold enqueueIfAbsent.
  destruct (find _ _); [cbn; auto|].
  set (st3 := updateSignalStatus (sig_id sg) sig_pending None st2).
  assert (F3 : getCommandById commandId st3 = None).
  { unfold getCommandById, st3.
    rewrite (proj1 (updateSignalStatus_frame _ _ _ _)), C2. exact Hfresh. }
  pose proof (createdUpTo_enqueue t
                (tradeCommandFor sg
                   (if (truthy (sig_stopLoss sg)
                        && truthy (sig_takeProfit sg))%bool
                    then sig_stopLoss sg else None)
                   (if (truthy (sig_stopLoss sg)
                        && truthy (sig_takeProfit sg))%bool
                    then sig_takeProfit sg else None))
                commandId now st3 Hle F3 (U _ _ _ _ Hc)) as C4.
  destruct (enqueueCommand _ commandId now st3) as [st4 c]. cbn [fst] in C4.
  unfold sendCommandToMT5. cbv zeta.
  destruct (negb _); cbn [fst storage with_storage]; auto.
  eapply createdUpTo_same; [apply created_markSent|exact C4].
Qed.

Lemma onReport_created t report resultId tradeId now st :
  createdUpTo t st ->
  createdUpTo t (fst (onReport report resultId tradeId now st)).
Proof.
  intros Hc.
  assert (C0 : createdUpTo t (updateMt5Heartbeat now st)).
  { eapply createdUpTo_frame; [|exact Hc]. apply updateMt5Heartbeat_frame. }
  unfold onReport. cbv zeta.
  destruct (match rep_type report with
            | Some ty => String.eqb ty "HEARTBEAT"
            | None => false
            end); [exact C0|].
  destruct (negb (truthy (rep_commandId report))); [exact C0|].
  destruct (getCommandById _ _) as [c|]; [|exact C0].
  unfold createExecutionResult. cbv zeta. cbn [fst].
  set (st1 := with_results _ _).
  assert (C2 : createdUpTo t (markCommandAsAcknowledged
                                (orElse (rep_commandId report) ""%string)
                                now st1)).
  { eapply createdUpTo_same; [apply created_markAcknowledged|].
    eapply createdUpTo_frame; [|exact C0]. reflexivity. }
  destruct (truthy (cmd_signalId c)); auto.
  destruct (rep_success report && truthy (rep_orderId report))%bool.
  - destruct (getSignalById _ _) as [sg|]; [destruct (cmd_action c)|];
      unfold createTrade; cbn [fst];
      (eapply createdUpTo_frame; [|exact C2]);
      cbn [mt5Commands with_trades]; apply updateSignalStatus_frame.
  - eapply createdUpTo_frame; [|exact C2]. apply updateSignalStatus_frame.
Qed.

(** One event: the queue stays ordered, up to the clock reading of the
    event when it has one. *)
Lemma handle_created t srv e :
  createdUpTo t (storage srv) ->
  Forall (fun now => t <= now) (clockReadings [e]) ->
  freshCommandIds srv e ->
  createdUpTo (last (clockReadings [e]) t) (storage (handle srv e)).
Proof.
  intros Hc Ht Hf.
  destruct e as [body sid cid now|request ws uuid now|report rid tid now
                |[now|]|now|ws| |ins id|ins id now|id];
    cbn [handle clockReadings flat_map app last] in *;
    try (inversion Ht as [|? ? Hle _]; subst).
  - now apply (webhook_created t).
  - unfold onUpgrade. cbv zeta.
    pose proof (createdUpTo_later t now _ Hle Hc) as N.
    destruct (String.eqb (up_pathname request) "/ws"); [exact N|].
    destruct (String.eqb (up_pathname request) "/mt5-ws"); [|exact N].
    pose proof (getSettings_frame (storage srv)) as F.
    destruct (getSettings (storage srv)) as [st1 s]. cbn [fst snd] in F.
    destruct F as (_ & _ & Fc & _).
    destruct (_ && _)%bool; cbn [fst storage with_storage].
    + eapply createdUpTo_frame; eauto.
    + destruct Hf as [Hfresh Hinj].
      apply (onConnection_created t); auto; cbn [storage with_storage].
      * intros i. unfold getCommandById. rewrite Fc. apply Hfresh.
      * eapply createdUpTo_frame; eauto.
  - cbn [storage with_storage]. apply (createdUpTo_later t); auto.
    now apply onReport_created.
  - cbn [storage with_storage]. apply (createdUpTo_later t); auto.
    eapply createdUpTo_frame; [|exact Hc]. apply updateMt5Heartbeat_frame.
  - exact Hc.
  - cbn [storage with_storage]. apply (createdUpTo_later t); auto.
    eapply createdUpTo_frame; [|exact Hc]. apply updateMt5Heartbeat_frame.
  - exact Hc.
  - cbn [storage with_storage].
    eapply createdUpTo_frame; [|exact Hc]. apply getSettings_frame.
  - exact Hc.
  - apply (createdUpTo_later t); auto.
    destruct (createSymbolMapping ins id now (storage srv)) as [[st m]|] eqn:E;
      auto.
    unfold createSymbolMapping in E.
    destruct (find _ _); [discriminate|]. inversion E; subst. exact Hc.
  - exact Hc.
Qed.

Lemma clockReadings_cons e events :
  clockReadings (e :: events) = clockReadings [e] ++ clockReadings events.
Proof. unfold clockReadings. cbn. now rewrite app_nil_r. Qed.

Lemma readings_one e :
  clockReadings [e] = [] \/ exists now, clockReadings [e] = [now].
Proof.
  destruct e as [? ? ? now|? ? ? now|? ? ? now|[now|]|now|?| |? ?|? ? now|?];
    cbn; eauto.
Qed.

(** As long as the clock does not run backwards and the identifiers drawn
    are new, the queue of the running process lists its commands by
    creation time. *)
Lemma run_created events : forall t srv,
  createdUpTo t (storage srv) ->
  Forall (fun now => t <= now) (clockReadings events) ->
  StronglySorted Z.le (clockReadings events) ->
  freshRun srv events ->
  createdAscending (mt5Commands (storage (fold_left handle events srv))).
Proof.
  induction events as [|e l IH]; intros t srv Hc Ht Hs Hr; cbn.
  - apply Hc.
  - destruct Hr as [Hf Hr]. rewrite clockReadings_cons in Ht, Hs.
    apply Forall_app in Ht. destruct Ht as [Ht1 Ht2].
    pose proof (handle_created t srv e Hc Ht1 Hf) as H1.
    apply (IH (last (clockReadings [e]) t) (handle srv e)); auto.
    + destruct (readings_one e) as [E|[now E]]; rewrite E in *; cbn in *.
      * exact Ht2.
      * inversion Hs; subst. assumption.
    + destruct (readings_one e) as [E|[now E]]; rewrite E in *; cbn in *.
      * exact Hs.
      * now inversion Hs.
Qed.

Lemma run_wf events : wf_commands (mt5Commands (storage (run events))).
Proof.
  assert (G : forall l srv,
             queueInv (storage srv) /\ channelInv srv ->
             queueInv (storage (fold_left handle l srv))).
  { induction l as [|e l IH]; intros srv H; cbn; [apply H|].
    apply IH. now apply handle_inv. }
  apply (G events freshServer).
  split; [split|]; [exact newStorage_wf|constructor|constructor].
Qed.

(** C5.  The replay pass of the connection handler, for the process after
    any sequence of events and a socket [ws] that connects at time [now].
    The pass sends the messages of the commands that are ['pending'] at
    connect time, one after the other in the order of the queue, each to
    every open socket (so exactly that list when the new socket is the only
    open one); a message carries the command's id, action, symbol, type,
    the three numbers and the position.  A command that is ['sent'] at
    connect time is not among them, and every replayed command is ['sent']
    afterwards.  The connection handler sends nothing before these
    messages.  The order of the queue is ascending creation time as long
    as the clock has not run backwards and the identifiers drawn were
    new. *)
Theorem C5_replay_pending_in_order events ws uuid now :
  let srv := run events in
  let pendingAtConnect :=
    filter isPending (JsMap.values (mt5Commands (storage srv))) in
  let srv' := replayPending now (acceptSocket ws now srv) in
  let message (c : Mt5Command) :=
    {| wire_id := cmd_id c;
       wire_action := cmd_action c;
       wire_symbol := cmd_symbol c;
       wire_type := cmd_type c;
       wire_volume := if truthy (cmd_volume c) then cmd_volume c else None;
       wire_stopLoss :=
         if truthy (cmd_stopLoss c) then cmd_stopLoss c else None;
       wire_takeProfit :=
         if truthy (cmd_takeProfit c) then cmd_takeProfit c else None;
       wire_positionId := cmd_positionId c |} in
  outbox srv'
  = outbox srv
    ++ flat_map (fun c => map (fun client => (ws_id client, message c))
                            (filter ws_open (mt5WsClients srv ++ [ws])))
         pendingAtConnect
  /\ (filter ws_open (mt5WsClients srv) = [] -> ws_open ws = true ->
      outbox srv'
      = outbox srv ++ map (fun c => (ws_id ws, message c)) pendingAtConnect)
  /\ (exists later,
        outbox (onConnection ws uuid now srv) = outbox srv' ++ later)
  /\ (forall c, In c (JsMap.values (mt5Commands (storage srv))) ->
        cmd_status c = cmd_sent ->
        ~ In (cmd_id c) (map cmd_id pendingAtConnect))
  /\ (forall c, In c pendingAtConnect ->
        exists c', getCommandById (cmd_id c) (storage srv') = Some c'
                /\ cmd_status c' = cmd_sent)
  /\ (freshRun freshServer events -> clockMonotone events ->
      StronglySorted Z.le (map cmd_createdAt pendingAtConnect)).
Proof.
  intros srv pendingAtConnect srv' message.
  pose proof (run_wf events) as Hwf. fold srv in Hwf.
  set (srv0 := acceptSocket ws now srv).
  assert (E0 : mt5Commands (storage srv0) = mt5Commands (storage srv)).
  { unfold srv0. cbn. apply updateMt5Heartbeat_frame. }
  assert (HL : commandsToResend (storage srv0) = pendingAtConnect).
  { unfold commandsToResend, getPendingCommands. rewrite E0.
    apply filter_pending_nonTerminal. }
  destruct (replay_channel now pendingAtConnect srv0) as [_ Hout].
  assert (E : srv' = fold_left (resendCommand now) pendingAtConnect srv0).
  { unfold srv', replayPending. fold srv0. now rewrite HL. }
  assert (Hmsg : forall clients l,
             flat_map (sendsOf clients true) l
             = flat_map (fun c => map (fun client => (ws_id client, message c))
                                     (filter ws_open clients)) l).
  { intros clients l. induction l as [|c l IH]; cbn; auto. }
  split; [|split; [|split; [|split; [|split]]]].
  - rewrite E, Hout, Hmsg. reflexivity.
  - intros Hnone Hopen. rewrite E, Hout, Hmsg. unfold srv0.
    cbn [outbox mt5WsClients acceptSocket]. f_equal.
    rewrite filter_app, Hnone. cbn [filter app]. rewrite Hopen.
    generalize pendingAtConnect. intros l.
    induction l as [|c l IH]; cbn; auto; now rewrite IH.
  - apply onConnection_outbox.
  - intros c Hin Hs Hmem. apply in_map_iff in Hmem.
    destruct Hmem as [c' [Hid Hc']]. apply filter_In in Hc'.
    destruct Hc' as [Hin' Hp].
    pose proof (wf_values_get _ _ Hwf Hin) as G.
    pose proof (wf_values_get _ _ Hwf Hin') as G'.
    rewrite Hid in G'. assert (c' = c) by congruence. subst c'.
    unfold isPending in Hp. rewrite Hs in Hp. discriminate.
  - intros c Hc. rewrite E.
    assert (Hin : In c (JsMap.values (mt5Commands (storage srv)))).
    { apply filter_In in Hc. tauto. }
    apply (replay_marks_sent now pendingAtConnect srv0 (cmd_id c) c).
    + unfold getCommandById. rewrite E0. exact (wf_values_get _ _ Hwf Hin).
    + right. now apply in_map.
  - intros Hfresh Hclock. apply StronglySorted_filter_map.
    assert (T : exists t, Forall (fun x => t <= x) (clockReadings events)).
    { unfold clockMonotone in Hclock.
      destruct (clockReadings events) as [|x l]; [exists 0; constructor|].
      exists x. inversion Hclock; subst. constructor; [lia|assumption]. }
    destruct T as [t Ht].
    apply (run_created events t freshServer); auto.
    split; cbn; constructor.
Qed.

Lemma nthId_injective prefix i j : nthId prefix i = nthId prefix j -> i = j.
Proof.
  unfold nthId. intros H.
  assert (L : forall s n,
             String.length (s ++ string_of_list_ascii (repeat "x"%char n))
             = (String.length s + n)%nat).
  { intros s n. induction s as [|c s IH]; cbn.
    - induction n as [|n IHn]; cbn; auto.
    - now rewrite IH. }
  apply (f_equal String.length) in H. rewrite !L in H. lia.
Qed.

Lemma C5_replay_pending_in_order_witness :
  outbox (replayPending 300 (acceptSocket agentSocket 300 (run offlineAlerts)))
  = [(1%nat,
      mkWire "c1" TRADE (Some "EURUSD"%string) (Some BUY) (Some "0.01"%string)
        (Some "1.08500"%string) (Some "1.08800"%string) None);
     (1%nat,
      mkWire "c2" TRADE (Some "GBPUSD"%string) (Some SELL)
        (Some "0.01"%string) None None None)]
  /\ StronglySorted Z.le
       (map cmd_createdAt
          (filter isPending
             (JsMap.values (mt5Commands (storage (run offlineAlerts)))))).
Proof.
  pose proof (C5_replay_pending_in_order offlineAlerts agentSocket sampleUuid
                300) as H.
  cbv zeta in H. destruct H as (_ & H2 & _ & _ & _ & H6). split.
  - rewrite (H2 eq_refl eq_refl). reflexivity.
  - apply H6.
    + unfold offlineAlerts. cbn [freshRun freshCommandIds].
      split; [split; [intros i; reflexivity|exact (nthId_injective "k")]|].
      split; [exact I|]. split; [reflexivity|]. split; [reflexivity|exact I].
    + unfold clockMonotone. cbn. repeat constructor; lia.
Defined.

(* ================================================================== *)
(** * Further properties of the execution agent                        *)
(* ================================================================== *)

Local Open Scope Q_scope.

Section AgentCommandFacts.

Variable inp : Inputs.
Variable DoubleToString : Q -> Z -> string.
Variable StringToDouble : string -> Q.
Variable IntegerToString : Z -> string.
Variable StringToInteger : string -> Z.
Variable GetJsonValue : string -> string -> string.
Variable OrderSend : Terminal -> MqlTradeRequest -> Terminal * OrderReply.

Lemma orderSend_reports request a :
  reports (fst (orderSend OrderSend request a)) = reports a
  /\ partialExitedPositions (fst (orderSend OrderSend request a))
     = partialExitedPositions a
  /\ brokerFillingMode (fst (orderSend OrderSend request a))
     = brokerFillingMode a.
Proof.
  unfold orderSend. destruct (OrderSend (terminal a) request). auto.
Qed.

Lemma closeOpposite_reports symbol tradeType a i :
  reports (closeOpposite OrderSend symbol tradeType a i) = reports a.
Proof.
  unfold closeOpposite.
  destruct (0 <? PositionGetTicket i (terminal a))%Z; auto.
  destruct (PositionSelectByTicket _ _) as [p|]; auto.
  destruct (String.eqb (pos_symbol p) symbol); auto.
  match goal with
  | |- context [if ?b then _ else _] => destruct b
  end; auto.
  apply orderSend_reports.
Qed.

Lemma CloseOppositePositions_reports symbol tradeType a :
  reports (CloseOppositePositions OrderSend symbol tradeType a) = reports a.
Proof.
  unfold CloseOppositePositions.
  generalize (rev (seq 0 (PositionsTotal (terminal a)))). intros l.
  revert a. induction l as [|i l IH]; intros a; simpl; auto.
  now rewrite IH, closeOpposite_reports.
Qed.

(** The report of one run of [ExecuteTrade]: one for a run that finishes,
    none for a run stopped by a zero divide. *)
Lemma report_of_ExecuteTrade commandId cmd a :
  match ExecuteTrade inp DoubleToString IntegerToString OrderSend
          commandId cmd a with
  | Finished a' =>
      exists r, reports a' = reports a ++ [r] /\ er_commandId r = commandId
  | Crashed a' => reports a' = reports a
  end.
Proof.
  unfold ExecuteTrade. cbv zeta.
  assert (F : forall success orderId error b,
             reports b = reports a ->
             exists r,
               reports (SendReport commandId success orderId orderId error b)
               = reports a ++ [r]
               /\ er_commandId r = commandId).
  { intros success orderId error b Hb. eexists. cbn. rewrite Hb.
    split; reflexivity. }
  destruct (_ || _)%bool; [now apply F|].
  destruct (negb (EnsureSymbolReady _)); [now apply F|].
  set (b := if Hedging inp then _ else a).
  assert (Hb : reports b = reports a).
  { unfold b. destruct (Hedging inp); auto.
    apply CloseOppositePositions_reports. }
  clearbody b.
  destruct (Pyramiding inp <=? _)%Z; [now apply F|].
  destruct (normalizeIfSet _ (tj_stopLoss cmd)); [|exact Hb].
  destruct (normalizeIfSet _ (tj_takeProfit cmd)); [|exact Hb].
  destruct (lotSize _ _ _ _ _ _); [|exact Hb].
  destruct (Qle_bool _ 0); [now apply F|].
  destruct (validateLevels _ _ _ _); [now apply F|].
  destruct (divide _ _); [|exact Hb].
  match goal with
  | |- context [orderSend OrderSend ?rq b] =>
      pose proof (orderSend_reports rq b) as (Hr & _);
      destruct (orderSend OrderSend rq b) as [b1 reply]
  end.
  cbn [fst] in Hr. rewrite Hb in Hr.
  destruct (negb (reply_ok reply)); [now apply F|].
  destruct (negb (_ =? _)%Z); now apply F.
Qed.

(** X19.  [ExecuteTrade] answers every command exactly once: a run that
    finishes appends one report, for the command's identifier, and a run
    stopped by a zero divide appends none.  A success report has no error
    text and names the order as both order and position; it is sent only
    after an opening request (no ticket, [TRADE_ACTION_DEAL], positive
    volume) was the last request given to [OrderSend].  A failure report
    names neither order nor position. *)
Theorem ExecuteTrade_reports_once commandId cmd a :
  match ExecuteTrade inp DoubleToString IntegerToString OrderSend
          commandId cmd a with
  | Finished a' =>
      exists r,
        reports a' = reports a ++ [r]
        /\ er_commandId r = commandId
        /\ (er_success r = true ->
            er_error r = ""%string
            /\ er_orderId r = er_positionId r
            /\ exists earlier opening,
                 requests a' = earlier ++ [opening]
                 /\ req_action opening = TRADE_ACTION_DEAL
                 /\ req_position opening = 0%Z
                 /\ 0 < req_volume opening)
        /\ (er_success r = false ->
            er_orderId r = ""%string /\ er_positionId r = ""%string)
  | Crashed a' => reports a' = reports a
  end.
Proof.
  unfold ExecuteTrade. cbv zeta.
  assert (F : forall error b,
             reports b = reports a ->
             exists r,
               reports (SendReport commandId false "" "" error b)
               = reports a ++ [r]
               /\ er_commandId r = commandId
               /\ (er_success r = true ->
                   er_error r = ""%string
                   /\ er_orderId r = er_positionId r
                   /\ exists earlier opening,
                        requests (SendReport commandId false "" "" error b)
                        = earlier ++ [opening]
                        /\ req_action opening = TRADE_ACTION_DEAL
                        /\ req_position opening = 0%Z
                        /\ 0 < req_volume opening)
               /\ (er_success r = false ->
                   er_orderId r = ""%string /\ er_positionId r = ""%string)).
  { intros error b Hb. eexists. cbn. rewrite Hb. split; [reflexivity|].
    cbn. repeat split; auto; discriminate. }
  destruct (_ || _)%bool; [now apply F|].
  destruct (negb (EnsureSymbolReady _)); [now apply F|].
  set (b := if Hedging inp then _ else a).
  assert (Hb : reports b = reports a).
  { unfold b. destruct (Hedging inp); auto.
    apply CloseOppositePositions_reports. }
  clearbody b.
  destruct (Pyramiding inp <=? _)%Z; [now apply F|].
  destruct (normalizeIfSet _ (tj_stopLoss cmd)) as [stopLoss|]; [|exact Hb].
  destruct (normalizeIfSet _ (tj_takeProfit cmd)) as [takeProfit|];
    [|exact Hb].
  destruct (lotSize _ _ _ _ _ _) as [volume|]; [|exact Hb].
  destruct (Qle_bool (NormalizeVolume _ volume) 0) eqn:Hv; [now apply F|].
  destruct (validateLevels _ _ _ _) as [error|]; [now apply F|].
  destruct (divide _ _) as [slippagePoints|]; [|exact Hb].
  match goal with
  | |- context [orderSend OrderSend ?rq b] =>
      pose proof (orderSend_reports rq b) as (Hr & _);
      pose proof (orderSend_requests OrderSend rq b) as Hq;
      destruct (orderSend OrderSend rq b) as [b1 reply]
  end.
  cbn [fst] in Hr, Hq. rewrite Hb in Hr.
  destruct (negb (reply_ok reply)); [now apply F|].
  destruct (negb (_ =? _)%Z); [now apply F|].
  eexists. cbn. rewrite Hr. split; [reflexivity|].
  cbn. split; [reflexivity|]. split; [|discriminate].
  intros _. split; [reflexivity|]. split; [reflexivity|].
  do 2 eexists. split; [exact Hq|]. cbn. repeat split.
  apply Qnot_le_lt. intros Hle. apply Qle_bool_iff in Hle. congruence.
Qed.

(** ** Lot sizes *)

(** X20.  [NormalizeVolume] returns the symbol's smallest lot, its largest
    lot, or the product, as a double, of the lot step (0.01 when the step
    is 0) and a whole number nearest to the quotient of the volume and the
    step; and when the smallest lot is not above the largest, the result
    lies between them, whatever the volume. *)
Theorem NormalizeVolume_within_limits info volume :
  sym_volumeMin info <= sym_volumeMax info ->
  sym_volumeMin info <= NormalizeVolume info volume
  /\ NormalizeVolume info volume <= sym_volumeMax info
  /\ (NormalizeVolume info volume = sym_volumeMin info
      \/ NormalizeVolume info volume = sym_volumeMax info
      \/ exists n : Z,
           NormalizeVolume info volume
           = dmul (inject_Z n)
               (if Qeq_bool (sym_volumeStep info) 0 then roundToDouble (1 # 100)
                else sym_volumeStep info)
           /\ nearestInteger n
                (ddiv volume
                   (if Qeq_bool (sym_volumeStep info) 0
                    then roundToDouble (1 # 100)
                    else sym_volumeStep info))).
Proof.
  intros Hmm.
  destruct (NormalizeVolume_clamped info volume Hmm) as [H1 H2].
  split; [exact H1|]. split; [exact H2|].
  destruct (NormalizeVolume_rounded info volume) as [H|[H|(n & Hn & H)]];
    auto.
  right. right. exists n. split; [exact H|exact Hn].
Qed.

(** ** The opening request *)

(** X21.  After the closes of the hedging loop [ExecuteTrade] gives
    [OrderSend] at most one further request.  That request is for the
    command's symbol in the command's direction at the current ask (BUY) or
    bid, and its volume is sized by the agent alone: it is positive, it
    lies within the symbol's lot limits when these are ordered, and it does
    not depend on the volume that the server put into the command. *)
Theorem ExecuteTrade_opening_request commandId cmd a :
  let b := if Hedging inp
           then CloseOppositePositions OrderSend (tj_symbol cmd) (tj_type cmd) a
           else a in
  let info := symbolInfo (terminal b) (tj_symbol cmd) in
  (exists closes opening,
     requests (agentOf (ExecuteTrade inp DoubleToString IntegerToString
                          OrderSend commandId cmd a))
     = requests a ++ closes ++ opening
     /\ Forall closesTicket closes
     /\ (List.length opening <= 1)%nat
     /\ Forall (fun r =>
                  req_symbol r = tj_symbol cmd
                  /\ req_position r = 0%Z
                  /\ req_type r = (if String.eqb (tj_type cmd) "BUY"
                                   then ORDER_TYPE_BUY else ORDER_TYPE_SELL)
                  /\ req_price r = (if String.eqb (tj_type cmd) "BUY"
                                    then sym_ask info else sym_bid info)
                  /\ 0 < req_volume r
                  /\ (sym_volumeMin info <= sym_volumeMax info ->
                      sym_volumeMin info <= req_volume r
                      /\ req_volume r <= sym_volumeMax info))
               opening)
  /\ forall serverVolume,
       ExecuteTrade inp DoubleToString IntegerToString OrderSend commandId
         (mkTradeJson (tj_symbol cmd) (tj_type cmd) serverVolume
            (tj_stopLoss cmd) (tj_takeProfit cmd)) a
       = ExecuteTrade inp DoubleToString IntegerToString OrderSend commandId
           cmd a.
Proof.
  intros b info. split; [|intros; destruct cmd; reflexivity].
  unfold ExecuteTrade. cbv zeta. fold b. fold info.
  destruct (_ || _)%bool.
  { exists [], []. rewrite !app_nil_r. repeat split; auto. }
  destruct (negb (EnsureSymbolReady _)).
  { exists [], []. rewrite !app_nil_r. repeat split; auto. }
  assert (Hb : exists closes, requests b = requests a ++ closes
                              /\ Forall closesTicket closes).
  { unfold b. destruct (Hedging inp).
    - apply CloseOppositePositions_requests.
    - exists []. rewrite app_nil_r. auto. }
  destruct Hb as (closes & Hb & Hc).
  assert (N : forall x, requests x = requests b ->
                exists closes0 opening : list MqlTradeRequest,
                  requests x = requests a ++ closes0 ++ opening
                  /\ Forall closesTicket closes0
                  /\ (List.length opening <= 1)%nat
                  /\ Forall (fun r =>
                       req_symbol r = tj_symbol cmd
                       /\ req_position r = 0%Z
                       /\ req_type r = (if String.eqb (tj_type cmd) "BUY"
                                        then ORDER_TYPE_BUY
                                        else ORDER_TYPE_SELL)
                       /\ req_price r = (if String.eqb (tj_type cmd) "BUY"
                                         then sym_ask info else sym_bid info)
                       /\ 0 < req_volume r
                       /\ (sym_volumeMin info <= sym_volumeMax info ->
                           sym_volumeMin info <= req_volume r
                           /\ req_volume r <= sym_volumeMax info))
                     opening).
  { intros x Hx. exists closes, []. rewrite app_nil_r, Hx.
    repeat split; auto. }
  clearbody b.
  destruct (Pyramiding inp <=? _)%Z; [now apply N|].
  destruct (normalizeIfSet _ (tj_stopLoss cmd)) as [stopLoss|];
    [|now apply N].
  destruct (normalizeIfSet _ (tj_takeProfit cmd)) as [takeProfit|];
    [|now apply N].
  destruct (lotSize _ _ _ _ _ _) as [volume|]; [|now apply N].
  destruct (Qle_bool (NormalizeVolume _ volume) 0) eqn:Hv; [now apply N|].
  destruct (validateLevels _ _ _ _) as [error|]; [now apply N|].
  destruct (divide _ _) as [slippagePoints|]; [|now apply N].
  match goal with
  | |- context [orderSend OrderSend ?rq b] =>
      pose proof (orderSend_requests OrderSend rq b) as Hq;
      set (opening := rq) in *;
      destruct (orderSend OrderSend opening b) as [b1 reply]
  end.
  cbn [fst] in Hq.
  assert (R : requests b1 = requests a ++ closes ++ [opening])
    by now rewrite Hq, Hb, app_assoc.
  exists closes, [opening].
  assert (P : req_symbol opening = tj_symbol cmd
              /\ req_position opening = 0%Z
              /\ req_type opening = (if String.eqb (tj_type cmd) "BUY"
                                     then ORDER_TYPE_BUY else ORDER_TYPE_SELL)
              /\ req_price opening = (if String.eqb (tj_type cmd) "BUY"
                                      then sym_ask info else sym_bid info)
              /\ 0 < req_volume opening
              /\ (sym_volumeMin info <= sym_volumeMax info ->
                  sym_volumeMin info <= req_volume opening
                  /\ req_volume opening <= sym_volumeMax info)).
  { unfold opening. cbn. repeat split; auto.
    - apply Qnot_le_lt. intros Hle. apply Qle_bool_iff in Hle. congruence.
    - now apply NormalizeVolume_clamped.
    - now apply NormalizeVolume_clamped. }
  destruct (negb (reply_ok reply)); [|destruct (negb (_ =? _)%Z)];
    cbn [agentOf SendReport requests]; rewrite R;
    repeat split; auto; apply P.
Qed.

(** ** The pyramiding limit *)

Lemma select_nth (L : list Position) : forall i p,
  NoDup (map pos_ticket L) -> nth_error L i = Some p ->
  find (fun q => Z.eqb (pos_ticket q) (pos_ticket p)) L = Some p.
Proof.
  induction L as [|x L IH]; intros [|i] p Hnd Hn; try discriminate.
  - cbn in Hn. inversion Hn; subst. cbn. now rewrite Z.eqb_refl.
  - cbn in Hn. inversion Hnd as [|? ? Hnin Hnd']; subst. cbn.
    destruct (Z.eqb (pos_ticket x) (pos_ticket p)) eqn:E.
    + exfalso. apply Hnin. apply Z.eqb_eq in E. rewrite E.
      apply in_map. eapply nth_error_In; eauto.
    + now apply (IH i).
Qed.

Lemma count_from symbol t : forall L' prefix c,
  positions t = prefix ++ L' ->
  NoDup (map pos_ticket (positions t)) ->
  Forall (fun p => (0 < pos_ticket p)%Z) (positions t) ->
  fold_left
    (fun count i =>
       let ticket := PositionGetTicket i t in
       if (0 <? ticket)%Z then
         match PositionSelectByTicket ticket t with
         | Some p =>
             if String.eqb (pos_symbol p) symbol then (count + 1)%Z else count
         | None => count
         end
       else count)
    (seq (List.length prefix) (List.length L')) c
  = (c + Z.of_nat
           (List.length
              (filter (fun p => String.eqb (pos_symbol p) symbol) L')))%Z.
Proof.
  induction L' as [|x L' IH]; intros prefix c E Hnd Hpos.
  - cbn. lia.
  - cbn [List.length seq fold_left].
    assert (Hx : nth_error (positions t) (List.length prefix) = Some x).
    { rewrite E, nth_error_app2 by lia. now rewrite Nat.sub_diag. }
    assert (Tx : PositionGetTicket (List.length prefix) t = pos_ticket x)
      by (unfold PositionGetTicket; now rewrite Hx).
    rewrite Tx.
    assert (Px : (0 < pos_ticket x)%Z).
    { rewrite Forall_forall in Hpos. apply Hpos.
      eapply nth_error_In; eauto. }
    apply Z.ltb_lt in Px. rewrite Px.
    assert (Sx : PositionSelectByTicket (pos_ticket x) t = Some x)
      by (unfold PositionSelectByTicket; exact (select_nth _ _ _ Hnd Hx)).
    rewrite Sx.
    specialize (IH (prefix ++ [x])).
    rewrite length_app in IH. cbn [List.length] in IH.
    rewrite Nat.add_1_r in IH. rewrite IH; auto.
    + cbn [filter]. destruct (String.eqb (pos_symbol x) symbol);
        cbn [List.length]; lia.
    + now rewrite <- app_assoc.
Qed.

Lemma CountPositionsForSymbol_count symbol t :
  NoDup (map pos_ticket (positions t)) ->
  Forall (fun p => (0 < pos_ticket p)%Z) (positions t) ->
  CountPositionsForSymbol symbol t
  = Z.of_nat
      (List.length
         (filter (fun p => String.eqb (pos_symbol p) symbol) (positions t))).
Proof.
  intros Hnd Hpos.
  exact (count_from symbol t (positions t) [] 0%Z eq_refl Hnd Hpos).
Qed.

(** X22.  With hedging off, on a terminal whose positions have distinct
    positive tickets: when the command's symbol already has [Pyramiding]
    or more open positions, [ExecuteTrade] gives nothing to [OrderSend]
    and answers with the one failure report "Max positions reached". *)
Theorem ExecuteTrade_pyramiding_limit commandId cmd a :
  Hedging inp = false ->
  tj_symbol cmd <> ""%string -> tj_type cmd <> ""%string ->
  EnsureSymbolReady (symbolInfo (terminal a) (tj_symbol cmd)) = true ->
  NoDup (map pos_ticket (positions (terminal a))) ->
  Forall (fun p => (0 < pos_ticket p)%Z) (positions (terminal a)) ->
  (Pyramiding inp
   <= Z.of_nat
        (List.length
           (filter (fun p => String.eqb (pos_symbol p) (tj_symbol cmd))
              (positions (terminal a)))))%Z ->
  ExecuteTrade inp DoubleToString IntegerToString OrderSend commandId cmd a
  = Finished
      (SendReport commandId false "" ""
         ("Max positions reached for " ++ tj_symbol cmd ++ " (limit: "
          ++ IntegerToString (Pyramiding inp) ++ ")")%string a).
Proof.
  intros Hh Hs Ht Hr Hnd Hpos Hlim. unfold ExecuteTrade. cbv zeta.
  apply String.eqb_neq in Hs, Ht. rewrite Hs, Ht, Hr, Hh. cbn [orb negb].
  rewrite (CountPositionsForSymbol_count _ _ Hnd Hpos).
  apply Z.leb_le in Hlim. now rewrite Hlim.
Qed.

(** ** The first target in the position comment *)

Lemma length_append p s :
  String.length (p ++ s) = (String.length p + String.length s)%nat.
Proof. induction p as [|c p IH]; cbn; auto. Qed.

Lemma substring_all s : String.substring 0 (String.length s) s = s.
Proof. induction s as [|c s IH]; cbn; auto. now rewrite IH. Qed.

Lemma StringSubstr_app p s :
  StringSubstr (p ++ s) (Z.of_nat (String.length p)) = s.
Proof.
  unfold StringSubstr. rewrite Nat2Z.id, length_append.
  replace (String.length p + String.length s - String.length p)%nat
    with (String.length s) by lia.
  induction p as [|c p IH]; cbn [append String.length String.substring].
  - apply substring_all.
  - exact IH.
Qed.

(** X23.  The comment that [ExecuteTrade] writes into the opening request
    is read back by [GetTP1FromComment]: with a positive target the value
    read is the target as printed with five decimals, and without a target
    the comment has no marker and the value read is 0, which
    [ManagePartialExits] takes as "no first target". *)
Theorem TP1_comment_round_trip symbol type volume currentPrice stopLoss
  takeProfit deviation filling :
  GetTP1FromComment StringToDouble
    (req_comment (openRequest DoubleToString symbol type volume currentPrice
                    stopLoss takeProfit deviation filling))
  = if Qlt_bool 0 takeProfit
    then StringToDouble (DoubleToString takeProfit 5)
    else 0.
Proof.
  unfold openRequest, tpComment. cbn [req_comment].
  destruct (Qlt_bool 0 takeProfit); [|reflexivity].
  unfold GetTP1FromComment.
  assert (F : StringFind
                ("TradingView" ++ "|TP1:" ++ DoubleToString takeProfit 5)
                "|TP1:" = 11%Z)
    by (destruct (DoubleToString takeProfit 5); reflexivity).
  rewrite F. cbn [Z.ltb Z.compare].
  exact (f_equal StringToDouble
           (StringSubstr_app "TradingView|TP1:"
              (DoubleToString takeProfit 5))).
Qed.

(** ** The pass over the open positions *)

Lemma afterPartialClose_effect p tp1Price a :
  (0 < pos_ticket p)%Z ->
  let a' := agentOf (afterPartialClose inp OrderSend p tp1Price a) in
  (exists sent, requests a' = requests a ++ sent /\ Forall stagedRequest sent)
  /\ reports a' = reports a
  /\ partialExitedPositions a' = partialExitedPositions a ++ [pos_ticket p].
Proof.
  intros Hp. unfold afterPartialClose. cbv zeta.
  set (a1 := markPartialExited (pos_ticket p) a).
  assert (N : (exists sent, requests a1 = requests a ++ sent
                            /\ Forall stagedRequest sent)
              /\ reports a1 = reports a
              /\ partialExitedPositions a1
                 = partialExitedPositions a ++ [pos_ticket p]).
  { split; [exists []; rewrite app_nil_r; auto|]. split; reflexivity. }
  destruct (PositionSelectByTicket _ _); [|exact N].
  destruct (secondTarget _ _ _ _) as [newTP|]; [|exact N].
  destruct (NormalizePrice _ _) as [newSL|]; [|exact N].
  match goal with
  | |- context [orderSend OrderSend ?rq a1] =>
      pose proof (orderSend_reports rq a1) as (Hr & He & _);
      pose proof (orderSend_requests OrderSend rq a1) as Hq;
      destruct (orderSend OrderSend rq a1) as [a2 reply]
  end.
  cbn [fst] in Hr, He, Hq.
  assert (M : (exists sent, requests a2 = requests a ++ sent
                            /\ Forall stagedRequest sent)
              /\ reports a2 = reports a
              /\ partialExitedPositions a2
                 = partialExitedPositions a ++ [pos_ticket p]).
  { split; [|split; [rewrite Hr|rewrite He]; apply N].
    eexists. split; [exact Hq|]. constructor; [|constructor].
    right. cbn. auto. }
  destruct (_ && _)%bool; exact M.
Qed.

Lemma managePosition_effect a i :
  let a' := agentOf (managePosition inp StringToDouble OrderSend a i) in
  (exists sent, requests a' = requests a ++ sent /\ Forall stagedRequest sent)
  /\ reports a' = reports a
  /\ (exists added,
        partialExitedPositions a' = partialExitedPositions a ++ added)
  /\ (IsPositionTracked (PositionGetTicket i (terminal a))
        (partialExitedPositions a) = true ->
      managePosition inp StringToDouble OrderSend a i = Finished a).
Proof.
  unfold managePosition. cbv zeta.
  assert (N : (exists sent, requests a = requests a ++ sent
                            /\ Forall stagedRequest sent)
              /\ reports a = reports a
              /\ (exists added,
                    partialExitedPositions a
                    = partialExitedPositions a ++ added)).
  { split; [exists []; rewrite app_nil_r; auto|]. split; auto.
    exists []. now rewrite app_nil_r. }
  destruct N as (N1 & N2 & N3).
  destruct (negb (0 <? PositionGetTicket i (terminal a))%Z) eqn:Hpos;
    [cbn; auto|].
  apply negb_false_iff, Z.ltb_lt in Hpos.
  destruct (PositionSelectByTicket _ _) as [p|] eqn:Hsel; [|cbn; auto].
  assert (Hp : pos_ticket p = PositionGetTicket i (terminal a)).
  { apply find_some in Hsel. destruct Hsel as [_ E]. now apply Z.eqb_eq. }
  destruct (IsPositionTracked _ _) eqn:Htr; [cbn; auto|].
  assert (K : forall x : Exec,
            x = Finished a ->
            (exists sent, requests (agentOf x) = requests a ++ sent
                          /\ Forall stagedRequest sent)
            /\ reports (agentOf x) = reports a
            /\ (exists added,
                  partialExitedPositions (agentOf x)
                  = partialExitedPositions a ++ added)
            /\ (false = true -> x = Finished a)).
  { intros x ->. cbn. auto. }
  destruct (exitTrigger _ _ _ _) as [[exitTriggerPips tp1Price]|];
    [|now apply K].
  destruct (_ && _)%bool; [|now apply K].
  set (exitVolume := NormalizeVolume _ _).
  destruct (Qlt_bool 0 exitVolume && _)%bool eqn:Hv; [|now apply K].
  apply andb_true_iff in Hv. destruct Hv as [Hv0 Hv1].
  apply Qlt_bool_true in Hv0.
  match goal with
  | |- context [orderSend OrderSend ?rq a] =>
      pose proof (orderSend_reports rq a) as (Hr & He & _);
      pose proof (orderSend_requests OrderSend rq a) as Hq;
      assert (Sq : stagedRequest rq)
        by (left; cbn; rewrite Hp; auto);
      destruct (orderSend OrderSend rq a) as [a1 reply]
  end.
  cbn [fst] in Hr, He, Hq.
  destruct (_ && _)%bool.
  - destruct (afterPartialClose_effect p tp1Price a1)
      as ((sent & Es & Fs) & Er & Ee); [lia|].
    cbv zeta in Es, Er, Ee. split; [|split; [|split]].
    + eexists. rewrite Es, Hq, <- app_assoc. split; [reflexivity|].
      constructor; auto.
    + congruence.
    + eexists. rewrite Ee, He. reflexivity.
    + discriminate.
  - cbn [agentOf]. split; [|split; [|split]].
    + eexists. split; [exact Hq|]. constructor; auto.
    + exact Hr.
    + exists []. now rewrite app_nil_r.
    + discriminate.
Qed.

(** X24.  A pass of [ManagePartialExits] never sends a report and never
    opens a position: every request it gives to [OrderSend] names a ticket
    and is either a "Partial Exit" deal of positive volume or a
    modification of stop and target; and the list of positions that had
    their partial exit only grows. *)
Theorem ManagePartialExits_requests a :
  let a' := agentOf (ManagePartialExits inp StringToDouble OrderSend a) in
  (exists sent, requests a' = requests a ++ sent /\ Forall stagedRequest sent)
  /\ reports a' = reports a
  /\ exists added,
       partialExitedPositions a' = partialExitedPositions a ++ added.
Proof.
  unfold ManagePartialExits.
  generalize (seq 0 (PositionsTotal (terminal a))). intros l.
  assert (G : forall l e,
             let a' :=
               agentOf
                 (fold_left
                    (fun e i =>
                       match e with
                       | Finished a0 =>
                           managePosition inp StringToDouble OrderSend a0 i
                       | Crashed a0 => Crashed a0
                       end) l e) in
             (exists sent, requests a' = requests (agentOf e) ++ sent
                           /\ Forall stagedRequest sent)
             /\ reports a' = reports (agentOf e)
             /\ exists added,
                  partialExitedPositions a'
                  = partialExitedPositions (agentOf e) ++ added).
  { clear l. induction l as [|i l IH]; intros e; cbn [fold_left].
    - split; [exists []; rewrite app_nil_r; auto|]. split; auto.
      exists []. now rewrite app_nil_r.
    - destruct e as [a0|a0].
      + destruct (IH (managePosition inp StringToDouble OrderSend a0 i))
          as ((s2 & E2 & F2) & R2 & (d2 & D2)).
        destruct (managePosition_effect a0 i)
          as ((s1 & E1 & F1) & R1 & (d1 & D1) & _).
        cbv zeta in *. cbn [agentOf].
        split; [|split].
        * exists (s1 ++ s2). rewrite E2, E1, app_assoc. split; auto.
          apply Forall_app. auto.
        * congruence.
        * exists (d1 ++ d2). now rewrite D2, D1, app_assoc.
      + apply (IH (Crashed a0)). }
  exact (G l (Finished a)).
Qed.

(** X25.  Positions that already had their partial exit are left alone:
    when every open position is in the tracking list, the pass changes
    nothing and gives nothing to [OrderSend], whatever the prices. *)
Theorem ManagePartialExits_tracked a :
  (forall p, In p (positions (terminal a)) ->
             IsPositionTracked (pos_ticket p) (partialExitedPositions a)
             = true) ->
  ManagePartialExits inp StringToDouble OrderSend a = Finished a.
Proof.
  intros H. unfold ManagePartialExits.
  generalize (seq 0 (PositionsTotal (terminal a))). intros l.
  induction l as [|i l IH]; cbn [fold_left]; auto.
  assert (E : managePosition inp StringToDouble OrderSend a i = Finished a).
  { unfold managePosition. cbv zeta.
    destruct (negb (0 <? PositionGetTicket i (terminal a))%Z); auto.
    destruct (PositionSelectByTicket _ _) as [p|] eqn:Hsel; auto.
    apply find_some in Hsel. destruct Hsel as [Hin E].
    apply Z.eqb_eq in E. rewrite <- E, (H p Hin). reflexivity. }
  rewrite E. exact IH.
Qed.

(** ** Closing a position and dispatching commands *)

(** The report of one run of [ClosePosition]. *)
Lemma report_of_ClosePosition commandId commandJson a :
  exists r,
    reports (ClosePosition IntegerToString StringToInteger GetJsonValue
               OrderSend commandId commandJson a)
    = reports a ++ [r]
    /\ er_commandId r = commandId.
Proof.
  unfold ClosePosition. cbv zeta.
  destruct (PositionSelectByTicket _ _) as [p|].
  - match goal with
    | |- context [orderSend OrderSend ?rq a] =>
        pose proof (orderSend_reports rq a) as (Hr & _);
        destruct (orderSend OrderSend rq a) as [a1 reply]
    end.
    cbn [fst] in Hr.
    destruct (negb (reply_ok reply)); eexists; cbn; rewrite Hr;
      split; reflexivity.
  - eexists. cbn. split; reflexivity.
Qed.

(** X26.  [ClosePosition] always answers with exactly one report for the
    command, which never names an order or a position.  Without a position
    under the ticket it sends nothing to [OrderSend] and reports failure;
    otherwise it sends one request that closes the whole volume of that
    position, and reports success exactly when [OrderSend] returned true,
    without looking at the return code of the trade server. *)
Theorem ClosePosition_report commandId commandJson a :
  let a' :=
    ClosePosition IntegerToString StringToInteger GetJsonValue OrderSend
      commandId commandJson a in
  let ticket :=
    toTicket (StringToInteger (GetJsonValue commandJson "positionId")) in
  exists r,
    reports a' = reports a ++ [r]
    /\ er_commandId r = commandId
    /\ er_orderId r = ""%string /\ er_positionId r = ""%string
    /\ match PositionSelectByTicket ticket (terminal a) with
       | None => er_success r = false /\ requests a' = requests a
       | Some p =>
           exists request,
             requests a' = requests a ++ [request]
             /\ req_action request = TRADE_ACTION_DEAL
             /\ req_position request = pos_ticket p
             /\ req_symbol request = pos_symbol p
             /\ req_volume request = pos_volume p
             /\ req_tp request = 0
             /\ er_success r
                = reply_ok (snd (OrderSend (terminal a) request))
       end.
Proof.
  unfold ClosePosition. cbv zeta.
  destruct (PositionSelectByTicket _ _) as [p|] eqn:Hsel.
  - assert (Hp : toTicket (StringToInteger
                             (GetJsonValue commandJson "positionId"))
                 = pos_ticket p).
    { apply find_some in Hsel. destruct Hsel as [_ E].
      apply Z.eqb_eq in E. now rewrite E. }
    match goal with
    | |- context [orderSend OrderSend ?rq a] =>
        pose proof (orderSend_reports rq a) as (Hr & _);
        pose proof (orderSend_requests OrderSend rq a) as Hq;
        assert (Hk : snd (orderSend OrderSend rq a)
                     = snd (OrderSend (terminal a) rq))
          by (unfold orderSend; now destruct (OrderSend (terminal a) rq));
        set (request := rq) in *;
        destruct (orderSend OrderSend request a) as [a1 reply]
    end.
    cbn [fst snd] in Hr, Hq, Hk. subst reply.
    destruct (reply_ok (snd (OrderSend (terminal a) request))) eqn:Ok;
      cbn [negb]; eexists; cbn [SendReport reports requests]; rewrite Hr;
      (split; [reflexivity|]); cbn; repeat split; auto;
      exists request; rewrite Ok; repeat split; auto.
  - eexists. cbn. split; [reflexivity|]. cbn. auto.
Qed.

(** X27.  [ProcessCommand] drops a command without identifier silently.
    Every other command is answered by exactly one report carrying its
    identifier, unless the run is a trade stopped by a zero divide, which
    sends none: a PING is acknowledged with success and an unknown action
    is refused with "Unknown action", neither touching [OrderSend]. *)
Theorem ProcessCommand_answers_once commandJson a :
  let commandId := GetJsonValue commandJson "id" in
  let action := GetJsonValue commandJson "action" in
  match ProcessCommand inp DoubleToString StringToDouble IntegerToString
          StringToInteger GetJsonValue OrderSend commandJson a with
  | Finished a' =>
      if String.eqb commandId "" then a' = a
      else
        exists r,
          reports a' = reports a ++ [r]
          /\ er_commandId r = commandId
          /\ (action = "PING"%string ->
              er_success r = true /\ requests a' = requests a)
          /\ (action <> "PING"%string -> action <> "TRADE"%string ->
              action <> "CLOSE"%string ->
              er_success r = false
              /\ er_error r = ("Unknown action: " ++ action)%string
              /\ requests a' = requests a)
  | Crashed a' =>
      commandId <> ""%string /\ action = "TRADE"%string
      /\ reports a' = reports a
  end.
Proof.
  unfold ProcessCommand. cbv zeta.
  destruct (String.eqb (GetJsonValue commandJson "id") "") eqn:Eid;
    [reflexivity|].
  destruct (String.eqb (GetJsonValue commandJson "action") "PING") eqn:Ep.
  { apply String.eqb_eq in Ep. eexists. cbn. split; [reflexivity|].
    cbn. repeat split; auto; congruence. }
  apply String.eqb_neq in Ep.
  destruct (String.eqb (GetJsonValue commandJson "action") "TRADE") eqn:Et.
  { apply String.eqb_eq in Et. apply String.eqb_neq in Eid.
    pose proof (report_of_ExecuteTrade (GetJsonValue commandJson "id")
                  (tradeFields StringToDouble GetJsonValue commandJson) a)
      as H.
    destruct (ExecuteTrade _ _ _ _ _ _ _) as [a'|a'].
    - destruct H as (r & Hr & Hc). exists r. repeat split; auto;
        congruence.
    - auto. }
  apply String.eqb_neq in Et.
  destruct (String.eqb (GetJsonValue commandJson "action") "CLOSE") eqn:Ec.
  { apply String.eqb_eq in Ec.
    destruct (report_of_ClosePosition (GetJsonValue commandJson "id")
                commandJson a) as (r & Hr & Hc).
    exists r. repeat split; auto; congruence. }
  eexists. cbn. split; [reflexivity|]. cbn. repeat split; auto; congruence.
Qed.

(** ** Runs that cannot stop on a zero divide *)

Lemma divide_some a b : ~ b == 0 -> exists q, divide a b = Some q.
Proof.
  intros H. unfold divide. destruct (Qeq_bool b 0) eqn:E.
  - apply Qeq_bool_iff in E. contradiction.
  - eauto.
Qed.

Lemma NormalizePrice_some info price :
  ~ sym_point info == 0 -> exists q, NormalizePrice info price = Some q.
Proof.
  intros Hp. unfold NormalizePrice. cbv zeta.
  destruct (Qeq_bool (sym_tickSize info) 0) eqn:E.
  - destruct (divide_some price (sym_point info) Hp) as [q ->]. eauto.
  - assert (Ht : ~ sym_tickSize info == 0).
    { intros H. apply Qeq_bool_iff in H. congruence. }
    destruct (divide_some price (sym_tickSize info) Ht) as [q ->]. eauto.
Qed.

(** X28.  With the fixed lot size in use, or for a command without stop
    loss, [ExecuteTrade] cannot be stopped by a zero divide as long as the
    symbol's point size is not 0: the run finishes, and so the command is
    answered. *)
Theorem ExecuteTrade_finishes commandId cmd a :
  let b := if Hedging inp
           then CloseOppositePositions OrderSend (tj_symbol cmd) (tj_type cmd) a
           else a in
  ~ sym_point (symbolInfo (terminal b) (tj_symbol cmd)) == 0 ->
  UseRiskBasedLotSize inp = false \/ tj_stopLoss cmd <= 0 ->
  exists a',
    ExecuteTrade inp DoubleToString IntegerToString OrderSend commandId cmd a
    = Finished a'.
Proof.
  intros b Hp Hfix. unfold ExecuteTrade. cbv zeta. fold b.
  destruct (_ || _)%bool; [eauto|].
  destruct (negb (EnsureSymbolReady _)); [eauto|].
  clearbody b.
  destruct (Pyramiding inp <=? _)%Z; [eauto|].
  set (info := symbolInfo (terminal b) (tj_symbol cmd)) in *.
  assert (Hsl : exists stopLoss,
             normalizeIfSet info (tj_stopLoss cmd) = Some stopLoss
             /\ (UseRiskBasedLotSize inp = false
                 \/ Qlt_bool 0 stopLoss = false)).
  { unfold normalizeIfSet.
    destruct (Qlt_bool 0 (tj_stopLoss cmd)) eqn:E.
    - destruct (NormalizePrice_some info (tj_stopLoss cmd) Hp) as [q Hq].
      exists q. split; auto. destruct Hfix as [H|H]; auto.
      apply Qlt_bool_true in E. exfalso.
      apply (Qlt_irrefl 0). eapply Qlt_le_trans; eauto.
    - eauto. }
  destruct Hsl as (stopLoss & -> & Hrisk).
  assert (Htp : exists takeProfit,
             normalizeIfSet info (tj_takeProfit cmd) = Some takeProfit).
  { unfold normalizeIfSet. destruct (Qlt_bool 0 (tj_takeProfit cmd)); eauto.
    apply NormalizePrice_some; auto. }
  destruct Htp as (takeProfit & ->).
  assert (Hlot : lotSize inp info (accountBalance (terminal b))
                   (if String.eqb (tj_type cmd) "BUY"
                    then sym_ask info else sym_bid info)
                   stopLoss (GetPipValue (tj_symbol cmd))
                 = Some (FixedLotSize inp)).
  { unfold lotSize. destruct Hrisk as [-> | ->]; auto.
    now rewrite andb_false_r. }
  rewrite Hlot.
  destruct (Qle_bool _ 0); [eauto|].
  destruct (validateLevels _ _ _ _); [eauto|].
  destruct (divide_some
              (ddiv (dmul (if String.eqb (tj_type cmd) "BUY"
                           then sym_ask info else sym_bid info)
                       (MaxSlippagePercent inp)) 100)
              (sym_point info) Hp) as [q ->].
  destruct (orderSend OrderSend _ b) as [b1 reply].
  destruct (negb (reply_ok reply)); [eauto|].
  destruct (negb (_ =? _)%Z); eauto.
Qed.

End AgentCommandFacts.

Local Close Scope Q_scope.

(* ------------------------------------------------------------------ *)
(** ** Runs on the sample terminal                                     *)
(* ------------------------------------------------------------------ *)

Lemma NormalizeVolume_within_limits_witness :
  (roundToDouble (1 # 100) <= NormalizeVolume (fxInfo 1 1) 250)%Q
  /\ (NormalizeVolume (fxInfo 1 1) 250 <= 100)%Q.
Proof.
  refine (let H := NormalizeVolume_within_limits (fxInfo 1 1) 250 _ in
          conj (proj1 H) (proj1 (proj2 H))).
  vm_compute. discriminate.
Defined.

Lemma ExecuteTrade_pyramiding_limit_witness :
  requests (agentOf (ExecuteTrade noHedgingInputs formatDecimal formatInteger
                       fillRequest "c1" buyCommand
                       (agentWith (longPosition 1)))) = []
  /\ map er_error
       (reports (agentOf (ExecuteTrade noHedgingInputs formatDecimal
                            formatInteger fillRequest "c1" buyCommand
                            (agentWith (longPosition 1)))))
     = ["Max positions reached for EURUSD (limit: 1)"%string].
Proof.
  rewrite (ExecuteTrade_pyramiding_limit noHedgingInputs formatDecimal
             formatInteger fillRequest "c1" buyCommand
             (agentWith (longPosition 1))).
  - split; reflexivity.
  - reflexivity.
  - discriminate.
  - discriminate.
  - reflexivity.
  - repeat constructor. intros [].
  - repeat constructor.
  - vm_compute. discriminate.
Defined.

Lemma ManagePartialExits_tracked_witness :
  ManagePartialExits defaultInputs parseDouble fillRequest
    (markPartialExited 7001 (agentWith (longPosition 1)))
  = Finished (markPartialExited 7001 (agentWith (longPosition 1))).
Proof.
  apply (ManagePartialExits_tracked defaultInputs parseDouble fillRequest
           (markPartialExited 7001 (agentWith (longPosition 1)))).
  intros p [<-|[]]. reflexivity.
Defined.

(* ------------------------------------------------------------------ *)
(** ** WebSocket frames                                                *)
(* ------------------------------------------------------------------ *)

Lemma firstn_app_exact {A : Type} (l l' : list A) :
  firstn (List.length l) (l ++ l') = l.
Proof. induction l as [|x l IH]; cbn; auto. now rewrite IH. Qed.

Lemma land_127 n : 0 <= n < 128 -> Z.land n 127 = n.
Proof.
  intros H. change 127 with (Z.ones 7). rewrite Z.land_ones by lia.
  apply Z.mod_small. lia.
Qed.

Lemma lor_bytes n :
  0 <= n -> Z.lor (Z.shiftl (n / 256) 8) (n mod 256) = n.
Proof.
  intros H. rewrite Z.shiftl_mul_pow2 by lia.
  assert (D : Z.land (n / 256 * 2 ^ 8) (n mod 256) = 0).
  2:{ rewrite <- Z.lxor_lor by exact D.
      rewrite <- Z.add_nocarry_lxor by exact D.
      change (2 ^ 8) with 256. rewrite Z.mul_comm. symmetry.
      apply Z.div_mod. lia. }
  apply Z.bits_inj'. intros i Hi. rewrite Z.land_spec, Z.bits_0.
  destruct (Z.ltb i 8) eqn:E.
  - apply Z.ltb_lt in E. rewrite Z.mul_pow2_bits_low by lia. reflexivity.
  - apply Z.ltb_ge in E.
    change 256 with (2 ^ 8). rewrite Z.mod_pow2_bits_high by lia.
    apply andb_false_r.
Qed.

(** X29.  [DecodeWebSocketFrame] on the bytes of one read that start with
    an unmasked final text frame: it returns the payload of that frame,
    for the short form (up to 125 bytes) and for the form with a 16-bit
    length, and ignores every byte that follows the frame in the same
    read.  In a frame with a 64-bit length the length field is skipped but
    not read: the payload is cut to its first 127 bytes. *)
Theorem DecodeWebSocketFrame_first_frame payload rest :
  let n := Z.of_nat (List.length payload) in
  let m := Z.of_nat (List.length rest) in
  (n <= 125 ->
   DecodeWebSocketFrame (129 :: n :: payload ++ rest) (2 + n + m)
   = Text payload)
  /\ (126 <= n <= 65535 ->
      DecodeWebSocketFrame
        (129 :: 126 :: n / 256 :: n mod 256 :: payload ++ rest) (4 + n + m)
      = Text payload)
  /\ (forall l0 l1 l2 l3 l4 l5 l6 l7,
        127 <= n ->
        DecodeWebSocketFrame
          (129 :: 127 :: l0 :: l1 :: l2 :: l3 :: l4 :: l5 :: l6 :: l7
             :: payload ++ rest) (10 + n + m)
        = Text (firstn 127 payload)).
Proof.
  intros n m. unfold DecodeWebSocketFrame, extractPayload.
  split; [|split].
  - intros Hn.
    assert (L : (2 + n + m <? 2) = false) by (apply Z.ltb_ge; lia).
    rewrite L. cbn [nth_error].
    change (Z.land 129 15) with 1. cbn [Z.eqb negb Pos.eqb].
    rewrite land_127 by lia.
    assert (E1 : (n =? 126) = false) by (apply Z.eqb_neq; lia).
    assert (E2 : (n =? 127) = false) by (apply Z.eqb_neq; lia).
    assert (E3 : (2 + n + m <? 2 + n) = false) by (apply Z.ltb_ge; lia).
    rewrite E1, E2, E3. change (Z.to_nat 2) with 2%nat. cbn [skipn].
    unfold n. rewrite Nat2Z.id. now rewrite firstn_app_exact.
  - intros Hn.
    assert (L : (4 + n + m <? 2) = false) by (apply Z.ltb_ge; lia).
    rewrite L. cbn [nth_error].
    change (Z.land 129 15) with 1. cbn [Z.eqb negb Pos.eqb].
    change (Z.land 126 127) with 126. cbn [Z.eqb Pos.eqb].
    rewrite lor_bytes by lia.
    assert (E3 : (4 + n + m <? 4 + n) = false) by (apply Z.ltb_ge; lia).
    rewrite E3. change (Z.to_nat 4) with 4%nat. cbn [skipn].
    unfold n. rewrite Nat2Z.id. now rewrite firstn_app_exact.
  - intros l0 l1 l2 l3 l4 l5 l6 l7 Hn.
    assert (L : (10 + n + m <? 2) = false) by (apply Z.ltb_ge; lia).
    rewrite L. cbn [nth_error].
    change (Z.land 129 15) with 1. cbn [Z.eqb negb Pos.eqb].
    change (Z.land 127 127) with 127. cbn [Z.eqb Pos.eqb].
    assert (E3 : (10 + n + m <? 10 + 127) = false) by (apply Z.ltb_ge; lia).
    rewrite E3. change (Z.to_nat 10) with 10%nat. cbn [skipn].
    rewrite firstn_app.
    assert (Z0 : (Z.to_nat 127 - List.length payload = 0)%nat) by lia.
    rewrite Z0. cbn [firstn]. now rewrite app_nil_r.
Qed.

Lemma DecodeWebSocketFrame_first_frame_witness :
  DecodeWebSocketFrame [129; 2; 123; 125; 129; 2; 123; 125] 8
  = Text [123; 125].
Proof.
  apply (proj1 (DecodeWebSocketFrame_first_frame [123; 125]
                  [129; 2; 123; 125])).
  cbn. lia.
Defined.

Lemma nth_map_seq (f : nat -> Z) len i :
  (i < len)%nat -> nth i (map f (seq 0 len)) 0 = f i.
Proof.
  intros H. rewrite (nth_indep _ 0 (f 0%nat))
    by (now rewrite length_map, length_seq).
  rewrite map_nth. now rewrite seq_nth.
Qed.

(** X30.  [SendWebSocketMessage] sends nothing when the agent is not
    connected; otherwise the frame it builds is a final text frame with the
    mask bit set: the header holds the message length (in
    the short form up to 125 bytes, else as 16 bits, exact up to 65535
    bytes), the four mask bytes follow, and each payload byte is the
    message byte combined with the mask byte of its position modulo 4, so
    that combining it with that mask byte again gives the message byte
    back. *)
Theorem messageFrame_layout messageBytes mask :
  let n := Z.of_nat (List.length messageBytes) in
  let frame := messageFrame messageBytes mask in
  let offset := if n <=? 125 then 2%nat else 4%nat in
  (forall wsHandle,
     0 <= wsHandle ->
     SendWebSocketMessage wsHandle true messageBytes mask = Some frame)
  /\ (forall wsHandle,
        SendWebSocketMessage wsHandle false messageBytes mask = None)
  /\ List.length frame = (offset + 4 + List.length messageBytes)%nat
  /\ nth 0 frame 0 = 129
  /\ (n <= 125 -> nth 1 frame 0 = 128 + n)
  /\ (126 <= n <= 65535 ->
      nth 1 frame 0 = 254 /\ 256 * nth 2 frame 0 + nth 3 frame 0 = n)
  /\ forall i, (i < List.length messageBytes)%nat ->
       Z.lxor (nth (offset + 4 + i) frame 0) (nth (offset + i mod 4) frame 0)
       = nth i messageBytes 0.
Proof.
  intros n frame offset.
  split.
  { intros h Hh. unfold SendWebSocketMessage.
    apply Z.ltb_ge in Hh. now rewrite Hh. }
  split.
  { intros h. unfold SendWebSocketMessage. now rewrite orb_true_r. }
  assert (Hmod : forall i, (i mod 4 < 4)%nat)
    by (intros i; apply Nat.mod_upper_bound; lia).
  assert (X : forall b m, Z.lxor (Z.lxor b m) m = b).
  { intros b m. now rewrite Z.lxor_assoc, Z.lxor_nilpotent, Z.lxor_0_r. }
  unfold frame, messageFrame, offset. fold n.
  destruct (n <=? 125) eqn:E.
  - apply Z.leb_le in E. split; [|split; [|split; [|split]]].
    + cbn [app List.length]. rewrite !length_app, !length_map, !length_seq.
      cbn. lia.
    + reflexivity.
    + intros _. cbn [app nth].
      rewrite Z.mod_small by lia.
      change 128 with (1 * 2 ^ 7) at 1.
      rewrite <- Z.lxor_lor, <- Z.add_nocarry_lxor; try reflexivity.
      all: apply Z.bits_inj'; intros i Hi; rewrite Z.land_spec, Z.bits_0;
        destruct (Z.ltb i 7) eqn:L;
        [apply Z.ltb_lt in L; rewrite Z.mul_pow2_bits_low by lia; reflexivity
        |apply Z.ltb_ge in L;
         rewrite (Z.bits_above_log2 n i);
         [apply andb_false_r|lia|];
         destruct (Z.eq_dec n 0) as [->|Hn0]; [cbn; lia|];
         apply Z.log2_lt_pow2; [lia|];
         apply Z.lt_le_trans with (2 ^ 7); [lia|];
         apply Z.pow_le_mono_r; lia].
    + lia.
    + intros i Hi. cbn [app].
      change (2 + 4 + i)%nat with (S (S (4 + i))).
      change (2 + i mod 4)%nat with (S (S (i mod 4))). cbn [nth].
      rewrite app_nth2 by (rewrite length_map, length_seq; lia).
      rewrite length_map, length_seq.
      replace (4 + i - 4)%nat with i by lia.
      rewrite app_nth1 by (rewrite length_map, length_seq; apply Hmod).
      rewrite (nth_map_seq _ _ _ Hi), (nth_map_seq _ _ _ (Hmod i)).
      apply X.
  - apply Z.leb_gt in E. split; [|split; [|split; [|split]]].
    + cbn [app List.length]. rewrite !length_app, !length_map, !length_seq.
      cbn. lia.
    + reflexivity.
    + lia.
    + intros Hn. cbn [app nth]. split; [reflexivity|].
      rewrite Z.shiftr_div_pow2 by lia.
      change 255 with (Z.ones 8). rewrite !Z.land_ones by lia.
      change (2 ^ 8) with 256.
      rewrite (Z.mod_small (n / 256)).
      * symmetry. apply Z.div_mod. lia.
      * split; [apply Z.div_pos; lia|].
        apply Z.div_lt_upper_bound; lia.
    + intros i Hi. cbn [app].
      change (4 + 4 + i)%nat with (S (S (S (S (4 + i))))).
      change (4 + i mod 4)%nat with (S (S (S (S (i mod 4))))). cbn [nth].
      rewrite app_nth2 by (rewrite length_map, length_seq; lia).
      rewrite length_map, length_seq.
      replace (4 + i - 4)%nat with i by lia.
      rewrite app_nth1 by (rewrite length_map, length_seq; apply Hmod).
      rewrite (nth_map_seq _ _ _ Hi), (nth_map_seq _ _ _ (Hmod i)).
      apply X.
Qed.

Lemma ExecuteTrade_finishes_witness :
  exists a',
    ExecuteTrade defaultInputs formatDecimal formatInteger fillRequest "c1"
      (mkTradeJson "EURUSD" "BUY" (roundToDouble (1 # 100)) 0
         (roundToDouble (111 # 100))) idleAgent
    = Finished a'.
Proof.
  apply (ExecuteTrade_finishes defaultInputs formatDecimal formatInteger
           fillRequest "c1"
           (mkTradeJson "EURUSD" "BUY" (roundToDouble (1 # 100)) 0
         (roundToDouble (111 # 100))) idleAgent).
  - vm_compute. discriminate.
  - right. vm_compute. discriminate.
Defined.

Lemma messageFrame_layout_witness :
  nth 1 (messageFrame [123; 125] [7; 8; 9; 10]) 0 = 130
  /\ Z.lxor (nth 7 (messageFrame [123; 125] [7; 8; 9; 10]) 0)
            (nth 3 (messageFrame [123; 125] [7; 8; 9; 10]) 0)
     = 125.
Proof.
  pose proof (messageFrame_layout [123; 125] [7; 8; 9; 10])
    as (_ & _ & _ & _ & H1 & _ & H2).
  split.
  - apply H1. cbn. lia.
  - apply (H2 1%nat). cbn. lia.
Defined.
